(** * Widget Engine: the multi-root mount runtime

    A shallow embedding of the widget mount scripts of the repository
    (the TypeScript demo engine [main.tsx], its JavaScript twin
    [main.jsx], the engine of the technical design document, the engine
    of the setup checklist, the cleanup path of the implementation
    guide and the universal mount script of the architecture document),
    with the tracking table [activeRoots] as an insertion-ordered
    JavaScript [Map], the registry as an object literal with its
    prototype chain, the browser console and the React root API as
    logged effects, and thrown exceptions as abrupt completions. *)

From Stdlib Require Import ZArith SpecFloat.
From stdpp Require Import base option list strings gmap pretty.

Set Default Proof Using "Type".
Set Warnings "-register-all".
Local Open Scope string_scope.
Local Open Scope list_scope.

(** ** Values supplied by the host page *)

(** A string the engines look into (they trim, split or spread it) is
    held as its UTF-16 code units.  A string they only compare, join or
    hand on is a Rocq string. *)
Definition DOMString : Type := list N.

(** The code units of an ASCII literal. *)
Definition units (s : string) : DOMString :=
  map (fun a => N.of_nat (Ascii.nat_of_ascii a)) (String.list_ascii_of_string s).

(** What [JSON.parse] yields.  A number is a binary64 value, a string
    its code units, and the members of an object are its own properties
    in property order. *)
Inductive JSON : Type :=
| JNull
| JBool (b : bool)
| JNumber (x : spec_float)
| JString (s : DOMString)
| JArray (items : list JSON)
| JObject (members : list (string * JSON)).

(** The binary64 values of the literals [1], [2], [42] and [0.08]. *)
Definition number_1 : spec_float := S754_finite false 4503599627370496 (-52).
Definition number_2 : spec_float := S754_finite false 4503599627370496 (-51).
Definition number_42 : spec_float := S754_finite false 5910974510923776 (-47).
Definition number_0_08 : spec_float :=
  S754_finite false 5764607523034235 (-56).

(** An object of named values, such as the attribute object of a JSX
    expression. *)
Definition Props : Type := list (string * JSON).

(** Object spread [{...value}]: the own enumerable properties of the
    value.  An array contributes its indices, a string one property per
    code unit, [null], a boolean and a number nothing. *)
Definition spread (value : JSON) : Props :=
  match value with
  | JObject members => members
  | JArray items => imap (fun i item => (pretty i, item)) items
  | JString s => imap (fun i u => (pretty i, JString [u])) s
  | JNull | JBool _ | JNumber _ => []
  end.

(** ** The document *)

(** [container.dataset] as declared by [WidgetContainer] in
    [widget.types.ts]. *)
Record DOMStringMap : Type := mkDataset {
  widgetComponent : option string;
  props : option string;
}.

(** A DOM node.  [nodeId] stands for the identity of the object: two
    nodes are the same node exactly when their [nodeId]s agree. *)
Inductive Node : Type := mkNode {
  nodeId : nat;
  nodeType : nat;
  classList : list string;
  dataset : DOMStringMap;
  childNodes : list Node;
}.

Definition ELEMENT_NODE : nat := 1.

Definition same_node (a b : Node) : bool := Nat.eqb (nodeId a) (nodeId b).

(** The descendants of a node in document order. *)
Fixpoint descendants (n : Node) : list Node :=
  match n with
  | mkNode _ _ _ _ children =>
      flat_map (fun child => child :: descendants child) children
  end.

Inductive Selector : Type :=
| ByClass (className : string)          (* [.className] *)
| HasWidgetComponent.                   (* [[data-widget-component]] *)

Definition matches (sel : Selector) (n : Node) : bool :=
  Nat.eqb (nodeType n) ELEMENT_NODE &&
  match sel with
  | ByClass c => bool_decide (c ∈ classList n)
  | HasWidgetComponent =>
      match widgetComponent (dataset n) with Some _ => true | None => false end
  end.

Definition querySelectorAll (scope : Node) (sel : Selector) : list Node :=
  filter (fun n => matches sel n = true) (descendants scope).

(** ** React *)

(** What the lookup [registry[name]] can yield: a component made by
    [lazy(() => import(module))], stored under a key of the registry, or
    a member that the registry object inherits from [Object.prototype],
    which is no component but is truthy all the same. *)
Inductive Component : Type :=
| Lazy (module : string)
| Inherited (member : string).

(** The string-keyed members every object literal inherits from
    [Object.prototype]. *)
Definition Object_prototype : list string :=
  ["constructor"; "__defineGetter__"; "__defineSetter__"; "hasOwnProperty";
   "__lookupGetter__"; "__lookupSetter__"; "isPrototypeOf";
   "propertyIsEnumerable"; "toString"; "valueOf"; "__proto__";
   "toLocaleString"].

(** [registry[name]] on a registry written as an object literal, given
    its own keys: an own property first, then the prototype chain.
    [None] stands for [undefined]. *)
Definition Get (registry : gmap string Component) (name : string)
  : option Component :=
  match registry !! name with
  | Some component => Some component
  | None =>
      if bool_decide (name ∈ Object_prototype) then Some (Inherited name)
      else None
  end.

(** [name in registry]: an own key or an inherited one. *)
Definition HasProperty (registry : gmap string Component) (name : string)
  : bool :=
  bool_decide (name ∈ dom registry) || bool_decide (name ∈ Object_prototype).

(** The elements the engines write.  [Widget C attributes] is the JSX
    expression [<C {...} />] with the attribute object as the engine
    wrote it; what React hands of it to the component is [received]. *)
Inductive Element : Type :=
| StrictMode (children : Element)
| Suspense (fallback : Element) (children : Element)
| ErrorBoundary (widgetName : string) (children : Element)
| Div (className : string) (text : string)
| Widget (component : Component) (attributes : Props).

(** The attribute names React keeps for itself: always [key], and
    before React 19 also [ref], [__self] and [__source]. *)
Definition React18_withheld : list string :=
  ["key"; "ref"; "__self"; "__source"].
Definition React19_withheld : list string := ["key"].

(** The props a component receives from an attribute object, React
    withholding the names [withheld]. *)
Definition received (withheld : list string) (attributes : Props) : Props :=
  List.filter (fun kv => negb (bool_decide (fst kv ∈ withheld))) attributes.

(** The props object the component of an element receives. *)
Fixpoint widget_props (withheld : list string) (element : Element)
  : option Props :=
  match element with
  | Widget _ attributes => Some (received withheld attributes)
  | StrictMode children => widget_props withheld children
  | Suspense _ children => widget_props withheld children
  | ErrorBoundary _ children => widget_props withheld children
  | Div _ _ => None
  end.

(** The value is passed to the component: it is the props object the
    component receives. *)
Definition passes_value (withheld : list string) (element : Element)
    (value : JSON) : Prop :=
  exists given, widget_props withheld element = Some given /\
                JObject given = value.

(** A root made by [createRoot]; [rootId] numbers the roots in order of
    creation. *)
Record Root : Type := mkRoot {
  rootId : nat;
  rootContainer : Node;
}.

(** What the engine does to React and to the page. *)
Inductive Effect : Type :=
| CreateRoot (container : Node) (root : nat)
| Render (root : nat) (element : Element)
| Unmount (root : nat)
| SetInnerHTML (container : Node) (html : string)
| DeleteDataset (container : Node) (key : string).

(** ** Console and exceptions *)

Inductive Exception : Type :=
| SyntaxError (input : string)
| UnmountError (root : nat)
| TypeError.

Inductive Level : Type := Info | Warn | Error.

Inductive LogArg : Type :=
| NoArg
| NodeArg (n : Node)
| ErrorArg (e : Exception).

Record LogEntry : Type := mkLog {
  level : Level;
  message : string;
  argument : LogArg;
}.

(** An entry is a diagnostic when it is a warning or an error. *)
Definition is_diagnostic (e : LogEntry) : bool :=
  match level e with Info => false | Warn | Error => true end.

(** ** The insertion-ordered [Map] keyed by node identity *)

Module JSMap.
Section Ops.
Context {V : Type}.
Implicit Types (m : list (Node * V)) (k : Node) (v : V).

Fixpoint get m k : option V :=
  match m with
  | [] => None
  | (k', v) :: rest => if same_node k' k then Some v else get rest k
  end.

Definition has m k : bool :=
  match get m k with Some _ => true | None => false end.

(** [set] keeps the position of a key that is present and appends a
    new key at the end. *)
Fixpoint set m k v : list (Node * V) :=
  match m with
  | [] => [(k, v)]
  | (k', v') :: rest =>
      if same_node k' k then (k', v) :: rest else (k', v') :: set rest k v
  end.

Fixpoint delete m k : list (Node * V) :=
  match m with
  | [] => []
  | (k', v') :: rest =>
      if same_node k' k then rest else (k', v') :: delete rest k
  end.

Definition keys m : list Node := map fst m.
Definition ids m : list nat := map (fun kv => nodeId (fst kv)) m.

(** A [Map] holds each key once. *)
Definition wf m : Prop := NoDup (ids m).
End Ops.
End JSMap.

(** ** The runtime state and the completion monad *)

(** The module state of an engine with entries of type [E], together
    with what it did to the console, to React and to the page. *)
Record Runtime (E : Type) : Type := mkRuntime {
  activeRoots : list (Node * E);
  console : list LogEntry;
  effects : list Effect;
  rootCounter : nat;
}.
Arguments mkRuntime {E} _ _ _ _.
Arguments activeRoots {E} _.
Arguments console {E} _.
Arguments effects {E} _.
Arguments rootCounter {E} _.

Definition initial {E : Type} : Runtime E := mkRuntime [] [] [] 0.

Inductive Completion (A : Type) : Type :=
| Returned (a : A)
| Thrown (e : Exception).
Arguments Returned {A} a.
Arguments Thrown {A} e.

Definition JS (E A : Type) : Type := Runtime E -> Completion A * Runtime E.

Section Monad.
Context {E : Type}.

Definition ret {A} (a : A) : JS E A := fun st => (Returned a, st).

Definition bind {A B} (m : JS E A) (k : A -> JS E B) : JS E B :=
  fun st =>
    match m st with
    | (Returned a, st') => k a st'
    | (Thrown e, st') => (Thrown e, st')
    end.

Definition throw {A} (e : Exception) : JS E A := fun st => (Thrown e, st).

Definition try_catch {A} (body : JS E A) (handler : Exception -> JS E A)
  : JS E A :=
  fun st =>
    match body st with
    | (Returned a, st') => (Returned a, st')
    | (Thrown e, st') => handler e st'
    end.

Definition snapshot : JS E (Runtime E) := fun st => (Returned st, st).

Definition log (l : Level) (msg : string) (arg : LogArg) : JS E unit :=
  fun st =>
    (Returned tt,
     mkRuntime (activeRoots st) (console st ++ [mkLog l msg arg])
               (effects st) (rootCounter st)).

Definition call (c : Effect) : JS E unit :=
  fun st =>
    (Returned tt,
     mkRuntime (activeRoots st) (console st) (effects st ++ [c])
               (rootCounter st)).

Definition update (f : list (Node * E) -> list (Node * E)) : JS E unit :=
  fun st =>
    (Returned tt,
     mkRuntime (f (activeRoots st)) (console st) (effects st)
               (rootCounter st)).

(** [createRoot(container)] hands out the next root. *)
Definition createRoot (container : Node) : JS E Root :=
  fun st =>
    let r := rootCounter st in
    (Returned (mkRoot r container),
     mkRuntime (activeRoots st) (console st)
               (effects st ++ [CreateRoot container r]) (S r)).

Definition render (root : Root) (element : Element) : JS E unit :=
  call (Render (rootId root) element).
End Monad.

Notation "'let!' x ':=' m 'in' k" := (bind m (fun x => k))
  (at level 10, x name, m at level 100, k at level 200).
Notation "m >> k" := (bind m (fun _ => k))
  (at level 100, k at level 200, right associativity).

Section Iteration.
Context {E : Type}.

(** [NodeList.forEach] and [Array.forEach]: a throwing callback ends
    the loop. *)
Fixpoint forEach {A} (items : list A) (callback : A -> JS E unit)
  : JS E unit :=
  match items with
  | [] => ret tt
  | item :: rest => callback item >> forEach rest callback
  end.

(** [Map.forEach]: the keys are visited in insertion order, and a key
    deleted before its turn is passed over.  No callback of the
    engines adds a key while iterating. *)
Fixpoint visit (ks : list Node) (callback : E -> Node -> JS E unit)
  : JS E unit :=
  match ks with
  | [] => ret tt
  | k :: rest =>
      let! st := snapshot in
      match JSMap.get (activeRoots st) k with
      | Some v => callback v k >> visit rest callback
      | None => visit rest callback
      end
  end.

Definition Map_forEach (callback : E -> Node -> JS E unit) : JS E unit :=
  let! st := snapshot in visit (JSMap.keys (activeRoots st)) callback.
End Iteration.

(** ** The environment: [JSON.parse] and [root.unmount] *)

Definition quote : string := String (Ascii.ascii_of_nat 34) EmptyString.

(** The string itself when it is truthy ([undefined] and the empty
    string are falsy). *)
Definition truthy (s : option string) : option string :=
  match s with
  | Some (String a rest) => Some (String a rest)
  | _ => None
  end.

Section Environment.
Context {E : Type}.

(** The parser of the host: [None] stands for a thrown [SyntaxError]. *)
Variable parse_json : string -> option JSON.

(** Whether destroying the root with the given number throws. *)
Variable unmount_throws : nat -> bool.

Definition JSON_parse (text : string) : JS E JSON :=
  match parse_json text with
  | Some value => ret value
  | None => throw (SyntaxError text)
  end.

Definition unmount (root : Root) : JS E unit :=
  call (Unmount (rootId root)) >>
  if unmount_throws (rootId root)
  then throw (UnmountError (rootId root))
  else ret tt.
End Environment.

(** ** [main.tsx]: the TypeScript demo engine *)

Module MainTsx.

Record RootEntry : Type := mkEntry {
  root : Root;
  componentName : string;
}.

Definition already_mounted : string := "[Widget Engine] Widget already mounted:".
Definition no_component : string :=
  "[Widget Engine] No widget-component specified:".
Definition not_found (componentName : string) : string :=
  "[Widget Engine] Component " +:+ quote +:+ componentName +:+ quote
  +:+ " not found in registry.".
Definition invalid_props : string := "[Widget Engine] Invalid props JSON:".

Definition skeleton : Element := Div "skeleton-loader" EmptyString.

Section Engine.
Variable parse_json : string -> option JSON.
Variable unmount_throws : nat -> bool.
Variable registry : gmap string Component.

Definition parseProps (propsJson : option string) : JS RootEntry JSON :=
  match truthy propsJson with
  | None => ret (JObject [])
  | Some text =>
      try_catch (JSON_parse parse_json text)
        (fun error =>
           log Error invalid_props (ErrorArg error) >> ret (JObject []))
  end.

Definition mountWidget (container : Node) : JS RootEntry unit :=
  let! st := snapshot in
  if JSMap.has (activeRoots st) container then
    log Warn already_mounted (NodeArg container)
  else
    match truthy (widgetComponent (dataset container)) with
    | None => log Warn no_component (NodeArg container)
    | Some componentName =>
        match Get registry componentName with
        | None => log Warn (not_found componentName) NoArg
        | Some Component =>
            let! props := parseProps (props (dataset container)) in
            let! root := createRoot container in
            render root
              (StrictMode (Suspense skeleton (Widget Component (spread props)))) >>
            update (fun m => JSMap.set m container (mkEntry root componentName)) >>
            log Info ("[Widget Engine] Mounted " +:+ componentName) NoArg
        end
    end.

Definition unmountWidget (container : Node) : JS RootEntry unit :=
  let! st := snapshot in
  match JSMap.get (activeRoots st) container with
  | Some entry =>
      unmount unmount_throws (root entry) >>
      update (fun m => JSMap.delete m container) >>
      log Info ("[Widget Engine] Unmounted " +:+ componentName entry) NoArg
  | None => ret tt
  end.

(** The body of [initializeWidgets], given the containers its query
    found. *)
Definition scan (containers : list Node) : JS RootEntry unit :=
  log Info "[Widget Engine] Scanning for widgets..." NoArg >>
  forEach containers mountWidget.

Definition initializeWidgets (document : Node) : JS RootEntry unit :=
  scan (querySelectorAll document (ByClass "react-widget-container")).

Definition cleanupAllWidgets : JS RootEntry unit :=
  Map_forEach (fun _entry container => unmountWidget container).
End Engine.
End MainTsx.

(** [registry[componentName]]: an absent attribute is looked up under
    the property key [undefined]. *)
Definition property_key (name : option string) : string :=
  default "undefined" name.

(** [s || fallback] on an optional string. *)
Definition or_default (s : option string) (fallback : string) : string :=
  default fallback (truthy s).

(** ** [main.jsx]: the JavaScript demo engine *)

Module MainJsx.

Definition already_mounted : string := "Widget already mounted:".
Definition not_found (componentName : string) : string :=
  "[Widget Engine] Component " +:+ quote +:+ componentName +:+ quote
  +:+ " not found in registry.".
Definition invalid_props (componentName : string) : string :=
  "[Widget Engine] Invalid props JSON for " +:+ componentName.

Definition skeleton : Element := Div "skeleton-loader" EmptyString.

Section Engine.
Variable parse_json : string -> option JSON.
Variable registry : gmap string Component.

Definition mountWidget (container : Node) : JS Root unit :=
  let! st := snapshot in
  if JSMap.has (activeRoots st) container then
    log Warn already_mounted (NodeArg container)
  else
    let componentName := property_key (widgetComponent (dataset container)) in
    match Get registry componentName with
    | None => log Warn (not_found componentName) NoArg
    | Some Component =>
        let! parsed :=
          try_catch
            (let! value :=
               JSON_parse parse_json (or_default (props (dataset container)) "{}")
             in ret (Some value))
            (fun e =>
               log Error (invalid_props componentName) (ErrorArg e) >> ret None)
        in
        match parsed with
        | None => ret tt
        | Some props =>
            let! root := createRoot container in
            render root
              (StrictMode (Suspense skeleton (Widget Component (spread props)))) >>
            update (fun m => JSMap.set m container root) >>
            log Info ("[Widget Engine] Mounted " +:+ componentName) NoArg
        end
    end.

(** The body of [initializeWidgets], given the containers its query
    found. *)
Definition scan (containers : list Node) : JS Root unit :=
  log Info "[Widget Engine] Scanning for widgets..." NoArg >>
  forEach containers mountWidget.

Definition initializeWidgets (document : Node) : JS Root unit :=
  scan (querySelectorAll document (ByClass "react-widget-container")).
End Engine.
End MainJsx.

(** ** The engine of the technical design document *)

Module DesignDoc.

Definition already_mounted : string := "Widget already mounted:".
Definition not_found (componentName : string) : string :=
  "[React Integration] Component " +:+ quote +:+ componentName +:+ quote
  +:+ " not found in registry.".
Definition invalid_props (componentName : string) : string :=
  "[React Integration] Invalid props JSON for " +:+ componentName.

Definition skeleton : Element := Div "skeleton-loader" "Loading...".

Section Engine.
Variable parse_json : string -> option JSON.
Variable unmount_throws : nat -> bool.
Variable registry : gmap string Component.

Definition mountWidget (container : Node) : JS Root unit :=
  let! st := snapshot in
  if JSMap.has (activeRoots st) container then
    log Warn already_mounted (NodeArg container)
  else
    let componentName := property_key (widgetComponent (dataset container)) in
    match Get registry componentName with
    | None => log Warn (not_found componentName) NoArg
    | Some Component =>
        let! parsed :=
          try_catch
            (let! value :=
               JSON_parse parse_json (or_default (props (dataset container)) "{}")
             in ret (Some value))
            (fun e =>
               log Error (invalid_props componentName) (ErrorArg e) >> ret None)
        in
        match parsed with
        | None => ret tt
        | Some props =>
            let! root := createRoot container in
            render root
              (StrictMode (Suspense skeleton (Widget Component (spread props)))) >>
            update (fun m => JSMap.set m container root)
        end
    end.

(** The body of [initializeWidgets], given the containers its query
    found. *)
Definition scan (containers : list Node) : JS Root unit :=
  forEach containers mountWidget.

Definition initializeWidgets (scope : Node) : JS Root unit :=
  scan (querySelectorAll scope HasWidgetComponent).

Definition unmountAllWidgets : JS Root unit :=
  Map_forEach (fun root _container => unmount unmount_throws root) >>
  update (fun _ => []).
End Engine.
End DesignDoc.
(** ** The engine of the setup checklist *)

(** What [getWCMMode] reads from the page: [document.cookie] and
    [document.body.dataset.wcmmode]. *)
Record Host : Type := mkHost {
  cookie : DOMString;
  body_wcmmode : option DOMString;
}.

Record MutationRecord : Type := mkMutation {
  addedNodes : list Node;
  removedNodes : list Node;
}.

(** [s.split(sep)] for a separator of one code unit. *)
Fixpoint split (sep : N) (s : DOMString) : list DOMString :=
  match s with
  | [] => [[]]
  | u :: rest =>
      if N.eqb u sep then [] :: split sep rest
      else match split sep rest with
           | piece :: pieces => (u :: piece) :: pieces
           | [] => [[u]]
           end
  end.

Definition semicolon : N := 59.

(** The code units [String.prototype.trim] removes: the white space
    TAB, VT, FF, SP, NBSP, ZWNBSP and the space separators U+1680,
    U+2000 to U+200A, U+202F, U+205F and U+3000, and the line
    terminators LF, CR, U+2028 and U+2029. *)
Definition is_space (u : N) : bool :=
  bool_decide
    (u ∈ [9; 10; 11; 12; 13; 32; 160; 5760; 8232; 8233; 8239; 8287; 12288;
          65279]%N)
  || (N.leb 8192 u && N.leb u 8202).

Fixpoint trim_start (s : DOMString) : DOMString :=
  match s with
  | u :: rest => if is_space u then trim_start rest else s
  | [] => []
  end.

Definition trim (s : DOMString) : DOMString :=
  rev (trim_start (rev (trim_start s))).

(** [s.startsWith(prefix)]. *)
Fixpoint startsWith (prefix s : DOMString) : bool :=
  match prefix, s with
  | [], _ => true
  | p :: prefix', u :: s' => N.eqb p u && startsWith prefix' s'
  | _ :: _, [] => false
  end.

(** [s.substring(n)]. *)
Definition substring_from (n : nat) (s : DOMString) : DOMString := drop n s.

Definition newline : string := String (Ascii.ascii_of_nat 10) EmptyString.

Module Checklist.

Definition not_found (componentName : string) : string :=
  "[React] Component " +:+ quote +:+ componentName +:+ quote
  +:+ " not found in registry.".
Definition invalid_props (componentName : string) : string :=
  "[React] Invalid props JSON for " +:+ quote +:+ componentName +:+ quote +:+ ":".
Definition failed_to_mount (componentName : string) : string :=
  "[React] Failed to mount " +:+ quote +:+ componentName +:+ quote +:+ ":".

Definition loading : Element := Div EmptyString "Loading...".

(** The template literal assigned to [innerHTML] in edit mode, with its
    line breaks and indentation. *)
Definition placeholder (componentName : string) : string :=
  newline +:+ "      <div style=" +:+ quote
  +:+ "padding:20px;background:#f5f5f5;border:2px dashed #ccc;text-align:center;"
  +:+ quote +:+ ">" +:+ newline
  +:+ "        <strong>" +:+ componentName +:+ "</strong><br>" +:+ newline
  +:+ "        <small>Switch to Preview to see widget</small>" +:+ newline
  +:+ "      </div>" +:+ newline
  +:+ "    ".

Section Engine.
Variable parse_json : string -> option JSON.
Variable unmount_throws : nat -> bool.
Variable registry : gmap string Component.
Variable host : Host.

(** The loop of [getWCMMode] over the pieces of the cookie string. *)
Fixpoint wcmmode_cookie (cookies : list DOMString) : option DOMString :=
  match cookies with
  | [] => None
  | c :: rest =>
      let cookie := trim c in
      if startsWith (units "wcmmode=") cookie
      then Some (substring_from 8 cookie)
      else wcmmode_cookie rest
  end.

Definition getWCMMode : DOMString :=
  match wcmmode_cookie (split semicolon (cookie host)) with
  | Some mode => mode
  | None =>
      match body_wcmmode host with
      | Some (u :: rest) => u :: rest
      | Some [] | None => units "disabled"
      end
  end.

Definition mountWidget (container : Node) : JS Root unit :=
  let! st := snapshot in
  if JSMap.has (activeRoots st) container then ret tt
  else
    match truthy (widgetComponent (dataset container)) with
    | None => ret tt
    | Some componentName =>
        match Get registry componentName with
        | None => log Warn (not_found componentName) NoArg
        | Some Component =>
            let! parsed :=
              try_catch
                (let! value :=
                   JSON_parse parse_json
                     (or_default (props (dataset container)) "{}")
                 in ret (Some value))
                (fun e =>
                   log Error (invalid_props componentName) (ErrorArg e) >>
                   ret None)
            in
            match parsed with
            | None => ret tt
            | Some props =>
                if bool_decide (getWCMMode = units "edit") then
                  call (SetInnerHTML container (placeholder componentName))
                else
                  try_catch
                    (let! root := createRoot container in
                     render root
                       (StrictMode
                          (ErrorBoundary componentName
                             (Suspense loading
                                (Widget Component (spread props))))) >>
                     update (fun m => JSMap.set m container root))
                    (fun e =>
                       log Error (failed_to_mount componentName) (ErrorArg e))
            end
        end
    end.

Definition initWidgets (scope : Node) : JS Root unit :=
  forEach (querySelectorAll scope HasWidgetComponent) mountWidget.

(** The callback handed to [new MutationObserver]. *)
Definition observer (mutations : list MutationRecord) : JS Root unit :=
  forEach mutations (fun mutation =>
    forEach (removedNodes mutation) (fun node =>
      let! st := snapshot in
      if Nat.eqb (nodeType node) 1 && JSMap.has (activeRoots st) node then
        match JSMap.get (activeRoots st) node with
        | Some root => unmount unmount_throws root
        | None => throw TypeError
        end >>
        update (fun m => JSMap.delete m node)
      else ret tt)).
End Engine.
End Checklist.

(** ** The cleanup path of the consolidated implementation guide *)

Module Guide.
Section Engine.
Variable unmount_throws : nat -> bool.

Definition ATTR_MOUNTED : string := "reactMounted".

Definition unmountWidget (container : Node) : JS Root unit :=
  let! st := snapshot in
  match JSMap.get (activeRoots st) container with
  | Some root =>
      unmount unmount_throws root >>
      update (fun m => JSMap.delete m container) >>
      call (DeleteDataset container ATTR_MOUNTED)
  | None => ret tt
  end.

(** The callback of [setupMutationObserver]. *)
Definition observer (mutations : list MutationRecord) : JS Root unit :=
  forEach mutations (fun mutation =>
    forEach (removedNodes mutation) (fun node =>
      if Nat.eqb (nodeType node) ELEMENT_NODE then
        (let! st := snapshot in
         if JSMap.has (activeRoots st) node then unmountWidget node
         else ret tt) >>
        forEach (querySelectorAll node HasWidgetComponent) (fun container =>
          let! st := snapshot in
          if JSMap.has (activeRoots st) container then unmountWidget container
          else ret tt)
      else ret tt)).
End Engine.
End Guide.

(** ** The universal mount script of the architecture document *)

Module Universal.

Definition missing_attribute : string :=
  "Widget container missing data-react-component attribute".
Definition not_found (name : string) : string :=
  "Component " +:+ quote +:+ name +:+ quote +:+ " not found in registry".
Definition parse_error (componentName : string) : string :=
  "Error parsing props for " +:+ componentName +:+ ":".

(** [<WidgetSkeleton />] (the inner pulse element left out). *)
Definition WidgetSkeleton : Element := Div "widget-skeleton" EmptyString.

(** [<WidgetErrorBoundary>]: the boundary of this script takes no
    name. *)
Definition WidgetErrorBoundary (children : Element) : Element :=
  ErrorBoundary EmptyString children.

(** The script marks the containers it mounted with the attribute
    [data-react-initialized]; [initialized] holds the nodes it has
    marked. *)
Record Page : Type := mkPage {
  runtime : Runtime Root;
  initialized : list nat;
}.

Definition U (A : Type) : Type := Page -> Completion A * Page.

Definition lift {A} (m : JS Root A) : U A :=
  fun page =>
    match m (runtime page) with
    | (completion, rt) => (completion, mkPage rt (initialized page))
    end.

Definition andThen {A B} (m : U A) (k : A -> U B) : U B :=
  fun page =>
    match m page with
    | (Returned a, page') => k a page'
    | (Thrown e, page') => (Thrown e, page')
    end.

(** [container.setAttribute('data-react-initialized', 'true')]. *)
Definition setInitialized (container : Node) : U unit :=
  fun page =>
    (Returned tt, mkPage (runtime page) (nodeId container :: initialized page)).

Fixpoint forEachU {A} (items : list A) (callback : A -> U unit) : U unit :=
  match items with
  | [] => fun page => (Returned tt, page)
  | item :: rest => andThen (callback item) (fun _ => forEachU rest callback)
  end.

Section Script.
Variable parse_json : string -> option JSON.
Variable unmount_throws : nat -> bool.
Variable componentRegistry : gmap string Component.

(** The attributes the host page gave an element, and the text content
    of the element with a given id. *)
Variable getAttribute : Node -> string -> option string.
Variable getElementById : string -> option string.

Definition getComponent (name : string) : JS Root (option Component) :=
  match Get componentRegistry name with
  | None => log Error (not_found name) NoArg >> ret None
  | Some component => ret (Some component)
  end.

Definition mountWidget (container : Node) : U unit :=
  match truthy (getAttribute container "data-react-component") with
  | None => lift (log Warn missing_attribute (NodeArg container))
  | Some componentName =>
      andThen (lift (getComponent componentName)) (fun found =>
        match found with
        | None => fun page => (Returned tt, page)
        | Some Component =>
            andThen
              (lift
                 (let! props :=
                    try_catch
                      (match truthy (getAttribute container "data-source") with
                       | Some propsSource =>
                           match getElementById propsSource with
                           | Some textContent =>
                               JSON_parse parse_json textContent
                           | None => ret (JObject [])
                           end
                       | None =>
                           match truthy (getAttribute container "data-props") with
                           | Some propsAttr => JSON_parse parse_json propsAttr
                           | None => ret (JObject [])
                           end
                       end)
                      (fun error =>
                         log Error (parse_error componentName) (ErrorArg error) >>
                         ret (JObject []))
                  in
                  let! root := createRoot container in
                  update (fun m => JSMap.set m container root) >>
                  render root
                    (StrictMode
                       (WidgetErrorBoundary
                          (Suspense WidgetSkeleton
                             (Widget Component (spread props)))))))
              (fun _ => setInitialized container)
        end)
  end.

(** [[data-react-component]:not([data-react-initialized])] on the page
    as it is now. *)
Definition selected (page : Page) (n : Node) : bool :=
  Nat.eqb (nodeType n) ELEMENT_NODE
  && bool_decide (is_Some (getAttribute n "data-react-component"))
  && negb (bool_decide (is_Some (getAttribute n "data-react-initialized")))
  && negb (bool_decide (nodeId n ∈ initialized page)).

Definition initializeWidgets (document : Node) : U unit :=
  fun page =>
    forEachU (List.filter (selected page) (descendants document)) mountWidget
      page.

Definition unmountAllWidgets : U unit :=
  lift (Map_forEach (fun root _container => unmount unmount_throws root) >>
        update (fun _ => [])).
End Script.
End Universal.

(** ** React's error boundaries *)

(** The [ErrorBoundary] class of the setup checklist. *)
Module ErrorBoundaryClass.

Record State : Type := mkState {
  hasError : bool;
  error : option Component;
}.

Definition constructor : State := mkState false None.

(** [getDerivedStateFromError(error)]; the error is identified by the
    component that threw it. *)
Definition getDerivedStateFromError (error : Component) : State :=
  mkState true (Some error).

Definition componentDidCatch (widgetName : string) : LogEntry :=
  mkLog Error ("[React] Error in " +:+ quote +:+ widgetName +:+ quote +:+ ":")
        NoArg.

(** The fallback markup (styling left out). *)
Definition widget_error (widgetName : string) : Element :=
  Div EmptyString
      ("Widget Error: The " +:+ quote +:+ widgetName +:+ quote
       +:+ " widget encountered an error.").

Definition render (widgetName : string) (state : State) (children : Element)
  : Element :=
  if hasError state then widget_error widgetName else children.

End ErrorBoundaryClass.

Fixpoint has_error_boundary (element : Element) : bool :=
  match element with
  | ErrorBoundary _ _ => true
  | StrictMode children => has_error_boundary children
  | Suspense _ children => has_error_boundary children
  | Div _ _ | Widget _ _ => false
  end.

(** What React paints for an element when the components selected by
    [fails] throw while rendering, following React's contract for error
    boundaries: the error unwinds to the nearest boundary, which renders
    again with the state of [getDerivedStateFromError]; an error that
    reaches the root unmounts the whole tree of that root ([inr], with
    the component that threw) and leaves its container empty. *)
Fixpoint paint (fails : Component -> bool) (element : Element)
  : Element + Component :=
  match element with
  | Widget C p => if fails C then inr C else inl (Widget C p)
  | Div className text => inl (Div className text)
  | StrictMode children => paint fails children
  | Suspense _ children => paint fails children
  | ErrorBoundary widgetName children =>
      match paint fails children with
      | inl painted =>
          inl (ErrorBoundaryClass.render widgetName
                 ErrorBoundaryClass.constructor painted)
      | inr thrown =>
          inl (ErrorBoundaryClass.render widgetName
                 (ErrorBoundaryClass.getDerivedStateFromError thrown) children)
      end
  end.

(** ** The vocabulary of the statements *)

Definition logged {E} (st : Runtime E) (entries : list LogEntry) : Runtime E :=
  mkRuntime (activeRoots st) (console st ++ entries) (effects st)
            (rootCounter st).

(** The state after a root was created in [container], rendered with
    [element] and recorded under [entry]. *)
Definition tracked {E} (st : Runtime E) (container : Node) (entry : E)
    (element : Element) (entries : list LogEntry) : Runtime E :=
  mkRuntime (JSMap.set (activeRoots st) container entry)
            (console st ++ entries)
            (effects st ++ [CreateRoot container (rootCounter st);
                            Render (rootCounter st) element])
            (S (rootCounter st)).

(** The state after the root numbered [r] was destroyed and the entry of
    [container] dropped. *)
Definition released {E} (st : Runtime E) (container : Node) (r : nat)
    (entries : list LogEntry) : Runtime E :=
  mkRuntime (JSMap.delete (activeRoots st) container)
            (console st ++ entries)
            (effects st ++ [Unmount r])
            (rootCounter st).

Definition tsx_element (C : Component) (value : JSON) : Element :=
  StrictMode (Suspense MainTsx.skeleton (Widget C (spread value))).

Definition tsx_mounted_log (name : string) : LogEntry :=
  mkLog Info ("[Widget Engine] Mounted " +:+ name) NoArg.

Definition tsx_unmounted_log (entry : MainTsx.RootEntry) : LogEntry :=
  mkLog Info ("[Widget Engine] Unmounted " +:+ MainTsx.componentName entry) NoArg.

Definition scanning_log : LogEntry :=
  mkLog Info "[Widget Engine] Scanning for widgets..." NoArg.

(** The warning [main.tsx] gives for a container it does not mount. *)
Definition tsx_skip_diagnostic (registry : gmap string Component)
    (table : list (Node * MainTsx.RootEntry)) (container : Node) : LogEntry :=
  if JSMap.has table container then
    mkLog Warn MainTsx.already_mounted (NodeArg container)
  else
    match truthy (widgetComponent (dataset container)) with
    | None => mkLog Warn MainTsx.no_component (NodeArg container)
    | Some name => mkLog Warn (MainTsx.not_found name) NoArg
    end.

(** A container a scan has nothing left to do for: it is tracked, or it
    names no component, or a name the registry lookup does not find. *)
Definition settled (registry : gmap string Component)
    (table : list (Node * MainTsx.RootEntry)) (container : Node) : Prop :=
  JSMap.has table container = true \/
  match truthy (widgetComponent (dataset container)) with
  | None => True
  | Some name => Get registry name = None
  end.

Definition tsx_roots (table : list (Node * MainTsx.RootEntry)) : list Root :=
  map (fun kv => MainTsx.root (snd kv)) table.

(** The outcome of a teardown that reaches the roots [after] next: it
    throws at the first of them, if there is one. *)
Definition teardown_outcome (after : list Root) : Completion unit :=
  match after with
  | [] => Returned tt
  | r :: _ => Thrown (UnmountError (rootId r))
  end.

(** The [unmount] calls of a teardown that destroyed the roots [before]
    and then reached the roots [after]. *)
Definition teardown_calls (before after : list Root) : list Effect :=
  map (fun r => Unmount (rootId r)) before
  ++ match after with [] => [] | r :: _ => [Unmount (rootId r)] end.

Definition throws_at_head (unmount_throws : nat -> bool) (after : list Root)
  : Prop :=
  match after with [] => True | r :: _ => unmount_throws (rootId r) = true end.

(** The root numbered [r] was created in the node [container] and
    [unmount] was not called on it. *)
Definition live (log : list Effect) (container : Node) (r : nat) : Prop :=
  (exists c, In (CreateRoot c r) log /\ nodeId c = nodeId container) /\
  ~ In (Unmount r) log.

(** The invariant of the tracking table: each container has at most one
    entry, a live root of a container is the root of its entry, and the
    roots created so far are numbered below [rootCounter] (so that
    [createRoot] never hands out a root twice). *)
Definition one_root_each {E} (root_of : E -> Root) (st : Runtime E) : Prop :=
  JSMap.wf (activeRoots st) /\
  (forall container r,
     live (effects st) container r ->
     exists entry,
       JSMap.get (activeRoots st) container = Some entry /\
       rootId (root_of entry) = r) /\
  (forall container r,
     In (CreateRoot container r) (effects st) -> r < rootCounter st).

(** The calls a page can make into [main.tsx]. *)
Inductive TsxCall : Type :=
| CallMount (container : Node)
| CallUnmount (container : Node)
| CallInitialize (document : Node)
| CallCleanupAll.

Section Session.
Variable parse_json : string -> option JSON.
Variable unmount_throws : nat -> bool.
Variable registry : gmap string Component.

(** The state a call leaves behind, whether it returns or throws. *)
Definition perform (st : Runtime MainTsx.RootEntry) (c : TsxCall)
  : Runtime MainTsx.RootEntry :=
  snd (match c with
       | CallMount container =>
           MainTsx.mountWidget parse_json registry container st
       | CallUnmount container =>
           MainTsx.unmountWidget unmount_throws container st
       | CallInitialize document =>
           MainTsx.initializeWidgets parse_json registry document st
       | CallCleanupAll => MainTsx.cleanupAllWidgets unmount_throws st
       end).

Definition session (calls : list TsxCall) : Runtime MainTsx.RootEntry :=
  fold_left perform calls initial.
End Session.

(** ** The demo page *)

(** The own keys of the registry object of [registry.ts] and
    [registry.js] of the demo; the members it inherits are found by
    [Get]. *)
Definition demo_registry : gmap string Component :=
  <["ProductCard" := Lazy "./components/ProductCard"]>
  (<["Calculator" := Lazy "./components/Calculator"]> ∅).

(** The values of [JSON.parse] on the texts used by the examples. *)
Definition sample_parse (text : string) : option JSON :=
  if String.eqb text "{}" then Some (JObject [])
  else if String.eqb text "42" then Some (JNumber number_42)
  else if String.eqb text "[1,2]"
  then Some (JArray [JNumber number_1; JNumber number_2])
  else if String.eqb text "0.08" then Some (JNumber number_0_08)
  else None.

Definition never (r : nat) : bool := false.

(** Destroying root 0 throws. *)
Definition first_root_throws (r : nat) : bool := Nat.eqb r 0.

Definition published : Host := mkHost [] None.

Definition widget (id : nat) (name : option string) (config : option string) : Node :=
  mkNode id ELEMENT_NODE ["react-widget-container"] (mkDataset name config) [].

Definition missing_widget : Node := widget 1 (Some "Missing") None.

(** A container named after a member of [Object.prototype], and a page
    that holds nothing else. *)
Definition tostring_widget : Node := widget 11 (Some "toString") None.

Definition tostring_page : Node :=
  mkNode 12 ELEMENT_NODE [] (mkDataset None None) [tostring_widget].

Definition product_card : Node :=
  widget 2 (Some "ProductCard") (Some "{}").

Definition bare_calculator : Node := widget 3 (Some "Calculator") None.

Definition blank_calculator : Node :=
  widget 4 (Some "Calculator") (Some EmptyString).

Definition number_card : Node := widget 5 (Some "ProductCard") (Some "42").

Definition array_card : Node := widget 6 (Some "ProductCard") (Some "[1,2]").

Definition malformed_card : Node :=
  widget 7 (Some "ProductCard") (Some "{not valid json").

Definition nested_card : Node := widget 8 (Some "ProductCard") (Some "{}").

(** The wrapper element the host puts around a component. *)
Definition wrapper : Node :=
  mkNode 9 ELEMENT_NODE ["cq-wrapper"] (mkDataset None None) [nested_card].

(** The body of the demo page: a product card and a calculator. *)
Definition demo_page : Node :=
  mkNode 0 ELEMENT_NODE [] (mkDataset None None)
    [product_card; bare_calculator].

(** The state of the demo page after its product card was mounted. *)
Definition one_widget : Runtime MainTsx.RootEntry :=
  snd (MainTsx.mountWidget sample_parse demo_registry product_card initial).

(** The demo page with its product card and a calculator mounted. *)
Definition two_widgets : Runtime MainTsx.RootEntry :=
  snd (MainTsx.scan sample_parse demo_registry
         [product_card; bare_calculator] initial).

Definition two_roots : Runtime Root :=
  snd (DesignDoc.scan sample_parse demo_registry
         [product_card; bare_calculator] initial).

Definition scanned_once : Runtime MainTsx.RootEntry :=
  snd (MainTsx.initializeWidgets sample_parse demo_registry demo_page initial).

Definition page_with_nested : Runtime Root :=
  snd (Checklist.mountWidget sample_parse demo_registry published
         nested_card initial).

(** ** [registry.ts] *)

(** [isRegisteredWidget(name)]: [name in registry]. *)
Definition isRegisteredWidget (registry : gmap string Component)
    (name : string) : bool :=
  HasProperty registry name.

(** ** More vocabulary *)

(** The component name [main.tsx] reads from a container (empty when
    there is none). *)
Definition tsx_name (container : Node) : string :=
  default EmptyString (truthy (widgetComponent (dataset container))).

(** A container [main.tsx] can mount: the registry object has a
    property of its component name. *)
Definition tsx_mountable (registry : gmap string Component)
    (container : Node) : bool :=
  match truthy (widgetComponent (dataset container)) with
  | Some name => isRegisteredWidget registry name
  | None => false
  end.

(** The entries a scan of [main.tsx] appends for the containers it
    mounts, the first root being numbered [first]. *)
Definition tsx_new_entries (first : nat) (mounted : list Node)
  : list (Node * MainTsx.RootEntry) :=
  imap (fun i c => (c, MainTsx.mkEntry (mkRoot (first + i) c) (tsx_name c)))
       mounted.

Definition is_unmount (e : Effect) : bool :=
  match e with Unmount _ => true | _ => false end.

(** Every entry of the table of [main.tsx] was made for its own key.
    The key [k] is the container as it was handed to [mountWidget]: the
    root was created in it, the recorded name is the component name it
    carried then, and the registry object has a property of that
    name. *)
Definition tsx_entries_consistent (registry : gmap string Component)
    (st : Runtime MainTsx.RootEntry) : Prop :=
  forall k e,
    In (k, e) (activeRoots st) ->
    rootContainer (MainTsx.root e) = k /\
    tsx_mountable registry k = true /\
    MainTsx.componentName e = tsx_name k /\
    In (CreateRoot k (rootId (MainTsx.root e))) (effects st).

(** The entries a scan appends for the containers it mounts, the first
    root being numbered [first]. *)
Definition numbered {E} (entry_of : nat -> Node -> E) (first : nat)
    (mounted : list Node) : list (Node * E) :=
  imap (fun i c => (c, entry_of (first + i) c)) mounted.

(** A container [main.jsx] and the engine of the design document can
    mount: the registry lookup finds its component key and its props (or
    the default text) parse. *)
Definition jsx_mountable (parse_json : string -> option JSON)
    (registry : gmap string Component) (container : Node) : bool :=
  bool_decide
    (is_Some
       (Get registry (property_key (widgetComponent (dataset container)))))
  && bool_decide
       (is_Some (parse_json (or_default (props (dataset container)) "{}"))).

(** The containers of a list that a scan starting with the table
    [table] has to mount. *)
Definition to_mount {E} (ok : Node -> bool) (table : list (Node * E))
    (containers : list Node) : list Node :=
  List.filter (fun c => ok c && negb (JSMap.has table c)) containers.

(** A page with two good widgets and, between them, a malformed card
    and a container named after a member of [Object.prototype]. *)
Definition mixed_page : Node :=
  mkNode 10 ELEMENT_NODE [] (mkDataset None None)
    [product_card; malformed_card; tostring_widget; bare_calculator].

(** A container the engine of the setup checklist can mount: the
    registry lookup finds its component name and its props (or the
    default text) parse. *)
Definition checklist_mountable (parse_json : string -> option JSON)
    (registry : gmap string Component) (container : Node) : bool :=
  match truthy (widgetComponent (dataset container)) with
  | Some name =>
      bool_decide (is_Some (Get registry name))
      && bool_decide
           (is_Some (parse_json (or_default (props (dataset container)) "{}")))
  | None => false
  end.

(** The placeholder the engine of the checklist writes into a container
    in edit mode. *)
Definition placeholder_call (container : Node) : Effect :=
  SetInnerHTML container (Checklist.placeholder (tsx_name container)).

(** [document.cookie]: the cookies joined by semicolons. *)
Fixpoint cookie_string (cookies : list DOMString) : DOMString :=
  match cookies with
  | [] => []
  | [c] => c
  | c :: rest => c ++ semicolon :: cookie_string rest
  end.

Fixpoint contains (a : N) (s : DOMString) : bool :=
  match s with
  | [] => false
  | b :: rest => N.eqb b a || contains a rest
  end.

(** The author instance in edit mode. *)
Definition author_edit : Host :=
  mkHost (units "cq-authoring-mode=TOUCH; wcmmode=edit")
         (Some (units "preview")).

(** The containers the observer of the implementation guide looks at:
    every removed element, followed by the widget containers below
    it. *)
Definition removed_containers (mutations : list MutationRecord) : list Node :=
  flat_map
    (fun mutation =>
       flat_map
         (fun node =>
            if Nat.eqb (nodeType node) ELEMENT_NODE
            then node :: querySelectorAll node HasWidgetComponent
            else [])
         (removedNodes mutation))
    mutations.

(** The state after the guide released a container (nothing happens to
    an untracked one). *)
Definition guide_release (st : Runtime Root) (container : Node)
  : Runtime Root :=
  match JSMap.get (activeRoots st) container with
  | Some root =>
      mkRuntime (JSMap.delete (activeRoots st) container) (console st)
        (effects st ++ [Unmount (rootId root);
                        DeleteDataset container Guide.ATTR_MOUNTED])
        (rootCounter st)
  | None => st
  end.

(** A container the universal mount script mounts: the registry lookup
    finds the name in its [data-react-component]. *)
Definition universal_mountable (componentRegistry : gmap string Component)
    (getAttribute : Node -> string -> option string) (container : Node) : bool :=
  match truthy (getAttribute container "data-react-component") with
  | Some name => bool_decide (is_Some (Get componentRegistry name))
  | None => false
  end.

Definition universal_element (C : Component) (value : JSON) : Element :=
  StrictMode
    (Universal.WidgetErrorBoundary
       (Suspense Universal.WidgetSkeleton (Widget C (spread value)))).

(** The diagnostic the universal mount script gives for a container it
    does not mount. *)
Definition universal_skip_diagnostic
    (getAttribute : Node -> string -> option string) (container : Node)
  : LogEntry :=
  match truthy (getAttribute container "data-react-component") with
  | None => mkLog Warn Universal.missing_attribute (NodeArg container)
  | Some name => mkLog Error (Universal.not_found name) NoArg
  end.

(** The page after the universal script only wrote to the console. *)
Definition page_logged (page : Universal.Page) (lines : list LogEntry)
  : Universal.Page :=
  Universal.mkPage (logged (Universal.runtime page) lines)
                   (Universal.initialized page).

(** The attributes of a chart widget that takes its props from the
    script element [chart-data-1]. *)
Definition chart_attributes (n : Node) (name : string) : option string :=
  if Nat.eqb (nodeId n) 2 then
    if String.eqb name "data-react-component" then Some "ProductCard"
    else if String.eqb name "data-source" then Some "chart-data-1"
    else if String.eqb name "data-props" then Some "[1,2]"
    else None
  else None.

Definition no_script (id : string) : option string := None.

Definition broken_script (id : string) : option string :=
  if String.eqb id "chart-data-1" then Some "{not valid json" else None.

Definition fresh_page : Universal.Page := Universal.mkPage initial [].

(** * Properties *)

(** ** The registry object *)

Section RegistryFacts.
Variable registry : gmap string Component.

Lemma Get_own name C : registry !! name = Some C -> Get registry name = Some C.
Proof. intros H. unfold Get. rewrite H. reflexivity. Qed.

Lemma Get_inherited name :
  registry !! name = None -> name ∈ Object_prototype ->
  Get registry name = Some (Inherited name).
Proof.
  intros H Hin. unfold Get. rewrite H.
  rewrite bool_decide_eq_true_2 by exact Hin. reflexivity.
Qed.

Lemma Get_None name :
  Get registry name = None <->
  registry !! name = None /\ name ∉ Object_prototype.
Proof.
  unfold Get. destruct (registry !! name) as [C|].
  - split; [discriminate | intros [H _]; discriminate H].
  - destruct (bool_decide (name ∈ Object_prototype)) eqn:Hp.
    + apply bool_decide_eq_true in Hp.
      split; [discriminate | intros [_ H]; contradiction].
    + apply bool_decide_eq_false in Hp. split; [auto | reflexivity].
Qed.

(** [name in registry] holds exactly when the lookup finds something:
    every member of the registry and of [Object.prototype] is
    truthy. *)
Lemma HasProperty_Get name :
  HasProperty registry name = true <-> is_Some (Get registry name).
Proof.
  unfold HasProperty, Get. rewrite orb_true_iff, !bool_decide_eq_true.
  rewrite elem_of_dom. destruct (registry !! name) as [C|].
  - split; [intros _; eexists; reflexivity | intros _; left; eexists; reflexivity].
  - destruct (bool_decide (name ∈ Object_prototype)) eqn:Hp.
    + apply bool_decide_eq_true in Hp.
      split; [intros _; eexists; reflexivity | intros _; right; exact Hp].
    + apply bool_decide_eq_false in Hp. split.
      * intros [[C HC]|H]; [discriminate HC | contradiction].
      * intros [C HC]. discriminate HC.
Qed.

Lemma HasProperty_false name :
  HasProperty registry name = false <-> Get registry name = None.
Proof.
  pose proof (HasProperty_Get name) as H.
  destruct (HasProperty registry name), (Get registry name) as [C|];
    split; intros H'; try reflexivity; try discriminate.
  - exfalso. destruct (proj1 H eq_refl) as [C HC]. discriminate HC.
  - exfalso. assert (Hs : is_Some (Some C)) by (eexists; reflexivity).
    apply H in Hs. discriminate Hs.
Qed.
End RegistryFacts.


(** ** The [Map] *)

Section MapFacts.
Context {V : Type}.
Implicit Types (m : list (Node * V)) (k : Node) (v : V).

Lemma same_node_refl k : same_node k k = true.
Proof. unfold same_node. apply Nat.eqb_refl. Qed.

Lemma same_node_true a b : same_node a b = true <-> nodeId a = nodeId b.
Proof. unfold same_node. apply Nat.eqb_eq. Qed.

Lemma same_node_false a b : same_node a b = false <-> nodeId a <> nodeId b.
Proof. unfold same_node. apply Nat.eqb_neq. Qed.

Lemma get_same_id m k k' :
  nodeId k = nodeId k' -> JSMap.get m k = JSMap.get m k'.
Proof.
  intros Hid. induction m as [|[k0 v0] m IH]; simpl; [reflexivity|].
  unfold same_node. rewrite Hid, IH. reflexivity.
Qed.

Lemma get_None_ids m k :
  JSMap.get m k = None <-> nodeId k ∉ JSMap.ids m.
Proof.
  induction m as [|[k0 v0] m IH]; simpl.
  - split; [intros _; apply not_elem_of_nil | reflexivity].
  - destruct (same_node k0 k) eqn:Hs.
    + apply same_node_true in Hs. split; [discriminate|].
      intros Hn. exfalso. apply Hn. rewrite Hs. apply list_elem_of_here.
    + apply same_node_false in Hs. rewrite IH, not_elem_of_cons.
      split; [intros H; split; [congruence | exact H] | intros [_ H]; exact H].
Qed.

Lemma has_false_get m k : JSMap.has m k = false <-> JSMap.get m k = None.
Proof. unfold JSMap.has. destruct (JSMap.get m k); split; congruence. Qed.

Lemma has_true_get m k :
  JSMap.has m k = true <-> exists v, JSMap.get m k = Some v.
Proof.
  unfold JSMap.has. destruct (JSMap.get m k) as [v|]; split.
  - intros _. exists v. reflexivity.
  - reflexivity.
  - discriminate.
  - intros [v Hv]. discriminate.
Qed.

Lemma set_absent m k v :
  JSMap.get m k = None -> JSMap.set m k v = m ++ [(k, v)].
Proof.
  induction m as [|[k0 v0] m IH]; simpl; [reflexivity|].
  destruct (same_node k0 k); [discriminate|].
  intros H. rewrite IH by exact H. reflexivity.
Qed.

Lemma get_set_same m k v : JSMap.get (JSMap.set m k v) k = Some v.
Proof.
  induction m as [|[k0 v0] m IH]; simpl.
  - rewrite same_node_refl. reflexivity.
  - destruct (same_node k0 k) eqn:Hs; simpl; rewrite Hs; [reflexivity | exact IH].
Qed.

Lemma get_set_other m k k' v :
  nodeId k <> nodeId k' -> JSMap.get (JSMap.set m k v) k' = JSMap.get m k'.
Proof.
  intros Hne. induction m as [|[k0 v0] m IH]; simpl.
  - apply same_node_false in Hne. rewrite Hne. reflexivity.
  - destruct (same_node k0 k) eqn:Hs; simpl.
    + apply same_node_true in Hs.
      assert (same_node k0 k' = false) as ->
        by (apply same_node_false; congruence).
      reflexivity.
    + destruct (same_node k0 k'); [reflexivity | exact IH].
Qed.

Lemma ids_set_present m k v :
  JSMap.get m k <> None -> JSMap.ids (JSMap.set m k v) = JSMap.ids m.
Proof.
  induction m as [|[k0 v0] m IH]; simpl; [congruence|].
  destruct (same_node k0 k); simpl; [reflexivity|].
  intros H. rewrite IH by exact H. reflexivity.
Qed.

Lemma wf_set m k v : JSMap.wf m -> JSMap.wf (JSMap.set m k v).
Proof.
  unfold JSMap.wf. intros Hwf.
  destruct (JSMap.get m k) as [v0|] eqn:Hg.
  - rewrite ids_set_present by congruence. exact Hwf.
  - rewrite set_absent by exact Hg. unfold JSMap.ids in *.
    rewrite map_app. simpl. apply NoDup_app. split; [exact Hwf|]. split.
    + intros x Hx Hx'. apply list_elem_of_singleton in Hx'. subst x.
      apply get_None_ids in Hg. exact (Hg Hx).
    + apply NoDup_singleton.
Qed.

Lemma ids_delete_sub m k x :
  x ∈ JSMap.ids (JSMap.delete m k) -> x ∈ JSMap.ids m.
Proof.
  induction m as [|[k0 v0] m IH]; simpl; [trivial|].
  destruct (same_node k0 k); simpl.
  - intros H. apply list_elem_of_further. exact H.
  - rewrite !elem_of_cons. intros [H|H]; [left; exact H | right; exact (IH H)].
Qed.

Lemma wf_delete m k : JSMap.wf m -> JSMap.wf (JSMap.delete m k).
Proof.
  unfold JSMap.wf. induction m as [|[k0 v0] m IH]; simpl; [trivial|].
  intros Hwf. apply NoDup_cons in Hwf as [Hk0 Hm].
  destruct (same_node k0 k); simpl; [exact Hm|].
  apply NoDup_cons. split; [|exact (IH Hm)].
  intros Hin. apply Hk0. exact (ids_delete_sub _ _ _ Hin).
Qed.

Lemma get_delete_same m k :
  JSMap.wf m -> JSMap.get (JSMap.delete m k) k = None.
Proof.
  unfold JSMap.wf. induction m as [|[k0 v0] m IH]; simpl; [reflexivity|].
  intros Hwf. apply NoDup_cons in Hwf as [Hk0 Hm].
  destruct (same_node k0 k) eqn:Hs; simpl.
  - apply get_None_ids. apply same_node_true in Hs. rewrite <- Hs. exact Hk0.
  - rewrite Hs. exact (IH Hm).
Qed.

Lemma get_delete_other m k k' :
  nodeId k <> nodeId k' -> JSMap.get (JSMap.delete m k) k' = JSMap.get m k'.
Proof.
  intros Hne. induction m as [|[k0 v0] m IH]; simpl; [reflexivity|].
  destruct (same_node k0 k) eqn:Hs; simpl.
  - apply same_node_true in Hs.
    assert (same_node k0 k' = false) as ->
      by (apply same_node_false; congruence).
    reflexivity.
  - destruct (same_node k0 k'); [reflexivity | exact IH].
Qed.

Lemma get_In m k v : JSMap.get m k = Some v -> exists k0, In (k0, v) m /\ nodeId k0 = nodeId k.
Proof.
  induction m as [|[k0 v0] m IH]; simpl; [discriminate|].
  destruct (same_node k0 k) eqn:Hs.
  - intros [= ->]. exists k0. split; [left; reflexivity|].
    apply same_node_true. exact Hs.
  - intros H. destruct (IH H) as (k1 & Hin & Hid). exists k1. auto.
Qed.
End MapFacts.

(** ** [main.tsx], one call at a time *)

Ltac run_js :=
  unfold bind, snapshot, ret, log, call, update, render, createRoot,
    try_catch, throw, JSON_parse, unmount; cbn beta iota.

(** Closes [NoDup] of a list of concrete node numbers. *)
Ltac distinct_ids :=
  vm_compute;
  repeat (apply NoDup_cons; split);
  try apply NoDup_nil_2;
  rewrite ?elem_of_cons; intros H;
  repeat (destruct H as [H|H]; [discriminate H|]);
  apply elem_of_nil in H; exact H.

Ltac finish_js :=
  run_js; unfold tracked, released, logged; cbn;
  rewrite ?app_nil_r, <- ?app_assoc; reflexivity.

Section MainTsxSteps.
Variable parse_json : string -> option JSON.
Variable unmount_throws : nat -> bool.
Variable registry : gmap string Component.
Implicit Types (st : Runtime MainTsx.RootEntry) (container : Node).

Local Abbreviation mountWidget := (MainTsx.mountWidget parse_json registry).
Local Abbreviation parseProps := (MainTsx.parseProps parse_json).
Local Abbreviation unmountWidget := (MainTsx.unmountWidget unmount_throws).

Lemma tsx_mount_tracked container st :
  JSMap.has (activeRoots st) container = true ->
  mountWidget container st =
    (Returned tt,
     logged st [mkLog Warn MainTsx.already_mounted (NodeArg container)]).
Proof.
  intros Hhas. unfold MainTsx.mountWidget. run_js. rewrite Hhas. reflexivity.
Qed.

Lemma tsx_mount_unnamed container st :
  JSMap.has (activeRoots st) container = false ->
  truthy (widgetComponent (dataset container)) = None ->
  mountWidget container st =
    (Returned tt,
     logged st [mkLog Warn MainTsx.no_component (NodeArg container)]).
Proof.
  intros Hhas Hname. unfold MainTsx.mountWidget. run_js.
  rewrite Hhas, Hname. reflexivity.
Qed.

Lemma tsx_mount_unregistered container name st :
  JSMap.has (activeRoots st) container = false ->
  truthy (widgetComponent (dataset container)) = Some name ->
  Get registry name = None ->
  mountWidget container st =
    (Returned tt, logged st [mkLog Warn (MainTsx.not_found name) NoArg]).
Proof.
  intros Hhas Hname Hreg. unfold MainTsx.mountWidget. run_js.
  rewrite Hhas, Hname, Hreg. reflexivity.
Qed.

Lemma tsx_parseProps_empty config st :
  truthy config = None -> parseProps config st = (Returned (JObject []), st).
Proof. intros H. unfold MainTsx.parseProps. rewrite H. reflexivity. Qed.

Lemma tsx_parseProps_valid config text value st :
  truthy config = Some text -> parse_json text = Some value ->
  parseProps config st = (Returned value, st).
Proof.
  intros H Hp. unfold MainTsx.parseProps. rewrite H. run_js. rewrite Hp.
  reflexivity.
Qed.

Lemma tsx_parseProps_invalid config text st :
  truthy config = Some text -> parse_json text = None ->
  parseProps config st =
    (Returned (JObject []),
     logged st [mkLog Error MainTsx.invalid_props (ErrorArg (SyntaxError text))]).
Proof.
  intros H Hp. unfold MainTsx.parseProps. rewrite H. run_js. rewrite Hp.
  reflexivity.
Qed.

(** What [mountWidget] does once the component is resolved, in terms of
    the outcome of [parseProps]. *)
Lemma tsx_mount_resolved container name C value st diagnostics :
  JSMap.has (activeRoots st) container = false ->
  truthy (widgetComponent (dataset container)) = Some name ->
  Get registry name = Some C ->
  parseProps (props (dataset container)) st
    = (Returned value, logged st diagnostics) ->
  mountWidget container st =
    (Returned tt,
     tracked st container (MainTsx.mkEntry (mkRoot (rootCounter st) container) name)
       (tsx_element C value) (diagnostics ++ [tsx_mounted_log name])).
Proof.
  intros Hhas Hname Hreg Hparse. unfold MainTsx.mountWidget. run_js.
  rewrite Hhas, Hname, Hreg, Hparse. unfold tracked, logged. cbn.
  rewrite <- !app_assoc. reflexivity.
Qed.

Lemma logged_nil st : logged st [] = st.
Proof. destruct st. unfold logged. cbn. rewrite app_nil_r. reflexivity. Qed.

Lemma tsx_mount_empty_props container name C st :
  JSMap.has (activeRoots st) container = false ->
  truthy (widgetComponent (dataset container)) = Some name ->
  Get registry name = Some C ->
  truthy (props (dataset container)) = None ->
  mountWidget container st =
    (Returned tt,
     tracked st container (MainTsx.mkEntry (mkRoot (rootCounter st) container) name)
       (tsx_element C (JObject [])) [tsx_mounted_log name]).
Proof.
  intros Hhas Hname Hreg Hcfg.
  rewrite (tsx_mount_resolved container name C (JObject []) st []); try assumption.
  - reflexivity.
  - rewrite logged_nil. apply tsx_parseProps_empty. exact Hcfg.
Qed.

Lemma tsx_mount_valid_props container name C text value st :
  JSMap.has (activeRoots st) container = false ->
  truthy (widgetComponent (dataset container)) = Some name ->
  Get registry name = Some C ->
  truthy (props (dataset container)) = Some text ->
  parse_json text = Some value ->
  mountWidget container st =
    (Returned tt,
     tracked st container (MainTsx.mkEntry (mkRoot (rootCounter st) container) name)
       (tsx_element C value) [tsx_mounted_log name]).
Proof.
  intros Hhas Hname Hreg Hcfg Hparse.
  rewrite (tsx_mount_resolved container name C value st []); try assumption.
  - reflexivity.
  - rewrite logged_nil. eapply tsx_parseProps_valid; eassumption.
Qed.

Lemma tsx_mount_invalid_props container name C text st :
  JSMap.has (activeRoots st) container = false ->
  truthy (widgetComponent (dataset container)) = Some name ->
  Get registry name = Some C ->
  truthy (props (dataset container)) = Some text ->
  parse_json text = None ->
  mountWidget container st =
    (Returned tt,
     tracked st container (MainTsx.mkEntry (mkRoot (rootCounter st) container) name)
       (tsx_element C (JObject []))
       [mkLog Error MainTsx.invalid_props (ErrorArg (SyntaxError text));
        tsx_mounted_log name]).
Proof.
  intros Hhas Hname Hreg Hcfg Hparse.
  rewrite (tsx_mount_resolved container name C (JObject []) st
             [mkLog Error MainTsx.invalid_props (ErrorArg (SyntaxError text))]);
    try assumption.
  - reflexivity.
  - eapply tsx_parseProps_invalid; eassumption.
Qed.

Lemma tsx_unmount_absent container st :
  JSMap.get (activeRoots st) container = None ->
  unmountWidget container st = (Returned tt, st).
Proof.
  intros Hget. unfold MainTsx.unmountWidget. run_js. rewrite Hget. reflexivity.
Qed.

Lemma tsx_unmount_present container entry st :
  JSMap.get (activeRoots st) container = Some entry ->
  unmount_throws (rootId (MainTsx.root entry)) = false ->
  unmountWidget container st =
    (Returned tt,
     released st container (rootId (MainTsx.root entry)) [tsx_unmounted_log entry]).
Proof.
  intros Hget Hok. unfold MainTsx.unmountWidget. run_js.
  rewrite Hget, Hok. reflexivity.
Qed.

Lemma tsx_unmount_throwing container entry st :
  JSMap.get (activeRoots st) container = Some entry ->
  unmount_throws (rootId (MainTsx.root entry)) = true ->
  unmountWidget container st =
    (Thrown (UnmountError (rootId (MainTsx.root entry))),
     mkRuntime (activeRoots st) (console st)
       (effects st ++ [Unmount (rootId (MainTsx.root entry))]) (rootCounter st)).
Proof.
  intros Hget Hthrow. unfold MainTsx.unmountWidget. run_js.
  rewrite Hget, Hthrow. reflexivity.
Qed.
End MainTsxSteps.

(** ** Loops *)

Section LoopFacts.
Context {E A : Type}.
Implicit Types (st : Runtime E) (callback : A -> JS E unit).

Lemma bind_returned {B} (m : JS E A) (k : A -> JS E B) st a st' :
  m st = (Returned a, st') -> bind m k st = k a st'.
Proof. intros H. unfold bind. rewrite H. reflexivity. Qed.

Lemma bind_thrown {B} (m : JS E A) (k : A -> JS E B) st e st' :
  m st = (Thrown e, st') -> bind m k st = (Thrown e, st').
Proof. intros H. unfold bind. rewrite H. reflexivity. Qed.

Lemma visit_present (callback : E -> Node -> JS E unit) k ks st v :
  JSMap.get (activeRoots st) k = Some v ->
  visit (k :: ks) callback st
  = bind (callback v k) (fun _ => visit ks callback) st.
Proof. intros H. simpl. unfold bind at 1, snapshot. rewrite H. reflexivity. Qed.

Lemma visit_absent (callback : E -> Node -> JS E unit) k ks st :
  JSMap.get (activeRoots st) k = None ->
  visit (k :: ks) callback st = visit ks callback st.
Proof. intros H. simpl. unfold bind at 1, snapshot. rewrite H. reflexivity. Qed.

Lemma unmount_quiet (unmount_throws : nat -> bool) root st :
  unmount_throws (rootId root) = false ->
  unmount unmount_throws root st
  = (Returned tt,
     mkRuntime (activeRoots st) (console st)
       (effects st ++ [Unmount (rootId root)]) (rootCounter st)).
Proof. intros H. unfold unmount. run_js. rewrite H. reflexivity. Qed.

Lemma unmount_loud (unmount_throws : nat -> bool) root st :
  unmount_throws (rootId root) = true ->
  unmount unmount_throws root st
  = (Thrown (UnmountError (rootId root)),
     mkRuntime (activeRoots st) (console st)
       (effects st ++ [Unmount (rootId root)]) (rootCounter st)).
Proof. intros H. unfold unmount. run_js. rewrite H. reflexivity. Qed.

Lemma forEach_returned callback item rest st st' :
  callback item st = (Returned tt, st') ->
  forEach (item :: rest) callback st = forEach rest callback st'.
Proof. intros H. simpl. unfold bind. rewrite H. reflexivity. Qed.

Lemma forEach_thrown callback item rest st st' e :
  callback item st = (Thrown e, st') ->
  forEach (item :: rest) callback st = (Thrown e, st').
Proof. intros H. simpl. unfold bind. rewrite H. reflexivity. Qed.
End LoopFacts.

(** ** [main.jsx] and the design document, one call at a time *)

Section MainJsxSteps.
Variable parse_json : string -> option JSON.
Variable registry : gmap string Component.
Implicit Types (st : Runtime Root) (container : Node).

Local Abbreviation mountWidget := (MainJsx.mountWidget parse_json registry).

Lemma jsx_mount_tracked container st :
  JSMap.has (activeRoots st) container = true ->
  mountWidget container st =
    (Returned tt,
     logged st [mkLog Warn MainJsx.already_mounted (NodeArg container)]).
Proof.
  intros Hhas. unfold MainJsx.mountWidget. run_js. rewrite Hhas. reflexivity.
Qed.

Lemma jsx_mount_unregistered container st :
  JSMap.has (activeRoots st) container = false ->
  Get registry (property_key (widgetComponent (dataset container))) = None ->
  mountWidget container st =
    (Returned tt,
     logged st [mkLog Warn
                  (MainJsx.not_found
                     (property_key (widgetComponent (dataset container))))
                  NoArg]).
Proof.
  intros Hhas Hreg. unfold MainJsx.mountWidget. run_js.
  rewrite Hhas, Hreg. reflexivity.
Qed.

Lemma jsx_mount_invalid_props container C st :
  JSMap.has (activeRoots st) container = false ->
  Get registry (property_key (widgetComponent (dataset container))) = Some C ->
  parse_json (or_default (props (dataset container)) "{}") = None ->
  mountWidget container st =
    (Returned tt,
     logged st
       [mkLog Error
          (MainJsx.invalid_props
             (property_key (widgetComponent (dataset container))))
          (ErrorArg
             (SyntaxError (or_default (props (dataset container)) "{}")))]).
Proof.
  intros Hhas Hreg Hparse. unfold MainJsx.mountWidget. run_js.
  rewrite Hhas, Hreg, Hparse. finish_js.
Qed.

Lemma jsx_mount_valid_props container C value st :
  JSMap.has (activeRoots st) container = false ->
  Get registry (property_key (widgetComponent (dataset container))) = Some C ->
  parse_json (or_default (props (dataset container)) "{}") = Some value ->
  mountWidget container st =
    (Returned tt,
     tracked st container (mkRoot (rootCounter st) container)
       (StrictMode (Suspense MainJsx.skeleton (Widget C (spread value))))
       [mkLog Info
          ("[Widget Engine] Mounted "
           +:+ property_key (widgetComponent (dataset container))) NoArg]).
Proof.
  intros Hhas Hreg Hparse. unfold MainJsx.mountWidget. run_js.
  rewrite Hhas, Hreg, Hparse. finish_js.
Qed.
End MainJsxSteps.

Section DesignDocSteps.
Variable parse_json : string -> option JSON.
Variable unmount_throws : nat -> bool.
Variable registry : gmap string Component.
Implicit Types (st : Runtime Root) (container : Node).

Local Abbreviation mountWidget := (DesignDoc.mountWidget parse_json registry).

Lemma doc_mount_tracked container st :
  JSMap.has (activeRoots st) container = true ->
  mountWidget container st =
    (Returned tt,
     logged st [mkLog Warn DesignDoc.already_mounted (NodeArg container)]).
Proof.
  intros Hhas. unfold DesignDoc.mountWidget. run_js. rewrite Hhas. reflexivity.
Qed.

Lemma doc_mount_unregistered container st :
  JSMap.has (activeRoots st) container = false ->
  Get registry (property_key (widgetComponent (dataset container))) = None ->
  mountWidget container st =
    (Returned tt,
     logged st [mkLog Warn
                  (DesignDoc.not_found
                     (property_key (widgetComponent (dataset container))))
                  NoArg]).
Proof.
  intros Hhas Hreg. unfold DesignDoc.mountWidget. run_js.
  rewrite Hhas, Hreg. reflexivity.
Qed.

Lemma doc_mount_invalid_props container C st :
  JSMap.has (activeRoots st) container = false ->
  Get registry (property_key (widgetComponent (dataset container))) = Some C ->
  parse_json (or_default (props (dataset container)) "{}") = None ->
  mountWidget container st =
    (Returned tt,
     logged st
       [mkLog Error
          (DesignDoc.invalid_props
             (property_key (widgetComponent (dataset container))))
          (ErrorArg
             (SyntaxError (or_default (props (dataset container)) "{}")))]).
Proof.
  intros Hhas Hreg Hparse. unfold DesignDoc.mountWidget. run_js.
  rewrite Hhas, Hreg, Hparse. finish_js.
Qed.

Lemma doc_mount_valid_props container C value st :
  JSMap.has (activeRoots st) container = false ->
  Get registry (property_key (widgetComponent (dataset container))) = Some C ->
  parse_json (or_default (props (dataset container)) "{}") = Some value ->
  mountWidget container st =
    (Returned tt,
     tracked st container (mkRoot (rootCounter st) container)
       (StrictMode (Suspense DesignDoc.skeleton (Widget C (spread value))))
       []).
Proof.
  intros Hhas Hreg Hparse. unfold DesignDoc.mountWidget. run_js.
  rewrite Hhas, Hreg, Hparse. finish_js.
Qed.
End DesignDocSteps.

Lemma truthy_property_key (attribute : option string) (name : string) :
  truthy attribute = Some name -> property_key attribute = name.
Proof.
  destruct attribute as [[|a rest]|]; simpl; intros H; inversion H; reflexivity.
Qed.

Lemma truthy_or_default (attribute : option string) (text fallback : string) :
  truthy attribute = Some text -> or_default attribute fallback = text.
Proof. unfold or_default. intros ->. reflexivity. Qed.

Lemma falsy_or_default (attribute : option string) (fallback : string) :
  truthy attribute = None -> or_default attribute fallback = fallback.
Proof. unfold or_default. intros ->. reflexivity. Qed.

Lemma absent_or_empty_falsy (attribute : option string) :
  attribute = None \/ attribute = Some EmptyString -> truthy attribute = None.
Proof. intros [-> | ->]; reflexivity. Qed.

Lemma tsx_scan_unfold parse_json registry containers
    (st : Runtime MainTsx.RootEntry) :
  MainTsx.scan parse_json registry containers st
  = forEach containers (MainTsx.mountWidget parse_json registry)
      (logged st [scanning_log]).
Proof. reflexivity. Qed.

(** ** Skipping an unregistered component *)

(** A container with a name the registry lookup does not find (neither
    a key of the registry nor a member of [Object.prototype]) is skipped
    with the "not found in registry" warning: the call returns normally,
    creates no root and no tracking entry, the scan goes on with the
    remaining containers, and scanning a document whose only mount point
    is such a container leaves the tracking table empty with that
    warning as the only diagnostic.  [main.jsx] skips the container with
    the same warning. *)
Lemma unfound_component_is_skipped
    (parse_json : string -> option JSON) (registry : gmap string Component)
    (container : Node) (name : string) (rest : list Node)
    (st : Runtime MainTsx.RootEntry) :
  JSMap.has (activeRoots st) container = false ->
  truthy (widgetComponent (dataset container)) = Some name ->
  Get registry name = None ->
  let mount := MainTsx.mountWidget parse_json registry in
  let warning := mkLog Warn (MainTsx.not_found name) NoArg in
  mount container st = (Returned tt, logged st [warning]) /\
  activeRoots (logged st [warning]) = activeRoots st /\
  effects (logged st [warning]) = effects st /\
  forEach (container :: rest) mount st
    = forEach rest mount (logged st [warning]) /\
  (forall document,
     querySelectorAll document (ByClass "react-widget-container")
       = [container] ->
     exists final,
       MainTsx.initializeWidgets parse_json registry document initial
         = (Returned tt, final) /\
       activeRoots final = [] /\
       effects final = [] /\
       List.filter is_diagnostic (console final) = [warning]) /\
  (forall st' : Runtime Root,
     JSMap.has (activeRoots st') container = false ->
     MainJsx.mountWidget parse_json registry container st'
     = (Returned tt, logged st' [mkLog Warn (MainJsx.not_found name) NoArg])).
Proof.
  intros Hhas Hname Hreg mount warning.
  pose proof (tsx_mount_unregistered parse_json registry container name st
                Hhas Hname Hreg) as Hstep.
  split; [exact Hstep|]. split; [reflexivity|]. split; [reflexivity|].
  split; [apply forEach_returned; exact Hstep|]. split.
  2: { intros st' Hhas'.
       rewrite <- (truthy_property_key _ _ Hname).
       apply jsx_mount_unregistered; [exact Hhas'|].
       rewrite (truthy_property_key _ _ Hname). exact Hreg. }
  - intros document Hdoc. unfold MainTsx.initializeWidgets.
    rewrite Hdoc, tsx_scan_unfold.
    assert (Hstart : JSMap.has
                       (activeRoots (logged (@initial MainTsx.RootEntry)
                                       [scanning_log])) container = false)
      by reflexivity.
    rewrite (forEach_returned _ _ _ _ _
               (tsx_mount_unregistered parse_json registry container name _
                  Hstart Hname Hreg)).
    eexists. split; [reflexivity|]. repeat split.
Qed.

(** C6 fails on the code for a name that is no key of the registry but
    a member of [Object.prototype].  On the demo registry, [toString]
    is not a key; yet [registry["toString"]] is truthy, so [mountWidget]
    of [main.tsx] creates a root in the container, renders the inherited
    function as if it were a component and records the entry, with no
    diagnostic; a document whose only mount point is that container
    ends up with one entry and no "not found" warning.  [main.jsx] does
    the same.  The container named [Missing] is skipped as the claim
    says. *)
Theorem inherited_name_is_mounted_not_skipped :
  demo_registry !! "toString" = None /\
  truthy (widgetComponent (dataset tostring_widget)) = Some "toString" /\
  MainTsx.mountWidget sample_parse demo_registry tostring_widget initial
    = (Returned tt,
       tracked initial tostring_widget
         (MainTsx.mkEntry (mkRoot 0 tostring_widget) "toString")
         (StrictMode (Suspense MainTsx.skeleton
                        (Widget (Inherited "toString") [])))
         [tsx_mounted_log "toString"]) /\
  (exists final,
     querySelectorAll tostring_page (ByClass "react-widget-container")
       = [tostring_widget] /\
     MainTsx.initializeWidgets sample_parse demo_registry tostring_page initial
       = (Returned tt, final) /\
     JSMap.keys (activeRoots final) = [tostring_widget] /\
     effects final
       = [CreateRoot tostring_widget 0;
          Render 0 (StrictMode (Suspense MainTsx.skeleton
                                  (Widget (Inherited "toString") [])))] /\
     List.filter is_diagnostic (console final) = []) /\
  JSMap.has
    (activeRoots
       (snd (MainJsx.mountWidget sample_parse demo_registry tostring_widget
               initial))) tostring_widget = true /\
  demo_registry !! "Missing" = None /\
  MainTsx.mountWidget sample_parse demo_registry missing_widget initial
    = (Returned tt,
       logged initial [mkLog Warn (MainTsx.not_found "Missing") NoArg]).
Proof.
  split; [vm_compute; reflexivity|]. split; [reflexivity|].
  split; [vm_compute; reflexivity|]. split.
  - eexists. split; [vm_compute; reflexivity|].
    split; [vm_compute; reflexivity|].
    split; [reflexivity|]. split; reflexivity.
  - split; [vm_compute; reflexivity|]. split; [vm_compute; reflexivity|].
    exact (proj1 (unfound_component_is_skipped sample_parse demo_registry
                    missing_widget "Missing" [] initial eq_refl eq_refl
                    ltac:(vm_compute; reflexivity))).
Qed.

(** ** Unmounting one container *)

(** C7, as stated, fails for a tracked container whose root throws when
    it is destroyed: with the product card of the demo page tracked
    under root 0 and [unmount] of root 0 throwing, [unmountWidget]
    throws that error and the entry is still in the table. *)
Lemma unmount_widget_keeps_entry_when_unmount_throws :
  JSMap.get (activeRoots one_widget) product_card
    = Some (MainTsx.mkEntry (mkRoot 0 product_card) "ProductCard") /\
  first_root_throws 0 = true /\
  exists st',
    MainTsx.unmountWidget first_root_throws product_card one_widget
      = (Thrown (UnmountError 0), st') /\
    activeRoots st' = activeRoots one_widget /\
    JSMap.has (activeRoots st') product_card = true.
Proof.
  split; [vm_compute; reflexivity|]. split; [reflexivity|].
  eexists. split; [vm_compute; reflexivity|]. split; reflexivity.
Qed.

(** C7, amended: [unmountWidget] on a container without an entry returns
    normally and changes nothing.  On a tracked container it calls
    [unmount] on the root once; when that does not throw it deletes the
    entry, leaving every other entry alone, after which a second call is
    again a no-op; when it throws, the exception leaves [unmountWidget]
    and the table is as it was, the entry included. *)
Theorem unmount_widget_releases_or_ignores
    (unmount_throws : nat -> bool) (container : Node)
    (st : Runtime MainTsx.RootEntry) :
  JSMap.wf (activeRoots st) ->
  let unmountWidget := MainTsx.unmountWidget unmount_throws in
  match JSMap.get (activeRoots st) container with
  | None => unmountWidget container st = (Returned tt, st)
  | Some entry =>
      let r := rootId (MainTsx.root entry) in
      if unmount_throws r then
        exists st',
          unmountWidget container st = (Thrown (UnmountError r), st') /\
          effects st' = effects st ++ [Unmount r] /\
          activeRoots st' = activeRoots st /\
          console st' = console st
      else
        exists st',
          unmountWidget container st = (Returned tt, st') /\
          effects st' = effects st ++ [Unmount r] /\
          activeRoots st' = JSMap.delete (activeRoots st) container /\
          JSMap.get (activeRoots st') container = None /\
          (forall other, nodeId other <> nodeId container ->
             JSMap.get (activeRoots st') other
             = JSMap.get (activeRoots st) other) /\
          unmountWidget container st' = (Returned tt, st')
  end.
Proof.
  intros Hwf unmountWidget.
  destruct (JSMap.get (activeRoots st) container) as [entry|] eqn:Hget.
  - cbn zeta.
    destruct (unmount_throws (rootId (MainTsx.root entry))) eqn:Hok.
    + eexists. split; [apply tsx_unmount_throwing; eassumption|].
      split; [reflexivity|]. split; reflexivity.
    + exists (released st container (rootId (MainTsx.root entry))
                [tsx_unmounted_log entry]).
      assert (Hgone : JSMap.get (JSMap.delete (activeRoots st) container)
                        container = None)
        by (apply get_delete_same; exact Hwf).
      split; [apply tsx_unmount_present; assumption|].
      split; [reflexivity|]. split; [reflexivity|]. split; [exact Hgone|].
      split.
      * intros other Hne. cbn. apply get_delete_other. congruence.
      * apply tsx_unmount_absent. exact Hgone.
  - apply tsx_unmount_absent. exact Hget.
Qed.

(** On the demo page: unmounting an untracked container, a tracked one,
    and a tracked one whose root throws. *)
Lemma unmount_widget_witness :
  JSMap.wf (activeRoots one_widget) /\
  MainTsx.unmountWidget never missing_widget one_widget = (Returned tt, one_widget) /\
  (exists st',
     MainTsx.unmountWidget never product_card one_widget = (Returned tt, st') /\
     activeRoots st' = []) /\
  (exists st',
     MainTsx.unmountWidget first_root_throws product_card one_widget
       = (Thrown (UnmountError 0), st') /\
     activeRoots st' = activeRoots one_widget).
Proof.
  assert (Hwf : JSMap.wf (activeRoots one_widget))
    by (apply NoDup_singleton).
  split; [exact Hwf|]. split; [|split].
  - exact (unmount_widget_releases_or_ignores never missing_widget one_widget Hwf).
  - destruct (unmount_widget_releases_or_ignores never product_card one_widget
                Hwf) as (st' & Hrun & _ & Htable & _).
    exists st'. split; [exact Hrun | exact Htable].
  - destruct (unmount_widget_releases_or_ignores first_root_throws product_card
                one_widget Hwf) as (st' & Hrun & _ & Htable & _).
    exists st'. split; [exact Hrun | exact Htable].
Defined.

(** ** Absent, empty and arbitrary configuration *)

(** C8: when [data-props] is absent or the empty string, a container
    that is not yet tracked and names a registered component is mounted
    with the empty props object, and nothing but the informational
    "Mounted" line reaches the console: no warning and no error.  The
    engine of the design document does the same by parsing the default
    text [{}]. *)
Theorem empty_props_mount_with_empty_object
    (parse_json : string -> option JSON) (registry : gmap string Component)
    (container : Node) (name : string) (C : Component) :
  props (dataset container) = None \/
  props (dataset container) = Some EmptyString ->
  truthy (widgetComponent (dataset container)) = Some name ->
  registry !! name = Some C ->
  (forall st : Runtime MainTsx.RootEntry,
     JSMap.has (activeRoots st) container = false ->
     MainTsx.parseProps parse_json (props (dataset container)) st
       = (Returned (JObject []), st) /\
     MainTsx.mountWidget parse_json registry container st
       = (Returned tt,
          tracked st container
            (MainTsx.mkEntry (mkRoot (rootCounter st) container) name)
            (StrictMode (Suspense MainTsx.skeleton (Widget C [])))
            [tsx_mounted_log name]) /\
     is_diagnostic (tsx_mounted_log name) = false) /\
  (parse_json "{}" = Some (JObject []) ->
   forall st : Runtime Root,
     JSMap.has (activeRoots st) container = false ->
     DesignDoc.mountWidget parse_json registry container st
       = (Returned tt,
          tracked st container (mkRoot (rootCounter st) container)
            (StrictMode (Suspense DesignDoc.skeleton (Widget C [])))
            [])).
Proof.
  intros Hcfg Hname Hreg. apply Get_own in Hreg.
  apply absent_or_empty_falsy in Hcfg. split.
  - intros st Hhas. split; [apply tsx_parseProps_empty; exact Hcfg|].
    split; [|reflexivity].
    exact (tsx_mount_empty_props parse_json registry container name C st
             Hhas Hname Hreg Hcfg).
  - intros Hbraces st Hhas.
    apply (doc_mount_valid_props parse_json registry container C (JObject []) st
             Hhas).
    + rewrite (truthy_property_key _ _ Hname). exact Hreg.
    + rewrite (falsy_or_default _ _ Hcfg). exact Hbraces.
Qed.

(** On the demo registry: a calculator
    without [data-props] in the demo engine, and one with an empty
    [data-props] in the engine of the design document. *)
Lemma empty_props_witness :
  props (dataset bare_calculator) = None /\
  props (dataset blank_calculator) = Some EmptyString /\
  sample_parse "{}" = Some (JObject []) /\
  MainTsx.mountWidget sample_parse demo_registry bare_calculator initial
    = (Returned tt,
       tracked initial bare_calculator
         (MainTsx.mkEntry (mkRoot 0 bare_calculator) "Calculator")
         (StrictMode (Suspense MainTsx.skeleton
                        (Widget (Lazy "./components/Calculator") [])))
         [tsx_mounted_log "Calculator"]) /\
  DesignDoc.mountWidget sample_parse demo_registry blank_calculator initial
    = (Returned tt,
       tracked initial blank_calculator (mkRoot 0 blank_calculator)
         (StrictMode (Suspense DesignDoc.skeleton
                        (Widget (Lazy "./components/Calculator") [])))
         []).
Proof.
  assert (Hreg : demo_registry !! "Calculator"
                 = Some (Lazy "./components/Calculator"))
    by (vm_compute; reflexivity).
  split; [reflexivity|]. split; [reflexivity|]. split; [reflexivity|]. split.
  - exact (proj1 (proj2 (proj1
      (empty_props_mount_with_empty_object sample_parse demo_registry
         bare_calculator "Calculator" _ (or_introl eq_refl) eq_refl Hreg)
      initial eq_refl))).
  - exact (proj2
      (empty_props_mount_with_empty_object sample_parse demo_registry
         blank_calculator "Calculator" _ (or_intror eq_refl) eq_refl Hreg)
      eq_refl initial eq_refl).
Defined.

(** C10, as stated, fails for a scalar: with [data-props="42"] the
    container is mounted, but the attribute object of the rendered
    component is the spread of the number, which is empty, so whatever
    names React withholds the component receives the empty props object
    and not the value 42. *)
Lemma scalar_props_are_not_passed_to_the_component :
  sample_parse "42" = Some (JNumber number_42) /\
  exists st' element,
    MainTsx.mountWidget sample_parse demo_registry number_card initial
      = (Returned tt, st') /\
    effects st' = [CreateRoot number_card 0; Render 0 element] /\
    forall withheld,
      widget_props withheld element = Some [] /\
      ~ passes_value withheld element (JNumber number_42).
Proof.
  split; [reflexivity|]. eexists _, _.
  split; [vm_compute; reflexivity|]. split; [reflexivity|].
  intros withheld. split; [reflexivity|].
  intros (given & _ & Hvalue). discriminate Hvalue.
Qed.

(** C10, amended: the configuration text is only parsed, never checked
    to be an object.  Whatever value [JSON.parse] returns for
    [data-props], an untracked container with a component name the
    registry lookup finds gets a root, the root is tracked and no
    warning or error is logged.  The component is rendered with the own enumerable
    properties of the value as its attributes: the members of an
    object, one property per index of an array or a string, and none
    for [null], a boolean or a number; it receives these, less the names
    React withholds, as its props, and so never a scalar or an array
    itself. *)
Theorem any_json_value_is_mounted
    (parse_json : string -> option JSON) (registry : gmap string Component)
    (container : Node) (name text : string) (C : Component) (value : JSON) :
  let attributes :=
    match value with
    | JObject members => members
    | JArray items => imap (fun i item => (pretty i, item)) items
    | JString s => imap (fun i u => (pretty i, JString [u])) s
    | JNull | JBool _ | JNumber _ => []
    end in
  truthy (props (dataset container)) = Some text ->
  parse_json text = Some value ->
  truthy (widgetComponent (dataset container)) = Some name ->
  Get registry name = Some C ->
  (forall st : Runtime MainTsx.RootEntry,
     JSMap.has (activeRoots st) container = false ->
     MainTsx.parseProps parse_json (props (dataset container)) st
       = (Returned value, st) /\
     MainTsx.mountWidget parse_json registry container st
       = (Returned tt,
          tracked st container
            (MainTsx.mkEntry (mkRoot (rootCounter st) container) name)
            (StrictMode (Suspense MainTsx.skeleton (Widget C attributes)))
            [tsx_mounted_log name]) /\
     is_diagnostic (tsx_mounted_log name) = false /\
     JSMap.get
       (JSMap.set (activeRoots st) container
          (MainTsx.mkEntry (mkRoot (rootCounter st) container) name))
       container
     = Some (MainTsx.mkEntry (mkRoot (rootCounter st) container) name)) /\
  (forall st : Runtime Root,
     JSMap.has (activeRoots st) container = false ->
     DesignDoc.mountWidget parse_json registry container st
       = (Returned tt,
          tracked st container (mkRoot (rootCounter st) container)
            (StrictMode (Suspense DesignDoc.skeleton (Widget C attributes)))
            [])) /\
  (forall withheld,
     widget_props withheld
       (StrictMode (Suspense MainTsx.skeleton (Widget C attributes)))
     = Some (received withheld attributes) /\
     widget_props withheld
       (StrictMode (Suspense DesignDoc.skeleton (Widget C attributes)))
     = Some (received withheld attributes) /\
     ((forall members, value <> JObject members) ->
      ~ passes_value withheld
          (StrictMode (Suspense MainTsx.skeleton (Widget C attributes)))
          value)).
Proof.
  intros attributes Hcfg Hparse Hname Hreg.
  assert (Hspread : spread value = attributes) by (destruct value; reflexivity).
  rewrite <- Hspread. split; [|split].
  - intros st Hhas.
    split; [eapply tsx_parseProps_valid; eassumption|].
    split; [|split; [reflexivity | apply get_set_same]].
    exact (tsx_mount_valid_props parse_json registry container name C text
             value st Hhas Hname Hreg Hcfg Hparse).
  - intros st Hhas.
    apply (doc_mount_valid_props parse_json registry container C value st Hhas).
    + rewrite (truthy_property_key _ _ Hname). exact Hreg.
    + rewrite (truthy_or_default _ _ _ Hcfg). exact Hparse.
  - intros withheld. split; [reflexivity|]. split; [reflexivity|].
    intros Hne (given & _ & Hvalue). exact (Hne given (eq_sym Hvalue)).
Qed.

(** On the demo registry: the texts [42] and [[1,2]]. *)
Lemma any_json_value_witness :
  sample_parse "42" = Some (JNumber number_42) /\
  sample_parse "[1,2]" = Some (JArray [JNumber number_1; JNumber number_2]) /\
  MainTsx.mountWidget sample_parse demo_registry number_card initial
    = (Returned tt,
       tracked initial number_card
         (MainTsx.mkEntry (mkRoot 0 number_card) "ProductCard")
         (StrictMode (Suspense MainTsx.skeleton
                        (Widget (Lazy "./components/ProductCard") [])))
         [tsx_mounted_log "ProductCard"]) /\
  DesignDoc.mountWidget sample_parse demo_registry array_card initial
    = (Returned tt,
       tracked initial array_card (mkRoot 0 array_card)
         (StrictMode (Suspense DesignDoc.skeleton
                        (Widget (Lazy "./components/ProductCard")
                           [("0", JNumber number_1);
                            ("1", JNumber number_2)])))
         []).
Proof.
  assert (Hreg : Get demo_registry "ProductCard"
                 = Some (Lazy "./components/ProductCard"))
    by (vm_compute; reflexivity).
  split; [reflexivity|]. split; [reflexivity|]. split.
  - exact (proj1 (proj2 (proj1
      (any_json_value_is_mounted sample_parse demo_registry number_card
         "ProductCard" "42" _ (JNumber number_42)
         eq_refl eq_refl eq_refl Hreg)
      initial eq_refl))).
  - exact (proj1 (proj2
      (any_json_value_is_mounted sample_parse demo_registry array_card
         "ProductCard" "[1,2]" _ (JArray [JNumber number_1; JNumber number_2])
         eq_refl eq_refl eq_refl Hreg))
      initial eq_refl).
Defined.

(** ** Malformed configuration *)

(** C1: a container whose [data-props] is not valid JSON is to be
    skipped with a diagnostic, without a root and without a tracking
    entry.  [main.jsx] does so; [main.tsx] logs the error and then mounts
    the component with empty props: on the container below it creates
    root 0, renders the product card and records the entry. *)
Theorem main_tsx_mounts_malformed_props :
  sample_parse "{not valid json" = None /\
  MainTsx.mountWidget sample_parse demo_registry malformed_card initial
    = (Returned tt,
       mkRuntime
         [(malformed_card,
           MainTsx.mkEntry (mkRoot 0 malformed_card) "ProductCard")]
         [mkLog Error MainTsx.invalid_props
            (ErrorArg (SyntaxError "{not valid json"));
          mkLog Info "[Widget Engine] Mounted ProductCard" NoArg]
         [CreateRoot malformed_card 0;
          Render 0
            (StrictMode
               (Suspense MainTsx.skeleton
                  (Widget (Lazy "./components/ProductCard") [])))]
         1) /\
  MainJsx.mountWidget sample_parse demo_registry malformed_card initial
    = (Returned tt,
       mkRuntime []
         [mkLog Error (MainJsx.invalid_props "ProductCard")
            (ErrorArg (SyntaxError "{not valid json"))]
         [] 0).
Proof. repeat split; vm_compute; reflexivity. Qed.

(** ** Fault isolation *)

(** Under an error boundary something is always painted. *)
Lemma boundary_always_paints fails element :
  has_error_boundary element = true ->
  exists painted, paint fails element = inl painted.
Proof.
  induction element as [child IH | fb _ child IH | name child _ | c t | C p];
    simpl; intros H; try discriminate; try (apply IH; exact H).
  destruct (paint fails child); eexists; reflexivity.
Qed.

(** The element of [main.tsx] has no boundary, so a failing component
    takes its root down. *)
Lemma tsx_failure_reaches_root fails C value :
  has_error_boundary (tsx_element C value) = false /\
  (fails C = true -> paint fails (tsx_element C value) = inr C).
Proof. split; [reflexivity|]. intros H. simpl. rewrite H. reflexivity. Qed.

(** The element of the setup checklist paints the fallback of the
    failing widget and the widget itself otherwise. *)
Lemma checklist_failure_is_contained fails name C p :
  paint fails
    (StrictMode (ErrorBoundary name (Suspense Checklist.loading (Widget C p))))
  = inl (if fails C then ErrorBoundaryClass.widget_error name else Widget C p).
Proof. simpl. destruct (fails C); reflexivity. Qed.

(** C3: every mounted instance is to be rendered inside the fault
    isolation wrapper, so that a component that fails while rendering
    shows a fallback.  The engine of the setup checklist renders
    [ErrorBoundary] around the component and paints the fallback;
    [main.tsx] renders [StrictMode] and [Suspense] only, so the failure
    of the product card below reaches its root and nothing is painted. *)
Theorem main_tsx_renders_without_error_boundary :
  let element :=
    StrictMode (Suspense MainTsx.skeleton
                  (Widget (Lazy "./components/ProductCard") [])) in
  effects (snd (MainTsx.mountWidget sample_parse demo_registry
                  product_card initial))
    = [CreateRoot product_card 0; Render 0 element] /\
  has_error_boundary element = false /\
  paint (fun _ => true) element = inr (Lazy "./components/ProductCard") /\
  let wrapped :=
    StrictMode
      (ErrorBoundary "ProductCard"
         (Suspense Checklist.loading
            (Widget (Lazy "./components/ProductCard") []))) in
  effects (snd (Checklist.mountWidget sample_parse demo_registry published
                  product_card initial))
    = [CreateRoot product_card 0; Render 0 wrapped] /\
  paint (fun _ => true) wrapped
    = inl (ErrorBoundaryClass.widget_error "ProductCard").
Proof. repeat split; vm_compute; reflexivity. Qed.

(** ** Removal of containers by the host *)

Section Observer.
Variable unmount_throws : nat -> bool.
Implicit Types (st : Runtime Root).

(** The observer of the setup checklist releases a tracked element that
    is itself among the removed nodes. *)
Lemma checklist_observer_direct added node root st :
  nodeType node = 1 ->
  JSMap.get (activeRoots st) node = Some root ->
  unmount_throws (rootId root) = false ->
  Checklist.observer unmount_throws [mkMutation added [node]] st
  = (Returned tt, released st node (rootId root) []).
Proof.
  intros Htype Hget Hok. unfold Checklist.observer. simpl forEach.
  unfold bind at 1. unfold bind at 1. unfold bind at 1. unfold snapshot.
  unfold JSMap.has. rewrite Htype, Hget. cbn [Nat.eqb andb].
  rewrite (bind_returned _ _ _ _ _ (unmount_quiet unmount_throws root st Hok)).
  unfold update, ret, released. cbn. rewrite app_nil_r. reflexivity.
Qed.

(** It does nothing at all when none of the removed nodes is tracked,
    whatever they contain. *)
Lemma checklist_observer_untracked mutations st :
  (forall mutation node,
     In mutation mutations -> In node (removedNodes mutation) ->
     JSMap.has (activeRoots st) node = false) ->
  Checklist.observer unmount_throws mutations st = (Returned tt, st).
Proof.
  unfold Checklist.observer. induction mutations as [|mutation rest IH].
  - reflexivity.
  - intros Hnone.
    assert (Hinner :
      forall nodes, (forall n, In n nodes -> In n (removedNodes mutation)) ->
        forEach nodes
          (fun node =>
             let! st0 := snapshot in
             if Nat.eqb (nodeType node) 1 && JSMap.has (activeRoots st0) node
             then
               match JSMap.get (activeRoots st0) node with
               | Some root => unmount unmount_throws root
               | None => throw TypeError
               end >> update (fun m => JSMap.delete m node)
             else ret tt) st
        = (Returned tt, st)).
    { induction nodes as [|n nodes IHn]; intros Hsub; [reflexivity|].
      simpl forEach. unfold bind at 1. unfold bind at 1. unfold snapshot.
      rewrite (Hnone mutation n (or_introl eq_refl) (Hsub n (or_introl eq_refl))).
      rewrite andb_false_r. unfold ret at 1.
      apply IHn. intros n' Hn'. apply Hsub. right. exact Hn'. }
    simpl forEach. unfold bind at 1.
    rewrite (Hinner (removedNodes mutation) (fun n H => H)).
    apply IH. intros m n Hm Hn. apply (Hnone m n); [right; exact Hm | exact Hn].
Qed.
End Observer.

(** C5: when the host removes a subtree, every tracked mount point in it
    is to be unmounted and dropped from the table.  The observer of the
    setup checklist looks at the removed nodes themselves only: after the
    wrapper around a mounted card is removed, the card is still tracked
    and its root was never unmounted, while the observer of the
    consolidated guide, which also searches the removed subtree, unmounts
    root 0 and empties the table. *)
Theorem checklist_observer_misses_nested_container :
  activeRoots page_with_nested = [(nested_card, mkRoot 0 nested_card)] /\
  descendants wrapper = [nested_card] /\
  Checklist.observer never [mkMutation [] [wrapper]] page_with_nested
    = (Returned tt, page_with_nested) /\
  Guide.observer never [mkMutation [] [wrapper]] page_with_nested
    = (Returned tt,
       mkRuntime [] (console page_with_nested)
         (effects page_with_nested
          ++ [Unmount 0; DeleteDataset nested_card Guide.ATTR_MOUNTED])
         (rootCounter page_with_nested)).
Proof. repeat split; vm_compute; reflexivity. Qed.

(** ** Unmounting everything *)

Section Teardown.
Variable unmount_throws : nat -> bool.

Local Abbreviation quiet :=
  (Forall (fun r => unmount_throws (rootId r) = false)).

Lemma tsx_visit_prefix before ks after con eff ctr :
  quiet (tsx_roots before) ->
  visit (JSMap.keys before ++ ks)
    (fun _entry container => MainTsx.unmountWidget unmount_throws container)
    (mkRuntime (before ++ after) con eff ctr)
  = visit ks
      (fun _entry container => MainTsx.unmountWidget unmount_throws container)
      (mkRuntime after
         (con ++ map (fun kv => tsx_unmounted_log (snd kv)) before)
         (eff ++ map (fun r => Unmount (rootId r)) (tsx_roots before))
         ctr).
Proof.
  revert con eff.
  induction before as [|[k v] before IH]; intros con eff Hquiet.
  - simpl. rewrite !app_nil_r. reflexivity.
  - apply Forall_cons in Hquiet as [Hv Hquiet]. simpl in Hv.
    cbn [JSMap.keys map fst app visit]. run_js. cbn [activeRoots JSMap.get].
    rewrite same_node_refl.
    rewrite (tsx_unmount_present unmount_throws k v
               (mkRuntime ((k, v) :: before ++ after) con eff ctr));
      [| cbn; rewrite same_node_refl; reflexivity | exact Hv].
    unfold released. cbn [activeRoots console effects rootCounter JSMap.delete].
    rewrite same_node_refl. fold (JSMap.keys before).
    rewrite (IH _ _ Hquiet). cbn [map snd tsx_roots].
    rewrite <- !app_assoc. reflexivity.
Qed.

Lemma tsx_cleanup_until_throw (st : Runtime MainTsx.RootEntry) before after :
  activeRoots st = before ++ after ->
  quiet (tsx_roots before) ->
  throws_at_head unmount_throws (tsx_roots after) ->
  MainTsx.cleanupAllWidgets unmount_throws st
  = (teardown_outcome (tsx_roots after),
     mkRuntime after
       (console st ++ map (fun kv => tsx_unmounted_log (snd kv)) before)
       (effects st ++ teardown_calls (tsx_roots before) (tsx_roots after))
       (rootCounter st)).
Proof.
  intros Htable Hquiet Hhead. destruct st as [table con eff ctr].
  cbn in Htable. subst table.
  unfold MainTsx.cleanupAllWidgets, Map_forEach. run_js.
  cbn [activeRoots console effects rootCounter].
  unfold JSMap.keys. rewrite map_app. fold (JSMap.keys before).
  rewrite (tsx_visit_prefix before _ after con eff ctr Hquiet).
  unfold teardown_calls. destruct after as [|[k v] after].
  - simpl. rewrite app_nil_r. reflexivity.
  - cbn in Hhead. cbn [map fst visit]. run_js.
    cbn [activeRoots JSMap.get]. rewrite same_node_refl.
    rewrite (tsx_unmount_throwing unmount_throws k v);
      [| cbn; rewrite same_node_refl; reflexivity | exact Hhead].
    cbn. rewrite <- !app_assoc. reflexivity.
Qed.

Lemma get_middle {V} (done todo : list (Node * V)) k v :
  JSMap.wf (done ++ (k, v) :: todo) ->
  JSMap.get (done ++ (k, v) :: todo) k = Some v.
Proof.
  unfold JSMap.wf, JSMap.ids. induction done as [|[k0 v0] done IH]; simpl.
  - intros _. rewrite same_node_refl. reflexivity.
  - intros Hwf. apply NoDup_cons in Hwf as [Hk0 Hwf].
    destruct (same_node k0 k) eqn:Hs; [|exact (IH Hwf)].
    exfalso. apply Hk0. apply same_node_true in Hs. rewrite Hs.
    rewrite map_app. apply elem_of_app. right. simpl. apply list_elem_of_here.
Qed.

Lemma doc_visit_prefix done before ks after con eff ctr :
  JSMap.wf (done ++ before ++ after) ->
  quiet (map snd before) ->
  visit (JSMap.keys before ++ ks)
    (fun root _container => unmount unmount_throws root)
    (mkRuntime (done ++ before ++ after) con eff ctr)
  = visit ks
      (fun root _container => unmount unmount_throws root)
      (mkRuntime (done ++ before ++ after) con
         (eff ++ map (fun r => Unmount (rootId r)) (map snd before)) ctr).
Proof.
  revert done eff.
  induction before as [|[k v] before IH]; intros done eff Hwf Hquiet.
  - simpl. rewrite !app_nil_r. reflexivity.
  - apply Forall_cons in Hquiet as [Hv Hquiet]. simpl in Hv.
    cbn [JSMap.keys map fst app].
    rewrite (visit_present _ k _ _ v)
      by (exact (get_middle done (before ++ after) k v Hwf)).
    rewrite (bind_returned _ _ _ _ _ (unmount_quiet unmount_throws v _ Hv)).
    cbn [activeRoots console effects rootCounter].
    fold (JSMap.keys before).
    replace (done ++ (k, v) :: before ++ after)
      with ((done ++ [(k, v)]) ++ before ++ after)
      by (rewrite <- app_assoc; reflexivity).
    rewrite IH; [| rewrite <- app_assoc; exact Hwf | exact Hquiet].
    cbn [map snd]. rewrite <- !app_assoc. reflexivity.
Qed.

Lemma doc_unmount_all_until_throw (st : Runtime Root) before after :
  JSMap.wf (activeRoots st) ->
  activeRoots st = before ++ after ->
  quiet (map snd before) ->
  throws_at_head unmount_throws (map snd after) ->
  DesignDoc.unmountAllWidgets unmount_throws st
  = (teardown_outcome (map snd after),
     mkRuntime (match after with [] => [] | _ :: _ => before ++ after end)
       (console st)
       (effects st ++ teardown_calls (map snd before) (map snd after))
       (rootCounter st)).
Proof.
  intros Hwf Htable Hquiet Hhead. destruct st as [table con eff ctr].
  cbn in Htable, Hwf. subst table.
  unfold DesignDoc.unmountAllWidgets, Map_forEach.
  unfold bind at 1. unfold bind at 1. unfold snapshot at 1.
  cbn [activeRoots console effects rootCounter].
  unfold JSMap.keys. rewrite map_app. fold (JSMap.keys before).
  rewrite (doc_visit_prefix [] before _ after con eff ctr Hwf Hquiet).
  unfold teardown_calls. destruct after as [|[k v] after].
  - simpl. run_js. cbn. rewrite app_nil_r. reflexivity.
  - cbn in Hhead. cbn [map fst].
    rewrite (visit_present _ k _ _ v)
      by (exact (get_middle before after k v Hwf)).
    rewrite (bind_thrown _ _ _ _ _ (unmount_loud unmount_throws v _ Hhead)).
    cbn. rewrite <- !app_assoc. reflexivity.
Qed.
End Teardown.

(** C2, as stated, fails: with two tracked roots of which the first
    throws on [unmount], [cleanupAllWidgets] and [unmountAllWidgets] end
    with that exception, never call [unmount] on root 1 and leave both
    entries in the table. *)
Lemma unmount_all_abandons_later_entries :
  activeRoots two_widgets
    = [(product_card, MainTsx.mkEntry (mkRoot 0 product_card) "ProductCard");
       (bare_calculator,
        MainTsx.mkEntry (mkRoot 1 bare_calculator) "Calculator")] /\
  MainTsx.cleanupAllWidgets first_root_throws two_widgets
    = (Thrown (UnmountError 0),
       mkRuntime (activeRoots two_widgets) (console two_widgets)
         (effects two_widgets ++ [Unmount 0]) 2) /\
  ~ In (Unmount 1)
      (effects (snd (MainTsx.cleanupAllWidgets first_root_throws two_widgets))) /\
  activeRoots two_roots
    = [(product_card, mkRoot 0 product_card);
       (bare_calculator, mkRoot 1 bare_calculator)] /\
  DesignDoc.unmountAllWidgets first_root_throws two_roots
    = (Thrown (UnmountError 0),
       mkRuntime (activeRoots two_roots) (console two_roots)
         (effects two_roots ++ [Unmount 0]) 2).
Proof.
  split; [vm_compute; reflexivity|]. split; [vm_compute; reflexivity|].
  split; [|split; vm_compute; reflexivity].
  vm_compute. intros H.
  repeat (destruct H as [H|H]; [discriminate H|]). exact H.
Qed.

(** C2, amended: unmount-all destroys the roots in insertion order up to
    the first one whose [unmount] throws.  When none throws, every one
    of the K roots is unmounted and the table is left empty.  When one
    throws, the exception leaves unmount-all, no later root is
    attempted, and the table is not emptied: [cleanupAllWidgets] keeps
    the throwing entry and all later ones, [unmountAllWidgets] keeps all
    K entries. *)
Theorem unmount_all_stops_at_first_throw (unmount_throws : nat -> bool) :
  (forall (st : Runtime MainTsx.RootEntry) before after,
     activeRoots st = before ++ after ->
     Forall (fun r => unmount_throws (rootId r) = false) (tsx_roots before) ->
     throws_at_head unmount_throws (tsx_roots after) ->
     MainTsx.cleanupAllWidgets unmount_throws st
     = (teardown_outcome (tsx_roots after),
        mkRuntime after
          (console st ++ map (fun kv => tsx_unmounted_log (snd kv)) before)
          (effects st ++ teardown_calls (tsx_roots before) (tsx_roots after))
          (rootCounter st))) /\
  (forall (st : Runtime Root) before after,
     JSMap.wf (activeRoots st) ->
     activeRoots st = before ++ after ->
     Forall (fun r => unmount_throws (rootId r) = false) (map snd before) ->
     throws_at_head unmount_throws (map snd after) ->
     DesignDoc.unmountAllWidgets unmount_throws st
     = (teardown_outcome (map snd after),
        mkRuntime (match after with [] => [] | _ :: _ => before ++ after end)
          (console st)
          (effects st ++ teardown_calls (map snd before) (map snd after))
          (rootCounter st))).
Proof.
  split.
  - intros st before after. apply tsx_cleanup_until_throw.
  - intros st before after. apply doc_unmount_all_until_throw.
Qed.

(** On the demo page
    with two widgets, a teardown in which nothing throws empties the
    table after unmounting roots 0 and 1, in both engines. *)
Lemma unmount_all_witness :
  activeRoots two_widgets = activeRoots two_widgets ++ [] /\
  Forall (fun r => never (rootId r) = false) (tsx_roots (activeRoots two_widgets)) /\
  JSMap.wf (activeRoots two_roots) /\
  MainTsx.cleanupAllWidgets never two_widgets
    = (Returned tt,
       mkRuntime []
         (console two_widgets
          ++ [mkLog Info "[Widget Engine] Unmounted ProductCard" NoArg;
              mkLog Info "[Widget Engine] Unmounted Calculator" NoArg])
         (effects two_widgets ++ [Unmount 0; Unmount 1]) 2) /\
  DesignDoc.unmountAllWidgets never two_roots
    = (Returned tt,
       mkRuntime [] (console two_roots)
         (effects two_roots ++ [Unmount 0; Unmount 1]) 2).
Proof.
  assert (H1 : activeRoots two_widgets = activeRoots two_widgets ++ [])
    by (rewrite app_nil_r; reflexivity).
  assert (H2 : Forall (fun r => never (rootId r) = false)
                 (tsx_roots (activeRoots two_widgets)))
    by (apply Forall_forall; reflexivity).
  assert (H3 : JSMap.wf (activeRoots two_roots)).
  { unfold JSMap.wf. vm_compute. apply NoDup_cons. split.
    - intros H. apply list_elem_of_singleton in H. discriminate H.
    - apply NoDup_singleton. }
  assert (H4 : activeRoots two_roots = activeRoots two_roots ++ [])
    by (rewrite app_nil_r; reflexivity).
  assert (H5 : Forall (fun r => never (rootId r) = false)
                 (map snd (activeRoots two_roots)))
    by (apply Forall_forall; reflexivity).
  split; [exact H1|]. split; [exact H2|]. split; [exact H3|]. split.
  - exact (proj1 (unmount_all_stops_at_first_throw never)
             two_widgets _ [] H1 H2 I).
  - exact (proj2 (unmount_all_stops_at_first_throw never)
             two_roots _ [] H3 H4 H5 I).
Defined.

(** ** Scanning again *)

Lemma has_set_mono {V} (m : list (Node * V)) k k' v :
  JSMap.has m k = true -> JSMap.has (JSMap.set m k' v) k = true.
Proof.
  unfold JSMap.has. intros H.
  destruct (Nat.eq_dec (nodeId k') (nodeId k)) as [Heq|Hne].
  - rewrite <- (get_same_id _ k' k Heq), get_set_same. reflexivity.
  - rewrite get_set_other by exact Hne. exact H.
Qed.

Lemma has_set_same {V} (m : list (Node * V)) k v :
  JSMap.has (JSMap.set m k v) k = true.
Proof. unfold JSMap.has. rewrite get_set_same. reflexivity. Qed.

Lemma logged_logged {E} (st : Runtime E) a b :
  logged (logged st a) b = logged st (a ++ b).
Proof. unfold logged. cbn. rewrite <- app_assoc. reflexivity. Qed.

Section Rescan.
Variable parse_json : string -> option JSON.
Variable registry : gmap string Component.
Implicit Types (st : Runtime MainTsx.RootEntry) (container : Node).

Local Abbreviation mountWidget := (MainTsx.mountWidget parse_json registry).

Lemma tsx_parseProps_total config st :
  exists value diagnostics,
    MainTsx.parseProps parse_json config st
    = (Returned value, logged st diagnostics).
Proof.
  destruct (truthy config) as [text|] eqn:Hcfg.
  - destruct (parse_json text) as [value|] eqn:Hparse.
    + exists value, []. rewrite logged_nil.
      eapply tsx_parseProps_valid; eassumption.
    + eexists _, _. eapply tsx_parseProps_invalid; eassumption.
  - exists (JObject []), []. rewrite logged_nil.
    apply tsx_parseProps_empty. exact Hcfg.
Qed.

(** A settled container is skipped with one warning. *)
Lemma tsx_mount_settled container st :
  settled registry (activeRoots st) container ->
  mountWidget container st
  = (Returned tt,
     logged st [tsx_skip_diagnostic registry (activeRoots st) container]).
Proof.
  unfold settled, tsx_skip_diagnostic. intros Hsettled.
  destruct (JSMap.has (activeRoots st) container) eqn:Hhas.
  { apply tsx_mount_tracked. exact Hhas. }
  destruct Hsettled as [Habs|Hskip]; [discriminate Habs|].
  destruct (truthy (widgetComponent (dataset container))) as [name|] eqn:Hname.
  - apply tsx_mount_unregistered; assumption.
  - apply tsx_mount_unnamed; assumption.
Qed.

(** Every call of [mountWidget] returns normally, and either skips a
    settled container or tracks a root made for it. *)
Lemma tsx_mount_cases container st :
  settled registry (activeRoots st) container \/
  (JSMap.has (activeRoots st) container = false /\
   exists name C value diagnostics,
     mountWidget container st
     = (Returned tt,
        tracked st container
          (MainTsx.mkEntry (mkRoot (rootCounter st) container) name)
          (tsx_element C value) diagnostics)).
Proof.
  unfold settled.
  destruct (JSMap.has (activeRoots st) container) eqn:Hhas.
  { left. left. reflexivity. }
  destruct (truthy (widgetComponent (dataset container))) as [name|] eqn:Hname.
  2: { left. right. exact I. }
  destruct (Get registry name) as [C|] eqn:Hreg.
  2: { left. right. reflexivity. }
  right. split; [reflexivity|].
  destruct (tsx_parseProps_total (props (dataset container)) st)
    as (value & diagnostics & Hparse).
  exists name, C, value, (diagnostics ++ [tsx_mounted_log name]).
  apply tsx_mount_resolved; assumption.
Qed.

Lemma settled_mono table container k entry :
  settled registry table container ->
  settled registry (JSMap.set table k entry) container.
Proof.
  intros [Hhas|Hskip]; [left; apply has_set_mono; exact Hhas | right; exact Hskip].
Qed.

(** A scan returns normally and settles every container it was given. *)
Lemma tsx_forEach_settles containers st :
  exists st1,
    forEach containers mountWidget st = (Returned tt, st1) /\
    Forall (settled registry (activeRoots st1)) containers /\
    (forall c, settled registry (activeRoots st) c ->
               settled registry (activeRoots st1) c).
Proof.
  revert st. induction containers as [|c rest IH]; intros st.
  - exists st. split; [reflexivity|]. split; [constructor | trivial].
  - destruct (tsx_mount_cases c st)
      as [Hsettled | (Hhas & name & C & value & diags & Hstep)].
    + pose proof (tsx_mount_settled c st Hsettled) as Hstep.
      destruct (IH (logged st [tsx_skip_diagnostic registry (activeRoots st) c]))
        as (st1 & Hrun & Hall & Hmono).
      exists st1. split; [rewrite (forEach_returned _ _ _ _ _ Hstep); exact Hrun|].
      split; [constructor; [apply Hmono; exact Hsettled | exact Hall]|].
      intros c' Hc'. apply Hmono. exact Hc'.
    + destruct (IH (tracked st c
                      (MainTsx.mkEntry (mkRoot (rootCounter st) c) name)
                      (tsx_element C value) diags))
        as (st1 & Hrun & Hall & Hmono).
      exists st1. split; [rewrite (forEach_returned _ _ _ _ _ Hstep); exact Hrun|].
      split.
      * constructor; [|exact Hall]. apply Hmono. left. apply has_set_same.
      * intros c' Hc'. apply Hmono. cbn. apply settled_mono. exact Hc'.
Qed.

(** Once every container is settled, a scan only logs. *)
Lemma tsx_forEach_settled containers st :
  Forall (settled registry (activeRoots st)) containers ->
  forEach containers mountWidget st
  = (Returned tt,
     logged st (map (tsx_skip_diagnostic registry (activeRoots st)) containers)).
Proof.
  revert st. induction containers as [|c rest IH]; intros st Hall.
  - simpl. rewrite logged_nil. reflexivity.
  - apply Forall_cons in Hall as [Hc Hrest].
    rewrite (forEach_returned _ _ _ _ _ (tsx_mount_settled c st Hc)).
    rewrite IH by exact Hrest. rewrite logged_logged. reflexivity.
Qed.
End Rescan.

(** C4, as stated, fails: the second scan of the unchanged demo page
    logs a "Widget already mounted" warning for each of its two
    containers. *)
Lemma rescan_emits_duplicate_mount_warnings :
  querySelectorAll demo_page (ByClass "react-widget-container")
    = [product_card; bare_calculator] /\
  JSMap.keys (activeRoots scanned_once) = [product_card; bare_calculator] /\
  List.filter is_diagnostic (console scanned_once) = [] /\
  MainTsx.initializeWidgets sample_parse demo_registry demo_page scanned_once
    = (Returned tt,
       logged scanned_once
         [scanning_log;
          mkLog Warn "[Widget Engine] Widget already mounted:"
            (NodeArg product_card);
          mkLog Warn "[Widget Engine] Widget already mounted:"
            (NodeArg bare_calculator)]).
Proof. repeat split; vm_compute; reflexivity. Qed.


(** ** One root per container *)

Section Invariant.
Context {E : Type} (root_of : E -> Root).
Implicit Types (st : Runtime E).

Local Abbreviation Inv := (one_root_each root_of).

Lemma inv_initial : Inv initial.
Proof.
  split; [apply NoDup_nil_2|]. split.
  - intros c r [(c0 & Hin & _) _]. destruct Hin.
  - intros c r Hin. destruct Hin.
Qed.


Lemma inv_logged st entries : Inv st -> Inv (logged st entries).
Proof. intros H. exact H. Qed.

Lemma inv_tracked st container entry element entries :
  Inv st ->
  JSMap.has (activeRoots st) container = false ->
  rootId (root_of entry) = rootCounter st ->
  Inv (tracked st container entry element entries).
Proof.
  intros (Hwf & Hlive & Hfresh) Hhas Hroot. apply has_false_get in Hhas.
  split; [apply wf_set; exact Hwf|]. split.
  - intros c r [(c0 & Hin & Hid) Hnot]. cbn in *.
    apply in_app_or in Hin as [Hold|Hnew].
    + destruct (Hlive c r) as (e & Hget & Hr).
      { split; [exists c0; auto|]. intros Hu. apply Hnot.
        apply in_or_app. left. exact Hu. }
      exists e. split; [|exact Hr].
      rewrite get_set_other; [exact Hget|].
      intros Heq. rewrite (get_same_id _ container c Heq) in Hhas. congruence.
    + destruct Hnew as [Hnew|[Hnew|[]]]; [|discriminate Hnew].
      injection Hnew as <- <-. exists entry. split; [|exact Hroot].
      rewrite <- (get_same_id _ container c Hid). apply get_set_same.
  - intros c r Hin. cbn in *.
    apply in_app_or in Hin as [Hold|[Hnew|[Hnew|[]]]].
    + specialize (Hfresh c r Hold). lia.
    + injection Hnew as _ <-. lia.
    + discriminate Hnew.
Qed.

Lemma inv_unmount_called st r :
  Inv st ->
  Inv (mkRuntime (activeRoots st) (console st) (effects st ++ [Unmount r])
         (rootCounter st)).
Proof.
  intros (Hwf & Hlive & Hfresh). split; [exact Hwf|]. split.
  - intros c r' [(c0 & Hin & Hid) Hnot]. cbn in *. apply Hlive.
    split.
    + exists c0. split; [|exact Hid].
      apply in_app_or in Hin as [Hin|[Hin|[]]]; [exact Hin | discriminate Hin].
    + intros Hu. apply Hnot. apply in_or_app. left. exact Hu.
  - intros c r' Hin. cbn in *.
    apply in_app_or in Hin as [Hin|[Hin|[]]];
      [exact (Hfresh c r' Hin) | discriminate Hin].
Qed.

Lemma inv_released st container entry entries :
  Inv st ->
  JSMap.get (activeRoots st) container = Some entry ->
  Inv (released st container (rootId (root_of entry)) entries).
Proof.
  intros HInv Hget.
  pose proof (inv_unmount_called st (rootId (root_of entry)) HInv)
    as (Hwf & Hlive & Hfresh).
  split; [apply wf_delete; exact Hwf|]. split; [|exact Hfresh].
  intros c r Hl. destruct (Hlive c r Hl) as (e & Hg & Hr). cbn in *.
  exists e. split; [|exact Hr].
  rewrite get_delete_other; [exact Hg|].
  intros Heq. rewrite <- (get_same_id _ container c Heq) in Hg.
  assert (e = entry) by congruence. subst e.
  destruct Hl as [_ Hnot]. apply Hnot. apply in_or_app. right.
  left. rewrite Hr. reflexivity.
Qed.
End Invariant.

Section TsxInvariant.
Variable parse_json : string -> option JSON.
Variable unmount_throws : nat -> bool.
Variable registry : gmap string Component.
Implicit Types (st : Runtime MainTsx.RootEntry).

Local Abbreviation Inv := (one_root_each MainTsx.root).

Lemma tsx_mount_preserves container st :
  Inv st -> Inv (snd (MainTsx.mountWidget parse_json registry container st)).
Proof.
  intros HInv.
  destruct (tsx_mount_cases parse_json registry container st)
    as [Hsettled | (Hhas & name & C & value & diags & Hstep)].
  - rewrite (tsx_mount_settled parse_json registry container st Hsettled).
    exact HInv.
  - rewrite Hstep. apply inv_tracked; [exact HInv | exact Hhas | reflexivity].
Qed.


Lemma tsx_unmount_preserves container st :
  Inv st -> Inv (snd (MainTsx.unmountWidget unmount_throws container st)).
Proof.
  intros HInv.
  destruct (JSMap.get (activeRoots st) container) as [entry|] eqn:Hget.
  - destruct (unmount_throws (rootId (MainTsx.root entry))) eqn:Hthrow.
    + rewrite (tsx_unmount_throwing unmount_throws container entry st Hget Hthrow).
      apply inv_unmount_called. exact HInv.
    + rewrite (tsx_unmount_present unmount_throws container entry st Hget Hthrow).
      apply inv_released; assumption.
  - rewrite (tsx_unmount_absent unmount_throws container st Hget). exact HInv.
Qed.
End TsxInvariant.

Section DocInvariant.
Variable parse_json : string -> option JSON.
Variable registry : gmap string Component.
Implicit Types (st : Runtime Root).

End DocInvariant.

Section LoopInvariants.
Context {E : Type} (P : Runtime E -> Prop).

Lemma forEach_preserves {A} (callback : A -> JS E unit) items :
  (forall item st, P st -> P (snd (callback item st))) ->
  forall st, P st -> P (snd (forEach items callback st)).
Proof.
  intros Hstep. induction items as [|item rest IH]; intros st HP.
  - exact HP.
  - simpl. unfold bind. specialize (Hstep item st HP).
    destruct (callback item st) as [[[]|e] st']; cbn in *.
    + apply IH. exact Hstep.
    + exact Hstep.
Qed.

Lemma visit_preserves (callback : E -> Node -> JS E unit) ks :
  (forall v k st, P st -> P (snd (callback v k st))) ->
  forall st, P st -> P (snd (visit ks callback st)).
Proof.
  intros Hstep. induction ks as [|k rest IH]; intros st HP.
  - exact HP.
  - simpl. unfold bind at 1, snapshot.
    destruct (JSMap.get (activeRoots st) k) as [v|]; [|apply IH; exact HP].
    unfold bind. specialize (Hstep v k st HP).
    destruct (callback v k st) as [[[]|e] st']; cbn in *.
    + apply IH. exact Hstep.
    + exact Hstep.
Qed.
End LoopInvariants.

Section TsxSession.
Variable parse_json : string -> option JSON.
Variable unmount_throws : nat -> bool.
Variable registry : gmap string Component.

Lemma perform_preserves st c :
  one_root_each MainTsx.root st ->
  one_root_each MainTsx.root (perform parse_json unmount_throws registry st c).
Proof.
  intros HInv. destruct c as [container|container|document|]; unfold perform.
  - apply tsx_mount_preserves. exact HInv.
  - apply tsx_unmount_preserves. exact HInv.
  - unfold MainTsx.initializeWidgets. rewrite tsx_scan_unfold.
    apply (forEach_preserves (one_root_each MainTsx.root)).
    + intros item st0. apply tsx_mount_preserves.
    + exact HInv.
  - unfold MainTsx.cleanupAllWidgets, Map_forEach. unfold bind, snapshot.
    apply (visit_preserves (one_root_each MainTsx.root)).
    + intros v k st0. apply tsx_unmount_preserves.
    + exact HInv.
Qed.

Lemma session_invariant calls :
  one_root_each MainTsx.root (session parse_json unmount_throws registry calls).
Proof.
  unfold session.
  assert (H : forall st,
            one_root_each MainTsx.root st ->
            one_root_each MainTsx.root
              (fold_left (perform parse_json unmount_throws registry) calls st)).
  { induction calls as [|c rest IH]; intros st HInv; [exact HInv|].
    simpl. apply IH. apply perform_preserves. exact HInv. }
  apply H. apply inv_initial.
Qed.
End TsxSession.



(** * Further properties of the engines *)

(** ** [main.tsx]: what a scan does *)

Section TsxScan.
Variable parse_json : string -> option JSON.
Variable registry : gmap string Component.
Implicit Types (st : Runtime MainTsx.RootEntry) (container : Node).

Local Abbreviation mountWidget := (MainTsx.mountWidget parse_json registry).

Lemma tsx_mountable_inv container :
  tsx_mountable registry container = true ->
  exists C,
    truthy (widgetComponent (dataset container)) = Some (tsx_name container) /\
    Get registry (tsx_name container) = Some C.
Proof.
  unfold tsx_mountable, tsx_name, isRegisteredWidget.
  destruct (truthy (widgetComponent (dataset container))) as [name|];
    [|discriminate].
  intros H. apply HasProperty_Get in H as [C HC]. exists C. auto.
Qed.

Lemma tsx_unmountable_settled container table :
  tsx_mountable registry container = false ->
  settled registry table container.
Proof.
  unfold tsx_mountable, settled, isRegisteredWidget. intros H. right.
  destruct (truthy (widgetComponent (dataset container))) as [name|];
    [|exact I].
  apply HasProperty_false. exact H.
Qed.

(** Mounting a mountable container that is not tracked appends its
    entry. *)
Lemma tsx_mount_appends container st :
  JSMap.has (activeRoots st) container = false ->
  tsx_mountable registry container = true ->
  exists C value diagnostics,
    Get registry (tsx_name container) = Some C /\
    mountWidget container st
    = (Returned tt,
       mkRuntime
         (activeRoots st
          ++ [(container,
               MainTsx.mkEntry (mkRoot (rootCounter st) container)
                 (tsx_name container))])
         (console st ++ diagnostics)
         (effects st ++ [CreateRoot container (rootCounter st);
                         Render (rootCounter st) (tsx_element C value)])
         (S (rootCounter st))).
Proof.
  intros Hhas Hm. destruct (tsx_mountable_inv container Hm) as (C & Hname & Hreg).
  destruct (tsx_parseProps_total parse_json (props (dataset container)) st)
    as (value & diags & Hparse).
  exists C, value, (diags ++ [tsx_mounted_log (tsx_name container)]).
  split; [exact Hreg|].
  rewrite (tsx_mount_resolved parse_json registry container _ C value st diags
             Hhas Hname Hreg Hparse).
  unfold tracked. rewrite set_absent by (apply has_false_get; exact Hhas).
  reflexivity.
Qed.
End TsxScan.

Section MapSnoc.
Context {V : Type}.
Implicit Types (m : list (Node * V)) (k : Node) (v : V).

Lemma get_snoc_same m k v :
  JSMap.get m k = None -> JSMap.get (m ++ [(k, v)]) k = Some v.
Proof. intros H. rewrite <- (set_absent m k v H). apply get_set_same. Qed.

Lemma get_snoc_other m k k' v :
  JSMap.get m k = None -> nodeId k <> nodeId k' ->
  JSMap.get (m ++ [(k, v)]) k' = JSMap.get m k'.
Proof.
  intros H Hne. rewrite <- (set_absent m k v H). apply get_set_other. exact Hne.
Qed.

Lemma delete_snoc_absent m k v :
  JSMap.get m k = None -> JSMap.delete (m ++ [(k, v)]) k = m.
Proof.
  induction m as [|[k0 v0] m IH]; simpl.
  - intros _. rewrite same_node_refl. reflexivity.
  - destruct (same_node k0 k); [discriminate|].
    intros H. rewrite (IH H). reflexivity.
Qed.

Lemma In_delete m k kv : In kv (JSMap.delete m k) -> In kv m.
Proof.
  induction m as [|[k0 v0] m IH]; simpl; [trivial|].
  destruct (same_node k0 k); simpl.
  - intros H. right. exact H.
  - intros [H|H]; [left; exact H | right; exact (IH H)].
Qed.
End MapSnoc.

Section TsxDiscovery.
Variable parse_json : string -> option JSON.
Variable registry : gmap string Component.
Implicit Types (st : Runtime MainTsx.RootEntry) (container : Node).

Local Abbreviation mountWidget := (MainTsx.mountWidget parse_json registry).

(** The two outcomes of a call of [mountWidget]. *)
Lemma tsx_mount_outcome container st :
  (exists d, mountWidget container st = (Returned tt, logged st [d])) \/
  (JSMap.has (activeRoots st) container = false /\
   tsx_mountable registry container = true /\
   exists C value diagnostics,
     Get registry (tsx_name container) = Some C /\
     mountWidget container st
     = (Returned tt,
        mkRuntime
          (activeRoots st
           ++ [(container,
                MainTsx.mkEntry (mkRoot (rootCounter st) container)
                  (tsx_name container))])
          (console st ++ diagnostics)
          (effects st ++ [CreateRoot container (rootCounter st);
                          Render (rootCounter st) (tsx_element C value)])
          (S (rootCounter st)))).
Proof.
  destruct (JSMap.has (activeRoots st) container) eqn:Hhas.
  { left. eexists. apply tsx_mount_tracked. exact Hhas. }
  destruct (tsx_mountable registry container) eqn:Hm.
  - right. split; [reflexivity|]. split; [reflexivity|].
    apply tsx_mount_appends; assumption.
  - left. eexists. apply tsx_mount_settled.
    apply tsx_unmountable_settled. exact Hm.
Qed.

Lemma tsx_forEach_only_adds containers st :
  exists added lines calls,
    forEach containers mountWidget st
    = (Returned tt,
       mkRuntime (activeRoots st ++ added) (console st ++ lines)
         (effects st ++ calls) (rootCounter st + length added)) /\
    Forall (fun e => is_unmount e = false) calls /\
    Forall (fun kv => In (fst kv) containers) added.
Proof.
  revert st. induction containers as [|c rest IH]; intros st.
  - exists [], [], []. simpl. rewrite !app_nil_r, Nat.add_0_r.
    destruct st. split; [reflexivity|]. split; constructor.
  - destruct (tsx_mount_outcome c st)
      as [[d Hstep] | (Hhas & Hm & C & value & diags & Hreg & Hstep)].
    + destruct (IH (logged st [d])) as (added & lines & calls & Hrun & Hc & Ha).
      exists added, (d :: lines), calls.
      rewrite (forEach_returned _ _ _ _ _ Hstep), Hrun. cbn.
      rewrite <- app_assoc. split; [reflexivity|]. split; [exact Hc|].
      eapply Forall_impl; [exact Ha|]. intros kv Hin. right. exact Hin.
    + match type of Hstep with _ = (_, ?s) =>
        destruct (IH s) as (added & lines & calls & Hrun & Hc & Ha) end.
      eexists (_ :: added), (diags ++ lines), (_ :: _ :: calls).
      rewrite (forEach_returned _ _ _ _ _ Hstep), Hrun. cbn.
      rewrite <- !app_assoc. cbn. rewrite Nat.add_succ_r.
      split; [reflexivity|]. split.
      * constructor; [reflexivity|]. constructor; [reflexivity | exact Hc].
      * constructor; [left; reflexivity|].
        eapply Forall_impl; [exact Ha|]. intros kv Hin. right. exact Hin.
Qed.

Lemma tsx_new_entries_cons first c mounted :
  tsx_new_entries first (c :: mounted)
  = (c, MainTsx.mkEntry (mkRoot first c) (tsx_name c))
    :: tsx_new_entries (S first) mounted.
Proof.
  unfold tsx_new_entries. rewrite imap_cons. rewrite Nat.add_0_r. f_equal.
  apply imap_ext. intros i x _. cbn. rewrite Nat.add_succ_r. reflexivity.
Qed.

Lemma tsx_new_entries_length first mounted :
  length (tsx_new_entries first mounted) = length mounted.
Proof. unfold tsx_new_entries. apply length_imap. Qed.

Lemma tsx_forEach_discovers containers st :
  NoDup (map nodeId containers) ->
  Forall (fun c => JSMap.has (activeRoots st) c = false) containers ->
  exists lines calls,
    forEach containers mountWidget st
    = (Returned tt,
       mkRuntime
         (activeRoots st
          ++ tsx_new_entries (rootCounter st)
               (List.filter (tsx_mountable registry) containers))
         (console st ++ lines) (effects st ++ calls)
         (rootCounter st
          + length (List.filter (tsx_mountable registry) containers))).
Proof.
  revert st. induction containers as [|c rest IH]; intros st Hnd Hun.
  - exists [], []. simpl. rewrite !app_nil_r, Nat.add_0_r.
    destruct st. reflexivity.
  - cbn in Hnd. apply NoDup_cons in Hnd as [Hc Hnd].
    apply Forall_cons in Hun as [Hhas Hun].
    cbn [List.filter]. destruct (tsx_mountable registry c) eqn:Hm.
    + destruct (tsx_mount_appends parse_json registry c st Hhas Hm)
        as (C & value & diags & _ & Hstep).
      match type of Hstep with _ = (_, ?s) =>
        destruct (IH s Hnd) as (lines & calls & Hrun) end.
      { cbn. apply Forall_forall. intros c' Hin.
        rewrite Forall_forall in Hun. specialize (Hun c' Hin).
        apply has_false_get. rewrite get_snoc_other.
        - apply has_false_get. exact Hun.
        - apply has_false_get. exact Hhas.
        - intros Heq. apply Hc. rewrite Heq.
          apply list_elem_of_In. apply in_map. apply list_elem_of_In. exact Hin. }
      eexists (diags ++ lines), (_ :: _ :: calls).
      rewrite (forEach_returned _ _ _ _ _ Hstep), Hrun.
      rewrite tsx_new_entries_cons.
      cbn [activeRoots console effects rootCounter length].
      rewrite <- !app_assoc, Nat.add_succ_r. reflexivity.
    + pose proof (tsx_mount_settled parse_json registry c st
                    (tsx_unmountable_settled registry c _ Hm)) as Hstep.
      destruct (IH (logged st
                      [tsx_skip_diagnostic registry (activeRoots st) c])
                  Hnd Hun) as (lines & calls & Hrun).
      eexists (_ :: lines), calls.
      rewrite (forEach_returned _ _ _ _ _ Hstep), Hrun. cbn.
      rewrite <- app_assoc. reflexivity.
Qed.
End TsxDiscovery.

Lemma tsx_new_entries_keys first mounted :
  JSMap.keys (tsx_new_entries first mounted) = mounted.
Proof.
  revert first. induction mounted as [|c l IH]; intros first; [reflexivity|].
  rewrite tsx_new_entries_cons. cbn. f_equal. apply IH.
Qed.

(** X1: a scan of [main.tsx] never throws and never takes anything
    away: whatever the document and the parser, [initializeWidgets]
    returns normally, the table it leaves is the old table followed by
    entries for containers of the document, and none of its calls to
    React is an [unmount]. *)
Theorem tsx_scan_returns_and_only_adds
    (parse_json : string -> option JSON) (registry : gmap string Component)
    (document : Node) (st : Runtime MainTsx.RootEntry) :
  exists st' added lines calls,
    MainTsx.initializeWidgets parse_json registry document st
      = (Returned tt, st') /\
    activeRoots st' = activeRoots st ++ added /\
    console st' = console st ++ lines /\
    effects st' = effects st ++ calls /\
    rootCounter st' = rootCounter st + length added /\
    Forall (fun e => is_unmount e = false) calls /\
    Forall (fun kv =>
              In (fst kv)
                 (querySelectorAll document (ByClass "react-widget-container")))
           added.
Proof.
  unfold MainTsx.initializeWidgets. rewrite tsx_scan_unfold.
  destruct (tsx_forEach_only_adds parse_json registry
              (querySelectorAll document (ByClass "react-widget-container"))
              (logged st [scanning_log]))
    as (added & lines & calls & Hrun & Hcalls & Hadded).
  eexists _, added, (scanning_log :: lines), calls.
  split; [exact Hrun|]. cbn. rewrite <- app_assoc.
  repeat (split; [reflexivity|]). split; [exact Hcalls | exact Hadded].
Qed.

Lemma tsx_scan_mounts_each_mountable_container_aux
    (parse_json : string -> option JSON) (registry : gmap string Component)
    (document : Node) (st : Runtime MainTsx.RootEntry) :
  let containers :=
    querySelectorAll document (ByClass "react-widget-container") in
  let mounted := List.filter (tsx_mountable registry) containers in
  NoDup (map nodeId containers) ->
  Forall (fun c => JSMap.has (activeRoots st) c = false) containers ->
  exists st',
    MainTsx.initializeWidgets parse_json registry document st
      = (Returned tt, st') /\
    activeRoots st' = activeRoots st ++ tsx_new_entries (rootCounter st) mounted /\
    rootCounter st' = rootCounter st + length mounted.
Proof.
  intros containers mounted Hnd Hun.
  unfold MainTsx.initializeWidgets. fold containers. rewrite tsx_scan_unfold.
  destruct (tsx_forEach_discovers parse_json registry containers
              (logged st [scanning_log]) Hnd Hun) as (lines & calls & Hrun).
  eexists. split; [exact Hrun|]. cbn. fold mounted.
  split; reflexivity.
Qed.

(** X2: discovery.  When the containers of the document are distinct
    nodes and none of them is tracked yet, [initializeWidgets] appends
    one entry for each container whose name [isRegisteredWidget]
    accepts (a key of the registry or a member the registry object
    inherits from [Object.prototype]), in document order, with
    consecutively numbered new roots, and nothing else; malformed props
    do not keep a container out. *)
Theorem tsx_scan_mounts_each_mountable_container
    (parse_json : string -> option JSON) (registry : gmap string Component)
    (document : Node) (st : Runtime MainTsx.RootEntry) :
  let containers :=
    querySelectorAll document (ByClass "react-widget-container") in
  let mounted := List.filter (tsx_mountable registry) containers in
  NoDup (map nodeId containers) ->
  Forall (fun c => JSMap.has (activeRoots st) c = false) containers ->
  exists st',
    MainTsx.initializeWidgets parse_json registry document st
      = (Returned tt, st') /\
    activeRoots st' = activeRoots st ++ tsx_new_entries (rootCounter st) mounted /\
    JSMap.keys (activeRoots st') = JSMap.keys (activeRoots st) ++ mounted /\
    rootCounter st' = rootCounter st + length mounted.
Proof.
  intros containers mounted Hnd Hun.
  destruct (tsx_scan_mounts_each_mountable_container_aux parse_json registry
              document st Hnd Hun) as (st' & Hrun & Htable & Hctr).
  exists st'. split; [exact Hrun|]. split; [exact Htable|].
  split; [|exact Hctr].
  fold containers in Htable. fold mounted in Htable. rewrite Htable.
  unfold JSMap.keys. rewrite map_app. f_equal. apply tsx_new_entries_keys.
Qed.

(** The mixed page, scanned for the first time: all four containers are
    mounted, the malformed card and the container named [toString]
    included. *)
Lemma tsx_scan_mounts_witness :
  NoDup (map nodeId
           (querySelectorAll mixed_page (ByClass "react-widget-container"))) /\
  exists st',
    MainTsx.initializeWidgets sample_parse demo_registry mixed_page initial
      = (Returned tt, st') /\
    JSMap.keys (activeRoots st')
      = [product_card; malformed_card; tostring_widget; bare_calculator] /\
    rootCounter st' = 4.
Proof.
  assert (Hnd : NoDup (map nodeId
                  (querySelectorAll mixed_page
                     (ByClass "react-widget-container")))).
  { distinct_ids. }
  split; [exact Hnd|].
  destruct (tsx_scan_mounts_each_mountable_container sample_parse
              demo_registry mixed_page initial Hnd)
    as (st' & Hrun & _ & Hkeys & Hctr).
  { apply Forall_forall. intros c _. reflexivity. }
  exists st'. split; [exact Hrun|]. split; [exact Hkeys | exact Hctr].
Defined.

(** ** [main.tsx]: mounting, unmounting and tearing down together *)

(** X3: mounting and then unmounting a container is a round trip on the
    tracking table: for an untracked container that names a registered
    component, [mountWidget] followed by [unmountWidget] (whose
    [unmount] does not throw) leaves the table exactly as it was, and
    the root created in between has been unmounted. *)
Theorem tsx_mount_then_unmount_restores_table
    (parse_json : string -> option JSON) (unmount_throws : nat -> bool)
    (registry : gmap string Component) (container : Node)
    (st : Runtime MainTsx.RootEntry) :
  JSMap.has (activeRoots st) container = false ->
  tsx_mountable registry container = true ->
  unmount_throws (rootCounter st) = false ->
  exists st1 st2 element,
    MainTsx.mountWidget parse_json registry container st = (Returned tt, st1) /\
    JSMap.has (activeRoots st1) container = true /\
    MainTsx.unmountWidget unmount_throws container st1 = (Returned tt, st2) /\
    activeRoots st2 = activeRoots st /\
    effects st2
      = effects st ++ [CreateRoot container (rootCounter st);
                       Render (rootCounter st) element;
                       Unmount (rootCounter st)] /\
    ~ live (effects st2) container (rootCounter st).
Proof.
  intros Hhas Hm Hok.
  destruct (tsx_mount_appends parse_json registry container st Hhas Hm)
    as (C & value & diags & _ & Hstep).
  apply has_false_get in Hhas.
  eexists _, _, (tsx_element C value). split; [exact Hstep|].
  split; [unfold JSMap.has; cbn; rewrite get_snoc_same by exact Hhas;
          reflexivity|].
  split.
  - apply tsx_unmount_present.
    + cbn. apply get_snoc_same. exact Hhas.
    + exact Hok.
  - cbn. rewrite delete_snoc_absent by exact Hhas. rewrite <- app_assoc.
    split; [reflexivity|]. split; [reflexivity|].
    intros [_ Hnot]. apply Hnot. apply in_or_app. right.
    right. right. left. reflexivity.
Qed.

(** On the demo page: the product card, mounted and unmounted again. *)
Lemma tsx_mount_then_unmount_witness :
  tsx_mountable demo_registry product_card = true /\
  exists st1 st2,
    MainTsx.mountWidget sample_parse demo_registry product_card initial
      = (Returned tt, st1) /\
    MainTsx.unmountWidget never product_card st1 = (Returned tt, st2) /\
    activeRoots st2 = [].
Proof.
  assert (Hm : tsx_mountable demo_registry product_card = true)
    by (vm_compute; reflexivity).
  split; [exact Hm|].
  destruct (tsx_mount_then_unmount_restores_table sample_parse never
              demo_registry product_card initial eq_refl Hm eq_refl)
    as (st1 & st2 & element & H1 & _ & H2 & Htable & _).
  exists st1, st2. split; [exact H1|]. split; [exact H2 | exact Htable].
Defined.

(** X4: a teardown leaves no root behind.  From a state that satisfies
    the invariant of the table, and when no [unmount] throws,
    [cleanupAllWidgets] returns normally with an empty table, and after
    it no container has a live root: every root ever created has been
    unmounted. *)
Theorem tsx_cleanup_leaves_no_live_root
    (unmount_throws : nat -> bool) (st : Runtime MainTsx.RootEntry) :
  one_root_each MainTsx.root st ->
  Forall (fun r => unmount_throws (rootId r) = false)
         (tsx_roots (activeRoots st)) ->
  exists st',
    MainTsx.cleanupAllWidgets unmount_throws st = (Returned tt, st') /\
    activeRoots st' = [] /\
    forall container r, ~ live (effects st') container r.
Proof.
  intros (Hwf & Hlive & _) Hquiet.
  pose proof (tsx_cleanup_until_throw unmount_throws st (activeRoots st) []
                (eq_sym (app_nil_r _)) Hquiet I) as Hrun.
  eexists. split; [exact Hrun|]. split; [reflexivity|].
  intros c r [(c0 & Hin & Hid) Hnot]. cbn in Hin, Hnot.
  unfold teardown_calls in Hin, Hnot. cbn in Hin, Hnot.
  rewrite app_nil_r in Hin, Hnot.
  apply in_app_or in Hin as [Hin|Hin].
  2: { apply in_map_iff in Hin as (x & Hx & _). discriminate Hx. }
  destruct (Hlive c r) as (e & Hget & Hr).
  { split; [exists c0; auto|]. intros Hu. apply Hnot.
    apply in_or_app. left. exact Hu. }
  apply Hnot. apply in_or_app. right.
  destruct (get_In _ _ _ Hget) as (k0 & Hk0 & _).
  apply in_map_iff. exists (MainTsx.root e). split; [rewrite Hr; reflexivity|].
  unfold tsx_roots. apply in_map_iff. exists (k0, e). auto.
Qed.

(** On the demo page with both widgets mounted. *)
Lemma tsx_cleanup_witness :
  one_root_each MainTsx.root two_widgets /\
  exists st',
    MainTsx.cleanupAllWidgets never two_widgets = (Returned tt, st') /\
    activeRoots st' = [] /\
    ~ live (effects st') product_card 0.
Proof.
  assert (HInv : one_root_each MainTsx.root two_widgets).
  { exact (session_invariant sample_parse never demo_registry
             [CallMount product_card; CallMount bare_calculator]). }
  split; [exact HInv|].
  destruct (tsx_cleanup_leaves_no_live_root never two_widgets HInv)
    as (st' & Hrun & Htable & Hnone).
  { apply Forall_forall. intros r _. reflexivity. }
  exists st'. split; [exact Hrun|]. split; [exact Htable | apply Hnone].
Defined.

Section TsxConsistency.
Variable parse_json : string -> option JSON.
Variable unmount_throws : nat -> bool.
Variable registry : gmap string Component.
Implicit Types (st : Runtime MainTsx.RootEntry).

Local Abbreviation Ok := (tsx_entries_consistent registry).

Lemma consistent_weaken st table' console' effects' counter' :
  Ok st ->
  (forall kv, In kv table' -> In kv (activeRoots st)) ->
  (forall e, In e (effects st) -> In e effects') ->
  Ok (mkRuntime table' console' effects' counter').
Proof.
  intros H Ht He k e Hin. cbn in *.
  destruct (H k e (Ht _ Hin)) as (H1 & H2 & H3 & H4).
  repeat split; try assumption. apply He. exact H4.
Qed.

Lemma tsx_mount_consistent container st :
  Ok st -> Ok (snd (MainTsx.mountWidget parse_json registry container st)).
Proof.
  intros H.
  destruct (tsx_mount_outcome parse_json registry container st)
    as [[d Hstep] | (Hhas & Hm & C & value & diags & Hreg & Hstep)];
    rewrite Hstep; cbn [snd].
  - exact H.
  - intros k e Hin. cbn in *. apply in_app_or in Hin as [Hin|[Hin|[]]].
    + destruct (H k e Hin) as (H1 & H2 & H3 & H4).
      repeat split; try assumption. apply in_or_app. left. exact H4.
    + injection Hin as <- <-. cbn. repeat split; try assumption.
      apply in_or_app. right. left. reflexivity.
Qed.

Lemma tsx_unmount_consistent container st :
  Ok st -> Ok (snd (MainTsx.unmountWidget unmount_throws container st)).
Proof.
  intros H.
  destruct (JSMap.get (activeRoots st) container) as [entry|] eqn:Hget.
  - destruct (unmount_throws (rootId (MainTsx.root entry))) eqn:Hthrow.
    + rewrite (tsx_unmount_throwing unmount_throws container entry st Hget Hthrow).
      apply (consistent_weaken st); [exact H | trivial |].
      intros e He. apply in_or_app. left. exact He.
    + rewrite (tsx_unmount_present unmount_throws container entry st Hget Hthrow).
      apply (consistent_weaken st); [exact H | apply In_delete |].
      intros e He. apply in_or_app. left. exact He.
  - rewrite (tsx_unmount_absent unmount_throws container st Hget). exact H.
Qed.

Lemma tsx_perform_consistent st c :
  Ok st -> Ok (perform parse_json unmount_throws registry st c).
Proof.
  intros H. destruct c as [container|container|document|]; unfold perform.
  - apply tsx_mount_consistent. exact H.
  - apply tsx_unmount_consistent. exact H.
  - unfold MainTsx.initializeWidgets. rewrite tsx_scan_unfold.
    apply (forEach_preserves Ok).
    + intros item st0. apply tsx_mount_consistent.
    + exact H.
  - unfold MainTsx.cleanupAllWidgets, Map_forEach. unfold bind, snapshot.
    apply (visit_preserves Ok).
    + intros v k st0. apply tsx_unmount_consistent.
    + exact H.
Qed.
End TsxConsistency.

(** X5: the entries of the table record the mount they come from.
    After any sequence of calls into [main.tsx], every entry of
    [activeRoots] holds a root that was created in the very container
    it is filed under, and the component name which that container
    carried in [data-widget-component] when it was mounted (the key is
    the container as [mountWidget] received it; the attribute may have
    changed since), a name that the registry object has as a
    property. *)
Theorem tsx_entries_stay_consistent
    (parse_json : string -> option JSON) (unmount_throws : nat -> bool)
    (registry : gmap string Component) (calls : list TsxCall) :
  tsx_entries_consistent registry
    (session parse_json unmount_throws registry calls).
Proof.
  unfold session.
  assert (H : forall st,
            tsx_entries_consistent registry st ->
            tsx_entries_consistent registry
              (fold_left (perform parse_json unmount_throws registry) calls st)).
  { induction calls as [|c rest IH]; intros st Hst; [exact Hst|].
    simpl. apply IH. apply tsx_perform_consistent. exact Hst. }
  apply H. intros k e [].
Qed.

(** X6: tearing down and scanning again remounts the page.  Starting
    with an empty table and containers that are distinct nodes, a scan,
    a teardown in which no [unmount] throws, and a second scan of the
    same document leave the same containers tracked in the same order
    as the first scan did (those whose name [isRegisteredWidget]
    accepts, inherited names included), each under a new root numbered
    after all the roots of the first scan. *)
Theorem tsx_teardown_then_rescan_remounts
    (parse_json : string -> option JSON) (unmount_throws : nat -> bool)
    (registry : gmap string Component) (document : Node)
    (st : Runtime MainTsx.RootEntry) :
  let containers :=
    querySelectorAll document (ByClass "react-widget-container") in
  let mounted := List.filter (tsx_mountable registry) containers in
  activeRoots st = [] ->
  NoDup (map nodeId containers) ->
  (forall r, unmount_throws r = false) ->
  exists st1 st2 st3,
    MainTsx.initializeWidgets parse_json registry document st
      = (Returned tt, st1) /\
    MainTsx.cleanupAllWidgets unmount_throws st1 = (Returned tt, st2) /\
    MainTsx.initializeWidgets parse_json registry document st2
      = (Returned tt, st3) /\
    activeRoots st1 = tsx_new_entries (rootCounter st) mounted /\
    activeRoots st2 = [] /\
    activeRoots st3
      = tsx_new_entries (rootCounter st + length mounted) mounted.
Proof.
  intros containers mounted Hempty Hnd Hquiet.
  destruct (tsx_scan_mounts_each_mountable_container_aux parse_json registry
              document st Hnd) as (st1 & H1 & Ht1 & Hc1).
  { rewrite Hempty. apply Forall_forall. intros c _. reflexivity. }
  fold containers in Ht1, Hc1. fold mounted in Ht1, Hc1.
  rewrite Hempty in Ht1. cbn in Ht1.
  pose proof (tsx_cleanup_until_throw unmount_throws st1 (activeRoots st1) []
                (eq_sym (app_nil_r _))) as H2.
  specialize (H2 ltac:(apply Forall_forall; intros r _; apply Hquiet) I).
  match type of H2 with _ = (_, ?s) =>
    destruct (tsx_scan_mounts_each_mountable_container_aux parse_json registry
                document s Hnd) as (st3 & H3 & Ht3 & _) end.
  { apply Forall_forall. intros c _. reflexivity. }
  exists st1. eexists. exists st3.
  split; [exact H1|]. split; [exact H2|]. split; [exact H3|].
  split; [exact Ht1|]. split; [reflexivity|].
  rewrite Ht3. cbn. rewrite Hc1. reflexivity.
Qed.

(** On the demo page: scan, teardown, scan. *)
Lemma tsx_teardown_then_rescan_witness :
  exists st1 st2 st3,
    MainTsx.initializeWidgets sample_parse demo_registry demo_page initial
      = (Returned tt, st1) /\
    MainTsx.cleanupAllWidgets never st1 = (Returned tt, st2) /\
    MainTsx.initializeWidgets sample_parse demo_registry demo_page st2
      = (Returned tt, st3) /\
    activeRoots st3
      = [(product_card, MainTsx.mkEntry (mkRoot 2 product_card) "ProductCard");
         (bare_calculator,
          MainTsx.mkEntry (mkRoot 3 bare_calculator) "Calculator")].
Proof.
  destruct (tsx_teardown_then_rescan_remounts sample_parse never demo_registry
              demo_page initial eq_refl)
    as (st1 & st2 & st3 & H1 & H2 & H3 & _ & _ & Ht3).
  { vm_compute. apply NoDup_cons. split.
    - intros H. apply list_elem_of_singleton in H. discriminate H.
    - apply NoDup_singleton. }
  { reflexivity. }
  exists st1, st2, st3. split; [exact H1|]. split; [exact H2|].
  split; [exact H3|]. rewrite Ht3. vm_compute. reflexivity.
Defined.

(** X7: [isRegisteredWidget] of [registry.ts] (the test
    [name in registry]) and the lookup [registry[name]] of [mountWidget]
    agree: a named, untracked container is tracked after [mountWidget]
    exactly when [isRegisteredWidget] accepts its name, and otherwise
    the call only logs the "not found in registry" warning.  Both walk
    the prototype chain, so both accept a name such as [toString] that
    is no key of the registry. *)
Theorem tsx_registered_widgets_are_the_mounted_ones
    (parse_json : string -> option JSON) (registry : gmap string Component)
    (container : Node) (name : string) (st : Runtime MainTsx.RootEntry) :
  JSMap.has (activeRoots st) container = false ->
  truthy (widgetComponent (dataset container)) = Some name ->
  (isRegisteredWidget registry name = true <->
   JSMap.has
     (activeRoots (snd (MainTsx.mountWidget parse_json registry container st)))
     container = true) /\
  (isRegisteredWidget registry name = false ->
   MainTsx.mountWidget parse_json registry container st
   = (Returned tt, logged st [mkLog Warn (MainTsx.not_found name) NoArg])).
Proof.
  intros Hhas Hname.
  assert (Hm : tsx_mountable registry container
               = isRegisteredWidget registry name)
    by (unfold tsx_mountable; rewrite Hname; reflexivity).
  assert (Hskip : isRegisteredWidget registry name = false ->
            MainTsx.mountWidget parse_json registry container st
            = (Returned tt,
               logged st [mkLog Warn (MainTsx.not_found name) NoArg])).
  { intros Hreg. apply tsx_mount_unregistered; [exact Hhas | exact Hname |].
    apply HasProperty_false. exact Hreg. }
  split; [|exact Hskip].
  destruct (isRegisteredWidget registry name) eqn:Hreg.
  - split; [intros _ | reflexivity].
    destruct (tsx_mount_appends parse_json registry container st Hhas Hm)
      as (C & value & diags & _ & Hstep).
    rewrite Hstep. cbn. unfold JSMap.has.
    rewrite get_snoc_same by (apply has_false_get; exact Hhas). reflexivity.
  - rewrite (Hskip eq_refl). cbn. rewrite Hhas. split; discriminate.
Qed.

(** On the demo registry: [ProductCard] is a key, [toString] is
    inherited and accepted all the same, [Missing] is neither. *)
Lemma tsx_registered_widgets_witness :
  isRegisteredWidget demo_registry "ProductCard" = true /\
  isRegisteredWidget demo_registry "toString" = true /\
  isRegisteredWidget demo_registry "Missing" = false /\
  JSMap.has
    (activeRoots (snd (MainTsx.mountWidget sample_parse demo_registry
                         product_card initial)))
    product_card = true /\
  JSMap.has
    (activeRoots (snd (MainTsx.mountWidget sample_parse demo_registry
                         tostring_widget initial)))
    tostring_widget = true /\
  MainTsx.mountWidget sample_parse demo_registry missing_widget initial
  = (Returned tt, logged initial [mkLog Warn (MainTsx.not_found "Missing") NoArg]).
Proof.
  assert (H1 : isRegisteredWidget demo_registry "ProductCard" = true)
    by (vm_compute; reflexivity).
  assert (H2 : isRegisteredWidget demo_registry "toString" = true)
    by (vm_compute; reflexivity).
  assert (H3 : isRegisteredWidget demo_registry "Missing" = false)
    by (vm_compute; reflexivity).
  split; [exact H1|]. split; [exact H2|]. split; [exact H3|].
  split; [|split].
  - exact (proj1 (proj1 (tsx_registered_widgets_are_the_mounted_ones
                           sample_parse demo_registry product_card
                           "ProductCard" initial eq_refl eq_refl)) H1).
  - exact (proj1 (proj1 (tsx_registered_widgets_are_the_mounted_ones
                           sample_parse demo_registry tostring_widget
                           "toString" initial eq_refl eq_refl)) H2).
  - exact (proj2 (tsx_registered_widgets_are_the_mounted_ones
                    sample_parse demo_registry missing_widget
                    "Missing" initial eq_refl eq_refl) H3).
Defined.

(** ** Scanning, for any engine *)

Lemma logged_empty {E} (st : Runtime E) : logged st [] = st.
Proof. destruct st. unfold logged. cbn. rewrite app_nil_r. reflexivity. Qed.

Section MountLoop.
Context {E : Type}.
Variable mount : Node -> JS E unit.
Variable ok : Node -> bool.
Variable entry_of : nat -> Node -> E.

Hypothesis mount_skips :
  forall c st,
    JSMap.has (activeRoots st) c = true \/ ok c = false ->
    exists lines, mount c st = (Returned tt, logged st lines).

Hypothesis mount_tracks :
  forall c st,
    JSMap.has (activeRoots st) c = false -> ok c = true ->
    exists lines calls,
      mount c st
      = (Returned tt,
         mkRuntime (activeRoots st ++ [(c, entry_of (rootCounter st) c)])
           (console st ++ lines) (effects st ++ calls) (S (rootCounter st))) /\
      Forall (fun e => is_unmount e = false) calls.

Lemma numbered_cons first c mounted :
  numbered entry_of first (c :: mounted)
  = (c, entry_of first c) :: numbered entry_of (S first) mounted.
Proof.
  unfold numbered. rewrite imap_cons. rewrite Nat.add_0_r. f_equal.
  apply imap_ext. intros i x _. cbn. rewrite Nat.add_succ_r. reflexivity.
Qed.

Lemma numbered_keys first mounted :
  JSMap.keys (numbered entry_of first mounted) = mounted.
Proof.
  revert first. induction mounted as [|c l IH]; intros first; [reflexivity|].
  rewrite numbered_cons. cbn. f_equal. apply IH.
Qed.

Lemma to_mount_snoc (table : list (Node * E)) k v containers :
  JSMap.get table k = None ->
  nodeId k ∉ map nodeId containers ->
  to_mount ok (table ++ [(k, v)]) containers = to_mount ok table containers.
Proof.
  intros Hk Hnot. unfold to_mount. apply filter_ext_in. intros c Hin.
  f_equal. f_equal. unfold JSMap.has. rewrite get_snoc_other; [reflexivity | exact Hk |].
  intros Heq. apply Hnot. rewrite Heq. apply list_elem_of_In. apply in_map. exact Hin.
Qed.

Lemma loop_discovers containers st :
  NoDup (map nodeId containers) ->
  exists lines calls,
    forEach containers mount st
    = (Returned tt,
       mkRuntime
         (activeRoots st
          ++ numbered entry_of (rootCounter st)
               (to_mount ok (activeRoots st) containers))
         (console st ++ lines) (effects st ++ calls)
         (rootCounter st + length (to_mount ok (activeRoots st) containers))) /\
    Forall (fun e => is_unmount e = false) calls.
Proof using mount_skips mount_tracks.
  revert st. induction containers as [|c rest IH]; intros st Hnd.
  - exists [], []. simpl. rewrite !app_nil_r, Nat.add_0_r.
    destruct st. split; [reflexivity | constructor].
  - cbn in Hnd. apply NoDup_cons in Hnd as [Hc Hnd].
    unfold to_mount. cbn [List.filter]. fold (to_mount ok (activeRoots st) rest).
    destruct (JSMap.has (activeRoots st) c) eqn:Hhas.
    { rewrite andb_false_r.
      destruct (mount_skips c st (or_introl Hhas)) as (lines0 & Hstep).
      destruct (IH (logged st lines0) Hnd) as (lines & calls & Hrun & Hcalls).
      exists (lines0 ++ lines), calls.
      rewrite (forEach_returned _ _ _ _ _ Hstep), Hrun. cbn.
      rewrite <- app_assoc. split; [reflexivity | exact Hcalls]. }
    rewrite andb_true_r. destruct (ok c) eqn:Hok.
    + destruct (mount_tracks c st Hhas Hok) as (lines0 & calls0 & Hstep & Hc0).
      match type of Hstep with _ = (_, ?s) =>
        destruct (IH s Hnd) as (lines & calls & Hrun & Hcalls) end.
      exists (lines0 ++ lines), (calls0 ++ calls).
      rewrite (forEach_returned _ _ _ _ _ Hstep), Hrun.
      cbn [activeRoots console effects rootCounter].
      rewrite to_mount_snoc; [| apply has_false_get; exact Hhas | exact Hc].
      rewrite numbered_cons. cbn [length].
      rewrite <- !app_assoc, Nat.add_succ_r.
      split; [reflexivity | apply Forall_app; split; assumption].
    + destruct (mount_skips c st (or_intror Hok)) as (lines0 & Hstep).
      destruct (IH (logged st lines0) Hnd) as (lines & calls & Hrun & Hcalls).
      exists (lines0 ++ lines), calls.
      rewrite (forEach_returned _ _ _ _ _ Hstep), Hrun. cbn.
      rewrite <- app_assoc. split; [reflexivity | exact Hcalls].
Qed.

(** A scan settles every container: afterwards each is tracked or
    cannot be mounted. *)
Lemma loop_settles containers st :
  exists st1,
    forEach containers mount st = (Returned tt, st1) /\
    Forall (fun c => JSMap.has (activeRoots st1) c = true \/ ok c = false)
           containers /\
    (forall c, JSMap.has (activeRoots st) c = true ->
               JSMap.has (activeRoots st1) c = true).
Proof using mount_skips mount_tracks.
  revert st. induction containers as [|c rest IH]; intros st.
  - exists st. split; [reflexivity|]. split; [constructor | trivial].
  - destruct (JSMap.has (activeRoots st) c) eqn:Hhas.
    { destruct (mount_skips c st (or_introl Hhas)) as (lines0 & Hstep).
      destruct (IH (logged st lines0)) as (st1 & Hrun & Hall & Hmono).
      exists st1. rewrite (forEach_returned _ _ _ _ _ Hstep).
      split; [exact Hrun|]. split; [|exact Hmono].
      constructor; [left; apply Hmono; exact Hhas | exact Hall]. }
    destruct (ok c) eqn:Hok.
    + destruct (mount_tracks c st Hhas Hok) as (lines0 & calls0 & Hstep & _).
      match type of Hstep with _ = (_, ?s) =>
        destruct (IH s) as (st1 & Hrun & Hall & Hmono) end.
      exists st1. rewrite (forEach_returned _ _ _ _ _ Hstep).
      split; [exact Hrun|]. cbn in Hmono.
      pose proof Hhas as Hget. apply has_false_get in Hget.
      pose proof (set_absent (activeRoots st) c
                    (entry_of (rootCounter st) c) Hget) as Hsnoc.
      split.
      * constructor; [|exact Hall]. left. apply Hmono.
        rewrite <- Hsnoc. apply has_set_same.
      * intros c' Hc'. apply Hmono. rewrite <- Hsnoc.
        apply has_set_mono. exact Hc'.
    + destruct (mount_skips c st (or_intror Hok)) as (lines0 & Hstep).
      destruct (IH (logged st lines0)) as (st1 & Hrun & Hall & Hmono).
      exists st1. rewrite (forEach_returned _ _ _ _ _ Hstep).
      split; [exact Hrun|]. split; [|exact Hmono].
      constructor; [right; exact Hok | exact Hall].
Qed.

(** A scan over settled containers only logs. *)
Lemma loop_settled containers st :
  Forall (fun c => JSMap.has (activeRoots st) c = true \/ ok c = false)
         containers ->
  exists lines, forEach containers mount st = (Returned tt, logged st lines).
Proof using mount_skips mount_tracks.
  revert st. induction containers as [|c rest IH]; intros st Hall.
  - exists []. simpl. rewrite logged_empty. reflexivity.
  - apply Forall_cons in Hall as [Hc Hrest].
    destruct (mount_skips c st Hc) as (lines0 & Hstep).
    destruct (IH (logged st lines0) Hrest) as (lines & Hrun).
    exists (lines0 ++ lines). rewrite (forEach_returned _ _ _ _ _ Hstep), Hrun.
    rewrite logged_logged. reflexivity.
Qed.

Lemma loop_rescan containers st :
  exists st1 lines,
    forEach containers mount st = (Returned tt, st1) /\
    forEach containers mount st1 = (Returned tt, logged st1 lines).
Proof using mount_skips mount_tracks.
  destruct (loop_settles containers st) as (st1 & Hrun & Hall & _).
  destruct (loop_settled containers st1 Hall) as (lines & Hagain).
  exists st1, lines. split; assumption.
Qed.
End MountLoop.

(** ** [main.jsx] and the design document: what a scan does *)

Section JsxScan.
Variable parse_json : string -> option JSON.
Variable registry : gmap string Component.
Implicit Types (st : Runtime Root) (c : Node).

Lemma jsx_mountable_true c :
  jsx_mountable parse_json registry c = true ->
  exists C value,
    Get registry (property_key (widgetComponent (dataset c))) = Some C /\
    parse_json (or_default (props (dataset c)) "{}") = Some value.
Proof.
  unfold jsx_mountable. intros H. apply andb_true_iff in H as [H1 H2].
  apply bool_decide_eq_true in H1 as [C HC].
  apply bool_decide_eq_true in H2 as [value Hv].
  exists C, value. auto.
Qed.

Lemma jsx_mountable_false c :
  jsx_mountable parse_json registry c = false ->
  Get registry (property_key (widgetComponent (dataset c))) = None \/
  (exists C, Get registry (property_key (widgetComponent (dataset c))) = Some C) /\
  parse_json (or_default (props (dataset c)) "{}") = None.
Proof.
  unfold jsx_mountable. intros H.
  destruct (Get registry (property_key (widgetComponent (dataset c)))) as [C|];
    [|left; reflexivity].
  right. split; [exists C; reflexivity|].
  destruct (parse_json (or_default (props (dataset c)) "{}")) as [v|];
    [|reflexivity].
  exfalso. apply andb_false_iff in H as [H|H];
    apply bool_decide_eq_false in H; apply H; eexists; reflexivity.
Qed.

Lemma jsx_mount_skips c st :
  JSMap.has (activeRoots st) c = true \/
  jsx_mountable parse_json registry c = false ->
  exists lines,
    MainJsx.mountWidget parse_json registry c st = (Returned tt, logged st lines).
Proof.
  destruct (JSMap.has (activeRoots st) c) eqn:Hhas.
  { intros _. eexists. apply jsx_mount_tracked. exact Hhas. }
  intros [H|H]; [discriminate H|].
  destruct (jsx_mountable_false c H) as [Hreg | [[C Hreg] Hparse]].
  - eexists. apply jsx_mount_unregistered; assumption.
  - eexists. eapply jsx_mount_invalid_props; eassumption.
Qed.

Lemma jsx_mount_tracks c st :
  JSMap.has (activeRoots st) c = false ->
  jsx_mountable parse_json registry c = true ->
  exists lines calls,
    MainJsx.mountWidget parse_json registry c st
    = (Returned tt,
       mkRuntime (activeRoots st ++ [(c, mkRoot (rootCounter st) c)])
         (console st ++ lines) (effects st ++ calls) (S (rootCounter st))) /\
    Forall (fun e => is_unmount e = false) calls.
Proof.
  intros Hhas Hok. destruct (jsx_mountable_true c Hok) as (C & value & Hreg & Hp).
  eexists _, _. split.
  - rewrite (jsx_mount_valid_props parse_json registry c C value st Hhas Hreg Hp).
    unfold tracked. rewrite set_absent by (apply has_false_get; exact Hhas).
    reflexivity.
  - repeat constructor.
Qed.

Lemma doc_mount_skips c st :
  JSMap.has (activeRoots st) c = true \/
  jsx_mountable parse_json registry c = false ->
  exists lines,
    DesignDoc.mountWidget parse_json registry c st
    = (Returned tt, logged st lines).
Proof.
  destruct (JSMap.has (activeRoots st) c) eqn:Hhas.
  { intros _. eexists. apply doc_mount_tracked. exact Hhas. }
  intros [H|H]; [discriminate H|].
  destruct (jsx_mountable_false c H) as [Hreg | [[C Hreg] Hparse]].
  - eexists. apply doc_mount_unregistered; assumption.
  - eexists. eapply doc_mount_invalid_props; eassumption.
Qed.

Lemma doc_mount_tracks c st :
  JSMap.has (activeRoots st) c = false ->
  jsx_mountable parse_json registry c = true ->
  exists lines calls,
    DesignDoc.mountWidget parse_json registry c st
    = (Returned tt,
       mkRuntime (activeRoots st ++ [(c, mkRoot (rootCounter st) c)])
         (console st ++ lines) (effects st ++ calls) (S (rootCounter st))) /\
    Forall (fun e => is_unmount e = false) calls.
Proof.
  intros Hhas Hok. destruct (jsx_mountable_true c Hok) as (C & value & Hreg & Hp).
  eexists _, _. split.
  - rewrite (doc_mount_valid_props parse_json registry c C value st Hhas Hreg Hp).
    unfold tracked. rewrite set_absent by (apply has_false_get; exact Hhas).
    reflexivity.
  - repeat constructor.
Qed.
End JsxScan.

(** X8: the scan of [main.jsx] returns normally and mounts exactly the
    containers that are not tracked yet, whose component key the lookup
    [registry[componentName]] finds (a key of the registry or a member
    inherited from [Object.prototype]) and whose props (or the default
    text) parse: one entry and one new root each, in document order,
    after the entries that were there.  A container with malformed
    props or a name the lookup does not find is passed over and the
    scan goes on; no [unmount] is ever called. *)
Theorem jsx_scan_mounts_the_valid_containers
    (parse_json : string -> option JSON) (registry : gmap string Component)
    (document : Node) (st : Runtime Root) :
  let containers :=
    querySelectorAll document (ByClass "react-widget-container") in
  let mounted :=
    to_mount (jsx_mountable parse_json registry) (activeRoots st) containers in
  NoDup (map nodeId containers) ->
  exists st' lines calls,
    MainJsx.initializeWidgets parse_json registry document st
      = (Returned tt, st') /\
    activeRoots st' = activeRoots st ++ numbered mkRoot (rootCounter st) mounted /\
    JSMap.keys (activeRoots st') = JSMap.keys (activeRoots st) ++ mounted /\
    rootCounter st' = rootCounter st + length mounted /\
    console st' = console st ++ lines /\
    effects st' = effects st ++ calls /\
    Forall (fun e => is_unmount e = false) calls.
Proof.
  intros containers mounted Hnd.
  unfold MainJsx.initializeWidgets, MainJsx.scan. fold containers.
  unfold bind at 1. unfold log at 1.
  destruct (loop_discovers (MainJsx.mountWidget parse_json registry)
              (jsx_mountable parse_json registry) mkRoot
              (jsx_mount_skips parse_json registry)
              (jsx_mount_tracks parse_json registry)
              containers
              (mkRuntime (activeRoots st)
                 (console st
                  ++ [mkLog Info "[Widget Engine] Scanning for widgets..." NoArg])
                 (effects st) (rootCounter st)) Hnd)
    as (lines & calls & Hrun & Hcalls).
  eexists _, (_ :: lines), calls. split; [exact Hrun|].
  cbn. fold mounted. split; [reflexivity|]. split.
  { unfold JSMap.keys. rewrite map_app. f_equal. apply numbered_keys. }
  split; [reflexivity|]. split; [rewrite <- app_assoc; reflexivity|].
  split; [reflexivity | exact Hcalls].
Qed.

(** On the mixed page: the malformed card is passed over; the two good
    widgets and the container named [toString] are mounted. *)
Lemma jsx_scan_witness :
  NoDup (map nodeId
           (querySelectorAll mixed_page (ByClass "react-widget-container"))) /\
  exists st',
    MainJsx.initializeWidgets sample_parse demo_registry mixed_page initial
      = (Returned tt, st') /\
    JSMap.keys (activeRoots st')
      = [product_card; tostring_widget; bare_calculator] /\
    rootCounter st' = 3.
Proof.
  assert (Hnd : NoDup (map nodeId
                  (querySelectorAll mixed_page
                     (ByClass "react-widget-container")))).
  { distinct_ids. }
  split; [exact Hnd|].
  destruct (jsx_scan_mounts_the_valid_containers sample_parse demo_registry
              mixed_page initial Hnd)
    as (st' & lines & calls & Hrun & _ & Hkeys & Hctr & _).
  exists st'. split; [exact Hrun|]. split; [exact Hkeys | exact Hctr].
Defined.

Lemma to_mount_nil {E} (ok : Node -> bool) containers :
  to_mount ok (@nil (Node * E)) containers = List.filter ok containers.
Proof.
  unfold to_mount. apply filter_ext. intros c. cbn. apply andb_true_r.
Qed.

(** X9: in the engine of the design document, tearing down and
    initialising again remounts the page.  When no [unmount] throws,
    [unmountAllWidgets] unmounts the root of every entry once, in
    insertion order, and empties the table; [initializeWidgets(scope)]
    then gives every container under the scope whose component key the
    lookup [registry[componentName]] finds (a key of the registry or a
    member inherited from [Object.prototype]) and whose props parse a
    new root, numbered after all earlier ones. *)
Theorem doc_teardown_then_initialize_remounts
    (parse_json : string -> option JSON) (unmount_throws : nat -> bool)
    (registry : gmap string Component) (scope : Node) (st : Runtime Root) :
  let containers := querySelectorAll scope HasWidgetComponent in
  let mounted := List.filter (jsx_mountable parse_json registry) containers in
  JSMap.wf (activeRoots st) ->
  (forall r, unmount_throws r = false) ->
  NoDup (map nodeId containers) ->
  exists st1 st2,
    DesignDoc.unmountAllWidgets unmount_throws st = (Returned tt, st1) /\
    activeRoots st1 = [] /\
    effects st1
      = effects st
        ++ map (fun kv => Unmount (rootId (snd kv))) (activeRoots st) /\
    DesignDoc.initializeWidgets parse_json registry scope st1
      = (Returned tt, st2) /\
    activeRoots st2 = numbered mkRoot (rootCounter st) mounted /\
    JSMap.keys (activeRoots st2) = mounted.
Proof.
  intros containers mounted Hwf Hquiet Hnd.
  pose proof (doc_unmount_all_until_throw unmount_throws st (activeRoots st) []
                Hwf (eq_sym (app_nil_r _))) as H1.
  specialize (H1 ltac:(apply Forall_forall; intros r _; apply Hquiet) I).
  match type of H1 with _ = (_, ?s) =>
    destruct (loop_discovers (DesignDoc.mountWidget parse_json registry)
                (jsx_mountable parse_json registry) mkRoot
                (doc_mount_skips parse_json registry)
                (doc_mount_tracks parse_json registry)
                containers s Hnd) as (lines & calls & H2 & _) end.
  eexists _, _. split; [exact H1|]. split; [reflexivity|]. split.
  { cbn. unfold teardown_calls. rewrite app_nil_r, map_map. reflexivity. }
  split; [exact H2|]. cbn. rewrite to_mount_nil. fold mounted.
  split; [reflexivity | apply numbered_keys].
Qed.

(** With the two roots of the demo page: teardown, then initialise on
    the mixed page. *)
Lemma doc_teardown_then_initialize_witness :
  JSMap.wf (activeRoots two_roots) /\
  exists st1 st2,
    DesignDoc.unmountAllWidgets never two_roots = (Returned tt, st1) /\
    DesignDoc.initializeWidgets sample_parse demo_registry mixed_page st1
      = (Returned tt, st2) /\
    activeRoots st2
      = [(product_card, mkRoot 2 product_card);
         (tostring_widget, mkRoot 3 tostring_widget);
         (bare_calculator, mkRoot 4 bare_calculator)].
Proof.
  assert (Hwf : JSMap.wf (activeRoots two_roots)).
  { unfold JSMap.wf. vm_compute. apply NoDup_cons. split.
    - intros H. apply list_elem_of_singleton in H. discriminate H.
    - apply NoDup_singleton. }
  split; [exact Hwf|].
  destruct (doc_teardown_then_initialize_remounts sample_parse never
              demo_registry mixed_page two_roots Hwf)
    as (st1 & st2 & H1 & _ & _ & H2 & Ht & _).
  { reflexivity. }
  { distinct_ids. }
  exists st1, st2. split; [exact H1|]. split; [exact H2|].
  rewrite Ht. vm_compute. reflexivity.
Defined.


(** ** The engine of the setup checklist: what a scan does *)

Section ChecklistScan.
Variable parse_json : string -> option JSON.
Variable registry : gmap string Component.
Variable host : Host.
Implicit Types (st : Runtime Root) (c : Node).

Local Abbreviation mountWidget :=
  (Checklist.mountWidget parse_json registry host).

Lemma checklist_mountable_true c :
  checklist_mountable parse_json registry c = true ->
  exists name C value,
    truthy (widgetComponent (dataset c)) = Some name /\
    tsx_name c = name /\
    Get registry name = Some C /\
    parse_json (or_default (props (dataset c)) "{}") = Some value.
Proof.
  unfold checklist_mountable, tsx_name.
  destruct (truthy (widgetComponent (dataset c))) as [name|]; [|discriminate].
  intros H. apply andb_true_iff in H as [H1 H2].
  apply bool_decide_eq_true in H1 as [C HC].
  apply bool_decide_eq_true in H2 as [value Hv].
  exists name, C, value. auto.
Qed.

Lemma checklist_mount_skips c st :
  JSMap.has (activeRoots st) c = true \/
  checklist_mountable parse_json registry c = false ->
  exists lines, mountWidget c st = (Returned tt, logged st lines).
Proof.
  unfold Checklist.mountWidget, checklist_mountable. run_js.
  destruct (JSMap.has (activeRoots st) c) eqn:Hhas.
  { intros _. exists []. rewrite logged_empty. reflexivity. }
  intros [H|H]; [discriminate H|].
  destruct (truthy (widgetComponent (dataset c))) as [name|].
  2:{ exists []. rewrite logged_empty. reflexivity. }
  destruct (Get registry name) as [C|].
  2:{ eexists. reflexivity. }
  destruct (parse_json (or_default (props (dataset c)) "{}")) as [v|].
  { exfalso. apply andb_false_iff in H as [H|H];
      apply bool_decide_eq_false in H; apply H; eexists; reflexivity. }
  eexists. unfold logged. cbn. reflexivity.
Qed.

Lemma checklist_mount_tracks c st :
  bool_decide (Checklist.getWCMMode host = units "edit") = false ->
  JSMap.has (activeRoots st) c = false ->
  checklist_mountable parse_json registry c = true ->
  exists lines calls,
    mountWidget c st
    = (Returned tt,
       mkRuntime (activeRoots st ++ [(c, mkRoot (rootCounter st) c)])
         (console st ++ lines) (effects st ++ calls) (S (rootCounter st))) /\
    Forall (fun e => is_unmount e = false) calls.
Proof.
  intros Hmode Hhas Hok.
  destruct (checklist_mountable_true c Hok) as (name & C & v & Hn & _ & HC & Hv).
  exists [], [CreateRoot c (rootCounter st);
              Render (rootCounter st)
                (StrictMode
                   (ErrorBoundary name
                      (Suspense Checklist.loading (Widget C (spread v)))))].
  split; [|repeat constructor].
  unfold Checklist.mountWidget. run_js. rewrite Hhas, Hn, HC, Hv, Hmode.
  cbn. rewrite app_nil_r, <- app_assoc.
  apply has_false_get in Hhas. rewrite (set_absent _ _ _ Hhas). reflexivity.
Qed.

Lemma checklist_mount_edit c st :
  bool_decide (Checklist.getWCMMode host = units "edit") = true ->
  JSMap.has (activeRoots st) c = false ->
  checklist_mountable parse_json registry c = true ->
  mountWidget c st
  = (Returned tt,
     mkRuntime (activeRoots st) (console st)
       (effects st ++ [placeholder_call c]) (rootCounter st)).
Proof.
  intros Hmode Hhas Hok.
  destruct (checklist_mountable_true c Hok) as (name & C & v & Hn & Ht & HC & Hv).
  unfold Checklist.mountWidget, placeholder_call. run_js.
  rewrite Hhas, Hn, HC, Hv, Hmode, Ht. reflexivity.
Qed.
End ChecklistScan.

(** X10: in edit mode the engine of the setup checklist creates no
    React root.  [initWidgets(scope)] returns normally, leaves the
    table and the root counter as they were, and its only effects are
    the placeholders (the template literal of the source, line breaks
    and indentation included) written, in document order, into the
    containers under the scope that are untracked, have a name the
    lookup [registry[componentName]] finds (a key of the registry or a
    member inherited from [Object.prototype]) and have parseable
    props. *)
Theorem checklist_edit_mode_only_writes_placeholders
    (parse_json : string -> option JSON) (registry : gmap string Component)
    (host : Host) (scope : Node) (st : Runtime Root) :
  Checklist.getWCMMode host = units "edit" ->
  exists lines,
    Checklist.initWidgets parse_json registry host scope st
    = (Returned tt,
       mkRuntime (activeRoots st) (console st ++ lines)
         (effects st
          ++ map placeholder_call
               (to_mount (checklist_mountable parse_json registry)
                  (activeRoots st)
                  (querySelectorAll scope HasWidgetComponent)))
         (rootCounter st)).
Proof.
  intros Hmode. unfold Checklist.initWidgets.
  assert (Hedit : bool_decide (Checklist.getWCMMode host = units "edit") = true).
  { apply bool_decide_eq_true_2. exact Hmode. }
  generalize (querySelectorAll scope HasWidgetComponent) as containers.
  intros containers. revert st.
  induction containers as [|c rest IH]; intros st.
  - exists []. cbn. rewrite !app_nil_r. destruct st. reflexivity.
  - unfold to_mount. cbn [List.filter].
    fold (to_mount (checklist_mountable parse_json registry)
            (activeRoots st) rest).
    destruct (JSMap.has (activeRoots st) c) eqn:Hhas.
    { rewrite andb_false_r.
      destruct (checklist_mount_skips parse_json registry host c st
                  (or_introl Hhas)) as (lines0 & Hstep).
      destruct (IH (logged st lines0)) as (lines & Hrun).
      exists (lines0 ++ lines).
      rewrite (forEach_returned _ _ _ _ _ Hstep), Hrun. cbn.
      rewrite <- app_assoc. reflexivity. }
    rewrite andb_true_r.
    destruct (checklist_mountable parse_json registry c) eqn:Hok.
    + pose proof (checklist_mount_edit parse_json registry host c st
                    Hedit Hhas Hok) as Hstep.
      match type of Hstep with _ = (_, ?s) =>
        destruct (IH s) as (lines & Hrun) end.
      exists lines.
      rewrite (forEach_returned _ _ _ _ _ Hstep), Hrun. cbn.
      rewrite <- app_assoc. reflexivity.
    + destruct (checklist_mount_skips parse_json registry host c st
                  (or_intror Hok)) as (lines0 & Hstep).
      destruct (IH (logged st lines0)) as (lines & Hrun).
      exists (lines0 ++ lines).
      rewrite (forEach_returned _ _ _ _ _ Hstep), Hrun. cbn.
      rewrite <- app_assoc. reflexivity.
Qed.

(** On the mixed page in edit mode: three placeholders and no root. *)
Lemma checklist_edit_mode_witness :
  Checklist.getWCMMode author_edit = units "edit" /\
  exists st',
    Checklist.initWidgets sample_parse demo_registry author_edit mixed_page
      initial = (Returned tt, st') /\
    activeRoots st' = [] /\
    effects st' = [placeholder_call product_card;
                   placeholder_call tostring_widget;
                   placeholder_call bare_calculator].
Proof.
  assert (Hmode : Checklist.getWCMMode author_edit = units "edit")
    by (vm_compute; reflexivity).
  split; [exact Hmode|].
  destruct (checklist_edit_mode_only_writes_placeholders sample_parse
              demo_registry author_edit mixed_page initial Hmode)
    as (lines & Hrun).
  eexists. split; [exact Hrun|]. split; [reflexivity|].
  vm_compute. reflexivity.
Defined.

(** X11: outside edit mode, [initWidgets(scope)] of the setup checklist
    returns normally and appends one entry with a new root, in document
    order, for every container under the scope that was untracked, has
    a name the lookup [registry[componentName]] finds (a key of the
    registry or a member inherited from [Object.prototype]) and has
    parseable props; the entries that were in the table stay, and no
    root is unmounted. *)
Theorem checklist_scan_mounts_the_valid_containers
    (parse_json : string -> option JSON) (registry : gmap string Component)
    (host : Host) (scope : Node) (st : Runtime Root) :
  let containers := querySelectorAll scope HasWidgetComponent in
  let mounted :=
    to_mount (checklist_mountable parse_json registry) (activeRoots st)
      containers in
  Checklist.getWCMMode host <> units "edit" ->
  NoDup (map nodeId containers) ->
  exists st' lines calls,
    Checklist.initWidgets parse_json registry host scope st
      = (Returned tt, st') /\
    activeRoots st' = activeRoots st ++ numbered mkRoot (rootCounter st) mounted /\
    JSMap.keys (activeRoots st') = JSMap.keys (activeRoots st) ++ mounted /\
    rootCounter st' = rootCounter st + length mounted /\
    console st' = console st ++ lines /\
    effects st' = effects st ++ calls /\
    Forall (fun e => is_unmount e = false) calls.
Proof.
  intros containers mounted Hmode Hnd.
  assert (Hpub : bool_decide (Checklist.getWCMMode host = units "edit") = false).
  { apply bool_decide_eq_false_2. exact Hmode. }
  destruct (loop_discovers (Checklist.mountWidget parse_json registry host)
              (checklist_mountable parse_json registry) mkRoot
              (checklist_mount_skips parse_json registry host)
              (fun c s =>
                 checklist_mount_tracks parse_json registry host c s Hpub)
              containers st Hnd) as (lines & calls & Hrun & Hcalls).
  eexists _, lines, calls. split; [exact Hrun|].
  cbn [activeRoots console effects rootCounter]. fold mounted.
  split; [reflexivity|]. split.
  { unfold JSMap.keys. rewrite map_app. f_equal. apply numbered_keys. }
  repeat (split; [reflexivity|]). exact Hcalls.
Qed.

(** On the published mixed page: the two good widgets and the container
    named [toString] are mounted. *)
Lemma checklist_scan_witness :
  Checklist.getWCMMode published <> units "edit" /\
  NoDup (map nodeId (querySelectorAll mixed_page HasWidgetComponent)) /\
  exists st',
    Checklist.initWidgets sample_parse demo_registry published mixed_page
      initial = (Returned tt, st') /\
    JSMap.keys (activeRoots st')
      = [product_card; tostring_widget; bare_calculator].
Proof.
  assert (Hmode : Checklist.getWCMMode published <> units "edit")
    by (vm_compute; discriminate).
  assert (Hnd : NoDup (map nodeId
                  (querySelectorAll mixed_page HasWidgetComponent))).
  { distinct_ids. }
  split; [exact Hmode|]. split; [exact Hnd|].
  destruct (checklist_scan_mounts_the_valid_containers sample_parse
              demo_registry published mixed_page initial Hmode Hnd)
    as (st' & lines & calls & Hrun & _ & Hkeys & _).
  exists st'. split; [exact Hrun | exact Hkeys].
Defined.

(** X12: a second [initWidgets] of the setup checklist over containers
    that are all tracked does nothing at all: it returns normally and
    the state (table, console, effects) is the one it started from,
    whatever the mode. *)
Theorem checklist_rescan_of_tracked_is_silent
    (parse_json : string -> option JSON) (registry : gmap string Component)
    (host : Host) (scope : Node) (st : Runtime Root) :
  Forall (fun c => JSMap.has (activeRoots st) c = true)
         (querySelectorAll scope HasWidgetComponent) ->
  Checklist.initWidgets parse_json registry host scope st = (Returned tt, st).
Proof.
  unfold Checklist.initWidgets.
  generalize (querySelectorAll scope HasWidgetComponent) as containers.
  induction containers as [|c rest IH]; intros Hall; [reflexivity|].
  apply Forall_cons in Hall as [Hc Hrest].
  assert (Hstep : Checklist.mountWidget parse_json registry host c st
                  = (Returned tt, st)).
  { unfold Checklist.mountWidget. run_js. rewrite Hc. reflexivity. }
  rewrite (forEach_returned _ _ _ _ _ Hstep). apply IH. exact Hrest.
Qed.

(** The nested card, once mounted, is passed over in silence. *)
Lemma checklist_rescan_witness :
  Forall (fun c => JSMap.has (activeRoots page_with_nested) c = true)
         (querySelectorAll wrapper HasWidgetComponent) /\
  Checklist.initWidgets sample_parse demo_registry published wrapper
    page_with_nested = (Returned tt, page_with_nested).
Proof.
  assert (H : Forall (fun c => JSMap.has (activeRoots page_with_nested) c = true)
                (querySelectorAll wrapper HasWidgetComponent)).
  { vm_compute. repeat constructor. }
  split; [exact H|].
  exact (checklist_rescan_of_tracked_is_silent sample_parse demo_registry
           published wrapper page_with_nested H).
Defined.


(** ** [getWCMMode] *)

Lemma split_no_separator sep p :
  contains sep p = false -> split sep p = [p].
Proof.
  induction p as [|a p IH]; [reflexivity|]. cbn [split contains].
  destruct (N.eqb a sep); [discriminate|]. cbn [orb]. intros H.
  rewrite (IH H). reflexivity.
Qed.

Lemma split_piece sep p rest :
  contains sep p = false ->
  split sep (p ++ sep :: rest) = p :: split sep rest.
Proof.
  induction p as [|a p IH].
  - intros _. cbn [app split]. rewrite N.eqb_refl. reflexivity.
  - cbn [app split contains].
    destruct (N.eqb a sep); [discriminate|]. cbn [orb]. intros H.
    rewrite (IH H). reflexivity.
Qed.

(** [split] undoes the joining of the cookies. *)
Lemma split_cookie_string cookies :
  cookies <> [] ->
  Forall (fun p => contains semicolon p = false) cookies ->
  split semicolon (cookie_string cookies) = cookies.
Proof.
  induction cookies as [|c rest IH]; intros Hne Hall; [contradiction|].
  apply Forall_cons in Hall as [Hc Hrest].
  destruct rest as [|c' rest'].
  - cbn. apply split_no_separator. exact Hc.
  - change (cookie_string (c :: c' :: rest'))
      with (c ++ semicolon :: cookie_string (c' :: rest')).
    rewrite (split_piece _ _ _ Hc), (IH ltac:(discriminate) Hrest).
    reflexivity.
Qed.

Lemma startsWith_app p s : startsWith p (p ++ s) = true.
Proof.
  induction p as [|a p IH]; [reflexivity|].
  cbn. rewrite N.eqb_refl. exact IH.
Qed.

Lemma substring_from_app p s : substring_from (length p) (p ++ s) = s.
Proof.
  unfold substring_from. induction p as [|a p IH]; [reflexivity | exact IH].
Qed.

Lemma wcmmode_cookie_skips before rest :
  Forall (fun p => startsWith (units "wcmmode=") (trim p) = false) before ->
  Checklist.wcmmode_cookie (before ++ rest) = Checklist.wcmmode_cookie rest.
Proof.
  induction before as [|p before IH]; intros Hall; [reflexivity|].
  apply Forall_cons in Hall as [Hp Hrest].
  cbn [app Checklist.wcmmode_cookie]. rewrite Hp. apply IH. exact Hrest.
Qed.

(** X13: [getWCMMode] of the setup checklist answers with the first
    [wcmmode] cookie: when the cookies before it do not start with
    [wcmmode=] (after trimming), the answer is what follows the equals
    sign in the trimmed cookie, whatever the later cookies and the
    [data-wcmmode] attribute of the body say.  Trimming removes every
    white space and line terminator of JavaScript, the no-break space
    included. *)
Theorem wcmmode_first_cookie_decides
    (before : list DOMString) (c : DOMString) (after : list DOMString)
    (body : option DOMString) (mode : DOMString) :
  Forall (fun p => contains semicolon p = false) (before ++ c :: after) ->
  Forall (fun p => startsWith (units "wcmmode=") (trim p) = false) before ->
  trim c = units "wcmmode=" ++ mode ->
  Checklist.getWCMMode (mkHost (cookie_string (before ++ c :: after)) body)
  = mode.
Proof.
  intros Hsemi Hbefore Hc. unfold Checklist.getWCMMode. cbn [cookie].
  rewrite split_cookie_string;
    [| destruct before; discriminate | exact Hsemi].
  rewrite (wcmmode_cookie_skips _ _ Hbefore).
  cbn [Checklist.wcmmode_cookie]. rewrite Hc.
  rewrite startsWith_app.
  change 8 with (length (units "wcmmode=")).
  rewrite substring_from_app. reflexivity.
Qed.

(** An edit cookie that ends in a no-break space, after another cookie
    and before a preview cookie, on a body marked for preview. *)
Lemma wcmmode_first_cookie_witness :
  Checklist.getWCMMode
    (mkHost
       (units "cq-authoring-mode=TOUCH; wcmmode=edit" ++ [160%N]
        ++ units ";wcmmode=preview")
       (Some (units "preview")))
  = units "edit".
Proof.
  apply (wcmmode_first_cookie_decides
           [units "cq-authoring-mode=TOUCH"]
           (units " wcmmode=edit" ++ [160%N]) [units "wcmmode=preview"]
           (Some (units "preview")) (units "edit")).
  - repeat constructor.
  - repeat constructor.
  - vm_compute. reflexivity.
Defined.

(** X14: without a [wcmmode] cookie [getWCMMode] answers with the
    [data-wcmmode] attribute of the body, and with [disabled] when the
    attribute is absent or empty. *)
Theorem wcmmode_falls_back_to_body (cookies : list DOMString)
    (body : option DOMString) :
  Forall (fun p => contains semicolon p = false) cookies ->
  Forall (fun p => startsWith (units "wcmmode=") (trim p) = false) cookies ->
  Checklist.getWCMMode (mkHost (cookie_string cookies) body)
  = match body with
    | Some (u :: rest) => u :: rest
    | _ => units "disabled"
    end.
Proof.
  intros Hsemi Hnone. unfold Checklist.getWCMMode. cbn [cookie body_wcmmode].
  assert (Hcookie : Checklist.wcmmode_cookie
                      (split semicolon (cookie_string cookies)) = None).
  { destruct cookies as [|c rest]; [reflexivity|].
    rewrite split_cookie_string; [| discriminate | exact Hsemi].
    rewrite <- (app_nil_r (c :: rest)).
    rewrite (wcmmode_cookie_skips _ _ Hnone). reflexivity. }
  rewrite Hcookie. destruct body as [[|a rest]|]; reflexivity.
Qed.

(** A cookie that only resembles the mode cookie, and an empty
    attribute. *)
Lemma wcmmode_falls_back_witness :
  Checklist.getWCMMode
    (mkHost (units "session=1; my-wcmmode=edit") (Some []))
  = units "disabled".
Proof.
  apply (wcmmode_falls_back_to_body
           [units "session=1"; units " my-wcmmode=edit"] (Some [])).
  - repeat constructor.
  - repeat constructor.
Defined.

(** ** The observer of the implementation guide *)

Section GuideObserver.
Variable unmount_throws : nat -> bool.
Hypothesis quiet : forall r, unmount_throws r = false.
Implicit Types (st : Runtime Root) (c : Node).

Lemma guide_guard_step c st :
  (let! s := snapshot in
   if JSMap.has (activeRoots s) c
   then Guide.unmountWidget unmount_throws c
   else ret tt) st
  = (Returned tt, guide_release st c).
Proof using quiet.
  unfold guide_release, JSMap.has.
  destruct (JSMap.get (activeRoots st) c) as [root|] eqn:Hget.
  - unfold Guide.unmountWidget. run_js. rewrite Hget. run_js.
    rewrite Hget, quiet. cbn. rewrite <- app_assoc. reflexivity.
  - run_js. rewrite Hget. reflexivity.
Qed.

Lemma guide_loop cs st :
  forEach cs
    (fun container =>
       let! s := snapshot in
       if JSMap.has (activeRoots s) container
       then Guide.unmountWidget unmount_throws container
       else ret tt) st
  = (Returned tt, fold_left guide_release cs st).
Proof using quiet.
  revert st. induction cs as [|c rest IH]; intros st; [reflexivity|].
  rewrite (forEach_returned
             (fun container =>
                let! s := snapshot in
                if JSMap.has (activeRoots s) container
                then Guide.unmountWidget unmount_throws container
                else ret tt)
             c rest st _ (guide_guard_step c st)).
  apply IH.
Qed.

Lemma guide_observer_run mutations st :
  Guide.observer unmount_throws mutations st
  = (Returned tt, fold_left guide_release (removed_containers mutations) st).
Proof using quiet.
  unfold Guide.observer, removed_containers. revert st.
  induction mutations as [|mutation rest IH]; intros st; [reflexivity|].
  cbn [forEach flat_map]. rewrite fold_left_app.
  erewrite bind_returned; [apply IH|]. clear IH.
  generalize (removedNodes mutation) as nodes. intros nodes. revert st.
  induction nodes as [|node nodes IH]; intros st; [reflexivity|].
  cbn [forEach flat_map]. rewrite fold_left_app.
  erewrite bind_returned; [apply IH|]. clear IH.
  destruct (Nat.eqb (nodeType node) ELEMENT_NODE); [|reflexivity].
  erewrite bind_returned; [|apply guide_guard_step].
  rewrite guide_loop. reflexivity.
Qed.
End GuideObserver.

Lemma get_delete_none {V} (m : list (Node * V)) k k' :
  JSMap.get m k = None -> JSMap.get (JSMap.delete m k') k = None.
Proof.
  induction m as [|[k0 v0] m IH]; simpl; [reflexivity|].
  destruct (same_node k0 k) eqn:Hs; [discriminate|]. intros H.
  destruct (same_node k0 k'); [exact H|]. simpl. rewrite Hs. exact (IH H).
Qed.

Lemma guide_release_get_same st c :
  JSMap.wf (activeRoots st) ->
  JSMap.get (activeRoots (guide_release st c)) c = None.
Proof.
  intros Hwf. unfold guide_release.
  destruct (JSMap.get (activeRoots st) c) as [root|] eqn:Hget; [|exact Hget].
  cbn. apply get_delete_same. exact Hwf.
Qed.

Lemma guide_release_get_none st c k :
  JSMap.get (activeRoots st) k = None ->
  JSMap.get (activeRoots (guide_release st c)) k = None.
Proof.
  intros H. unfold guide_release.
  destruct (JSMap.get (activeRoots st) c) as [root|]; [|exact H].
  cbn. apply get_delete_none. exact H.
Qed.

Lemma guide_release_get_other st c k :
  nodeId c <> nodeId k ->
  JSMap.get (activeRoots (guide_release st c)) k = JSMap.get (activeRoots st) k.
Proof.
  intros Hne. unfold guide_release.
  destruct (JSMap.get (activeRoots st) c) as [root|]; [|reflexivity].
  cbn. apply get_delete_other. exact Hne.
Qed.

Lemma guide_release_wf st c :
  JSMap.wf (activeRoots st) -> JSMap.wf (activeRoots (guide_release st c)).
Proof.
  intros Hwf. unfold guide_release.
  destruct (JSMap.get (activeRoots st) c) as [root|]; [|exact Hwf].
  cbn. apply wf_delete. exact Hwf.
Qed.

Lemma guide_releases_keep_none cs st k :
  JSMap.get (activeRoots st) k = None ->
  JSMap.get (activeRoots (fold_left guide_release cs st)) k = None.
Proof.
  revert st. induction cs as [|c rest IH]; intros st H; [exact H|].
  cbn. apply IH. apply guide_release_get_none. exact H.
Qed.

Lemma guide_releases_drop cs st c :
  JSMap.wf (activeRoots st) -> In c cs ->
  JSMap.get (activeRoots (fold_left guide_release cs st)) c = None.
Proof.
  revert st. induction cs as [|h rest IH]; intros st Hwf Hin; [destruct Hin|].
  cbn. destruct (Nat.eq_dec (nodeId h) (nodeId c)) as [Heq|Hne].
  - apply guide_releases_keep_none.
    rewrite <- (get_same_id _ h c Heq). apply guide_release_get_same. exact Hwf.
  - apply IH; [apply guide_release_wf; exact Hwf|].
    destruct Hin as [->|Hin]; [contradiction Hne; reflexivity | exact Hin].
Qed.

Lemma guide_releases_keep cs st k :
  nodeId k ∉ map nodeId cs ->
  JSMap.get (activeRoots (fold_left guide_release cs st)) k
  = JSMap.get (activeRoots st) k.
Proof.
  revert st. induction cs as [|h rest IH]; intros st Hnot; [reflexivity|].
  cbn in Hnot. apply not_elem_of_cons in Hnot as [Hne Hrest].
  cbn. rewrite (IH _ Hrest). apply guide_release_get_other. congruence.
Qed.

Lemma guide_releases_effects cs st e :
  In e (effects st) -> In e (effects (fold_left guide_release cs st)).
Proof.
  revert st. induction cs as [|h rest IH]; intros st H; [exact H|].
  cbn. apply IH. unfold guide_release.
  destruct (JSMap.get (activeRoots st) h); [|exact H].
  cbn. apply in_or_app. left. exact H.
Qed.

Lemma guide_releases_unmount cs st c root :
  In c cs -> JSMap.get (activeRoots st) c = Some root ->
  In (Unmount (rootId root)) (effects (fold_left guide_release cs st)).
Proof.
  revert st. induction cs as [|h rest IH]; intros st Hin Hget; [destruct Hin|].
  cbn. destruct (Nat.eq_dec (nodeId h) (nodeId c)) as [Heq|Hne].
  - apply guide_releases_effects. unfold guide_release.
    rewrite (get_same_id _ h c Heq), Hget. cbn.
    apply in_or_app. right. left. reflexivity.
  - apply IH.
    + destruct Hin as [->|Hin]; [contradiction Hne; reflexivity | exact Hin].
    + rewrite guide_release_get_other by exact Hne. exact Hget.
Qed.

Lemma guide_releases_quiet cs st :
  console (fold_left guide_release cs st) = console st /\
  rootCounter (fold_left guide_release cs st) = rootCounter st.
Proof.
  revert st. induction cs as [|h rest IH]; intros st; [split; reflexivity|].
  cbn. destruct (IH (guide_release st h)) as [-> ->]. unfold guide_release.
  destruct (JSMap.get (activeRoots st) h); split; reflexivity.
Qed.

(** X15: the observer of the implementation guide releases whole
    removed subtrees.  When no [unmount] throws it returns normally;
    afterwards no removed element and no widget container below a
    removed element is tracked, the root of each one that was tracked
    has been unmounted, and the entries of all other containers are
    untouched. *)
Theorem guide_observer_releases_removed_subtrees
    (unmount_throws : nat -> bool) (mutations : list MutationRecord)
    (st : Runtime Root) :
  (forall r, unmount_throws r = false) ->
  JSMap.wf (activeRoots st) ->
  exists st',
    Guide.observer unmount_throws mutations st = (Returned tt, st') /\
    (forall c, In c (removed_containers mutations) ->
       JSMap.has (activeRoots st') c = false) /\
    (forall c root, In c (removed_containers mutations) ->
       JSMap.get (activeRoots st) c = Some root ->
       In (Unmount (rootId root)) (effects st')) /\
    (forall k, nodeId k ∉ map nodeId (removed_containers mutations) ->
       JSMap.get (activeRoots st') k = JSMap.get (activeRoots st) k) /\
    console st' = console st /\
    rootCounter st' = rootCounter st.
Proof.
  intros Hquiet Hwf. eexists. split; [apply guide_observer_run; exact Hquiet|].
  split; [|split; [|split]].
  - intros c Hin. apply has_false_get. apply guide_releases_drop; assumption.
  - intros c root Hin Hget. eapply guide_releases_unmount; eassumption.
  - intros k Hk. apply guide_releases_keep. exact Hk.
  - apply guide_releases_quiet.
Qed.

(** The wrapper around the mounted nested card is removed: the card is
    released. *)
Lemma guide_observer_witness :
  JSMap.wf (activeRoots page_with_nested) /\
  exists st',
    Guide.observer never [mkMutation [] [wrapper]] page_with_nested
      = (Returned tt, st') /\
    JSMap.has (activeRoots st') nested_card = false /\
    In (Unmount 0) (effects st').
Proof.
  assert (Hwf : JSMap.wf (activeRoots page_with_nested)).
  { unfold JSMap.wf. vm_compute. apply NoDup_singleton. }
  split; [exact Hwf|].
  destruct (guide_observer_releases_removed_subtrees never
              [mkMutation [] [wrapper]] page_with_nested
              (fun _ => eq_refl) Hwf)
    as (st' & Hrun & Hdrop & Hunmount & _).
  exists st'. split; [exact Hrun|]. split.
  - apply Hdrop. vm_compute. right. left. reflexivity.
  - apply (Hunmount nested_card (mkRoot 0 nested_card)).
    + vm_compute. right. left. reflexivity.
    + vm_compute. reflexivity.
Defined.


(** ** The observer of the setup checklist: what it leaves alone *)

Lemma forEach_keeps {E A} (P : Runtime E -> Prop) (callback : A -> JS E unit)
    (items : list A) :
  (forall item st, In item items -> P st -> P (snd (callback item st))) ->
  forall st, P st -> P (snd (forEach items callback st)).
Proof.
  induction items as [|item rest IH]; intros Hstep st HP; [exact HP|].
  simpl. unfold bind.
  pose proof (Hstep item st (or_introl eq_refl) HP) as H1.
  destruct (callback item st) as [[[]|e] st1]; [|exact H1].
  apply IH; [|exact H1]. intros i s Hi. apply Hstep. right. exact Hi.
Qed.

(** X16: the observer of the setup checklist only ever touches the
    entries of nodes listed in [removedNodes] themselves.  Whatever the
    mutation records are, and whether or not an [unmount] throws, the
    entry of any other container is afterwards what it was before, even
    when that container lies below a removed node. *)
Theorem checklist_observer_keeps_unlisted_entries
    (unmount_throws : nat -> bool) (mutations : list MutationRecord)
    (st : Runtime Root) (k : Node) :
  nodeId k ∉ map nodeId (flat_map removedNodes mutations) ->
  JSMap.get
    (activeRoots (snd (Checklist.observer unmount_throws mutations st))) k
  = JSMap.get (activeRoots st) k.
Proof.
  intros Hk. unfold Checklist.observer.
  apply (forEach_keeps
           (fun s => JSMap.get (activeRoots s) k = JSMap.get (activeRoots st) k));
    [|reflexivity].
  intros mutation s Hmut Hs.
  apply (forEach_keeps
           (fun s => JSMap.get (activeRoots s) k = JSMap.get (activeRoots st) k));
    [|exact Hs].
  intros node s1 Hnode Hs1.
  assert (Hne : nodeId node <> nodeId k).
  { intros Heq. apply Hk. rewrite <- Heq. apply list_elem_of_In.
    apply in_map. apply in_flat_map. exists mutation. split; assumption. }
  run_js.
  destruct (Nat.eqb (nodeType node) 1 && JSMap.has (activeRoots s1) node);
    [|exact Hs1].
  destruct (JSMap.get (activeRoots s1) node) as [root|]; [|exact Hs1].
  unfold unmount. run_js.
  destruct (unmount_throws (rootId root)); cbn; [exact Hs1|].
  rewrite get_delete_other by exact Hne. exact Hs1.
Qed.

(** The wrapper around the mounted nested card is removed: the card
    keeps its entry. *)
Lemma checklist_observer_keeps_witness :
  (nodeId nested_card ∉ map nodeId
     (flat_map removedNodes [mkMutation [] [wrapper]])) /\
  JSMap.get
    (activeRoots
       (snd (Checklist.observer never [mkMutation [] [wrapper]]
               page_with_nested)))
    nested_card
  = Some (mkRoot 0 nested_card).
Proof.
  assert (H : nodeId nested_card ∉ map nodeId
                (flat_map removedNodes [mkMutation [] [wrapper]])).
  { vm_compute. intros H. apply list_elem_of_singleton in H. discriminate H. }
  split; [exact H|].
  rewrite (checklist_observer_keeps_unlisted_entries never
             [mkMutation [] [wrapper]] page_with_nested nested_card H).
  vm_compute. reflexivity.
Defined.


(** ** The universal mount script *)

Ltac run_page :=
  unfold Universal.andThen, Universal.lift, Universal.setInitialized,
    Universal.getComponent; run_js.

Section UniversalSteps.
Variable parse_json : string -> option JSON.
Variable componentRegistry : gmap string Component.
Variable getAttribute : Node -> string -> option string.
Variable getElementById : string -> option string.
Implicit Types (page : Universal.Page) (c : Node).

Local Abbreviation mountWidget :=
  (Universal.mountWidget parse_json componentRegistry getAttribute
     getElementById).
Local Abbreviation mountable :=
  (universal_mountable componentRegistry getAttribute).

Lemma universal_mount_skips c page :
  mountable c = false ->
  exists lines, mountWidget c page = (Returned tt, page_logged page lines).
Proof.
  unfold universal_mountable, Universal.mountWidget, page_logged.
  destruct (truthy (getAttribute c "data-react-component")) as [name|].
  2:{ intros _. eexists. run_page. unfold logged. reflexivity. }
  intros H. run_page.
  destruct (Get componentRegistry name) as [C|] eqn:HC.
  { exfalso. apply bool_decide_eq_false in H. apply H. eexists. reflexivity. }
  eexists. run_page. unfold logged. reflexivity.
Qed.

(** What a mounted container gets does not depend on the page. *)
Lemma universal_mount_tracks c :
  mountable c = true ->
  exists C value lines,
    forall page,
      mountWidget c page
      = (Returned tt,
         Universal.mkPage
           (tracked (Universal.runtime page) c
              (mkRoot (rootCounter (Universal.runtime page)) c)
              (universal_element C value) lines)
           (nodeId c :: Universal.initialized page)).
Proof.
  unfold universal_mountable, Universal.mountWidget, universal_element, tracked.
  destruct (truthy (getAttribute c "data-react-component")) as [name|];
    [|discriminate].
  intros H. apply bool_decide_eq_true in H as [C HC]. exists C.
  destruct (truthy (getAttribute c "data-source")) as [source|].
  - destruct (getElementById source) as [text|].
    + destruct (parse_json text) as [value|] eqn:Hp.
      * exists value, []. intros page. run_page. rewrite HC. run_page.
        rewrite Hp. cbn. rewrite app_nil_r, <- app_assoc. reflexivity.
      * eexists (JObject []), [_]. intros page. run_page. rewrite HC. run_page.
        rewrite Hp. cbn. rewrite <- app_assoc. reflexivity.
    + exists (JObject []), []. intros page. run_page. rewrite HC. run_page.
      cbn. rewrite app_nil_r, <- app_assoc. reflexivity.
  - destruct (truthy (getAttribute c "data-props")) as [text|].
    + destruct (parse_json text) as [value|] eqn:Hp.
      * exists value, []. intros page. run_page. rewrite HC. run_page.
        rewrite Hp. cbn. rewrite app_nil_r, <- app_assoc. reflexivity.
      * eexists (JObject []), [_]. intros page. run_page. rewrite HC. run_page.
        rewrite Hp. cbn. rewrite <- app_assoc. reflexivity.
    + exists (JObject []), []. intros page. run_page. rewrite HC. run_page.
      cbn. rewrite app_nil_r, <- app_assoc. reflexivity.
Qed.

Lemma forEachU_returned {A} (callback : A -> Universal.U unit) item rest
    page page' :
  callback item page = (Returned tt, page') ->
  Universal.forEachU (item :: rest) callback page
  = Universal.forEachU rest callback page'.
Proof. intros H. simpl. unfold Universal.andThen. rewrite H. reflexivity. Qed.

(** A loop of [mountWidget] marks every container it can mount, forgets
    no mark and keeps the table a [Map]. *)
Lemma universal_loop cs page :
  exists page1,
    Universal.forEachU cs mountWidget page = (Returned tt, page1) /\
    (forall i, i ∈ Universal.initialized page ->
               i ∈ Universal.initialized page1) /\
    (forall c, In c cs -> mountable c = true ->
               nodeId c ∈ Universal.initialized page1) /\
    (JSMap.wf (activeRoots (Universal.runtime page)) ->
     JSMap.wf (activeRoots (Universal.runtime page1))).
Proof.
  revert page. induction cs as [|c rest IH]; intros page.
  - exists page. split; [reflexivity|]. split; [trivial|].
    split; [intros c []| trivial].
  - destruct (mountable c) eqn:Hok.
    + destruct (universal_mount_tracks c Hok) as (C & value & lines & Hstep).
      specialize (Hstep page).
      match type of Hstep with _ = (_, ?p) =>
        destruct (IH p) as (page1 & Hrun & Hmono & Hmarks & Hwf) end.
      exists page1. rewrite (forEachU_returned _ _ _ _ _ Hstep).
      split; [exact Hrun|]. cbn in Hmono, Hwf. split; [|split].
      * intros i Hi. apply Hmono. apply list_elem_of_further. exact Hi.
      * intros c' [<-|Hin] Hc'; [|exact (Hmarks c' Hin Hc')].
        apply Hmono. apply list_elem_of_here.
      * intros H. apply Hwf. apply wf_set. exact H.
    + destruct (universal_mount_skips c page Hok) as (lines & Hstep).
      destruct (IH (page_logged page lines))
        as (page1 & Hrun & Hmono & Hmarks & Hwf).
      exists page1. rewrite (forEachU_returned _ _ _ _ _ Hstep).
      split; [exact Hrun|]. split; [exact Hmono|]. split; [|exact Hwf].
      intros c' [<-|Hin] Hc'; [congruence | exact (Hmarks c' Hin Hc')].
Qed.

Lemma page_logged_logged page a b :
  page_logged (page_logged page a) b = page_logged page (a ++ b).
Proof. unfold page_logged. cbn. rewrite logged_logged. reflexivity. Qed.

Lemma universal_loop_settled cs page :
  Forall (fun c => mountable c = false) cs ->
  exists lines,
    Universal.forEachU cs mountWidget page
    = (Returned tt, page_logged page lines).
Proof.
  revert page. induction cs as [|c rest IH]; intros page Hall.
  - exists []. unfold page_logged. rewrite logged_empty.
    destruct page. reflexivity.
  - apply Forall_cons in Hall as [Hc Hrest].
    destruct (universal_mount_skips c page Hc) as (lines0 & Hstep).
    destruct (IH (page_logged page lines0) Hrest) as (lines & Hrun).
    exists (lines0 ++ lines). rewrite (forEachU_returned _ _ _ _ _ Hstep), Hrun.
    rewrite page_logged_logged. reflexivity.
Qed.

(** The containers a scan still selects on a page whose marks include
    those a scan from [page] leaves cannot be mounted. *)
Lemma universal_selected_later document page page1 page2 :
  (forall i, i ∈ Universal.initialized page ->
             i ∈ Universal.initialized page1) ->
  (forall c, In c (List.filter (Universal.selected getAttribute page)
                     (descendants document)) ->
             mountable c = true -> nodeId c ∈ Universal.initialized page1) ->
  Universal.initialized page2 = Universal.initialized page1 ->
  Forall (fun c => mountable c = false)
    (List.filter (Universal.selected getAttribute page2)
       (descendants document)).
Proof.
  intros Hmono Hmarks Hsame. apply Forall_forall. intros c Hc.
  apply list_elem_of_In in Hc. apply filter_In in Hc as [Hin Hsel].
  destruct (mountable c) eqn:Hok; [exfalso|reflexivity].
  unfold Universal.selected in Hsel. rewrite Hsame in Hsel.
  apply andb_true_iff in Hsel as [Hstatic Hfresh].
  apply negb_true_iff, bool_decide_eq_false in Hfresh. apply Hfresh.
  apply Hmarks; [|exact Hok]. apply filter_In. split; [exact Hin|].
  unfold Universal.selected. rewrite Hstatic. cbn.
  apply negb_true_iff, bool_decide_eq_false. intros Hi.
  apply Hfresh. apply Hmono. exact Hi.
Qed.
End UniversalSteps.

(** X17: [mountWidget] of the universal mount script has no guard
    against a second call.  Called twice on a container that names a
    registered component, it creates and renders two roots in the same
    container; the table keeps one entry for the container, holding the
    second root, so the first root is no longer reachable from the
    table and is not unmounted. *)
Theorem universal_second_mount_replaces_the_root
    (parse_json : string -> option JSON)
    (componentRegistry : gmap string Component)
    (getAttribute : Node -> string -> option string)
    (getElementById : string -> option string)
    (container : Node) (page : Universal.Page) :
  let n := rootCounter (Universal.runtime page) in
  universal_mountable componentRegistry getAttribute container = true ->
  exists page1 page2 element,
    Universal.mountWidget parse_json componentRegistry getAttribute
      getElementById container page = (Returned tt, page1) /\
    Universal.mountWidget parse_json componentRegistry getAttribute
      getElementById container page1 = (Returned tt, page2) /\
    effects (Universal.runtime page2)
      = effects (Universal.runtime page)
        ++ [CreateRoot container n; Render n element;
            CreateRoot container (S n); Render (S n) element] /\
    JSMap.get (activeRoots (Universal.runtime page2)) container
      = Some (mkRoot (S n) container) /\
    JSMap.ids (activeRoots (Universal.runtime page2))
      = JSMap.ids (activeRoots (Universal.runtime page1)).
Proof.
  intros n Hok.
  destruct (universal_mount_tracks parse_json componentRegistry getAttribute
              getElementById container Hok) as (C & value & lines & Hstep).
  eexists _, _, (universal_element C value).
  split; [apply Hstep|]. split; [apply Hstep|].
  unfold tracked. cbn. split; [|split].
  - rewrite <- app_assoc. reflexivity.
  - apply get_set_same.
  - apply ids_set_present. rewrite get_set_same. discriminate.
Qed.

(** The chart widget mounted twice on a fresh page. *)
Lemma universal_second_mount_witness :
  universal_mountable demo_registry chart_attributes product_card = true /\
  exists page2,
    snd (Universal.mountWidget sample_parse demo_registry chart_attributes
           no_script product_card
           (snd (Universal.mountWidget sample_parse demo_registry
                   chart_attributes no_script product_card fresh_page)))
    = page2 /\
    JSMap.get (activeRoots (Universal.runtime page2)) product_card
    = Some (mkRoot 1 product_card).
Proof.
  assert (Hok : universal_mountable demo_registry chart_attributes
                  product_card = true) by (vm_compute; reflexivity).
  split; [exact Hok|].
  destruct (universal_second_mount_replaces_the_root sample_parse
              demo_registry chart_attributes no_script product_card
              fresh_page Hok)
    as (page1 & page2 & element & H1 & H2 & _ & Hget & _).
  exists page2. rewrite H1. cbn [snd]. rewrite H2. split; [reflexivity|].
  exact Hget.
Defined.

(** X18: a second [initializeWidgets] of the universal mount script
    mounts nothing.  Whatever the page, the first call returns
    normally, and a second call on the page it leaves returns normally
    and only writes to the console: every container the first call
    mounted carries the mark [data-react-initialized] and is no longer
    selected. *)
Theorem universal_rescan_mounts_nothing
    (parse_json : string -> option JSON)
    (componentRegistry : gmap string Component)
    (getAttribute : Node -> string -> option string)
    (getElementById : string -> option string)
    (document : Node) (page : Universal.Page) :
  exists page1 lines,
    Universal.initializeWidgets parse_json componentRegistry getAttribute
      getElementById document page = (Returned tt, page1) /\
    Universal.initializeWidgets parse_json componentRegistry getAttribute
      getElementById document page1 = (Returned tt, page_logged page1 lines).
Proof.
  unfold Universal.initializeWidgets.
  destruct (universal_loop parse_json componentRegistry getAttribute
              getElementById
              (List.filter (Universal.selected getAttribute page)
                 (descendants document)) page)
    as (page1 & Hrun & Hmono & Hmarks & _).
  destruct (universal_loop_settled parse_json componentRegistry getAttribute
              getElementById
              (List.filter (Universal.selected getAttribute page1)
                 (descendants document)) page1
              (universal_selected_later componentRegistry getAttribute
                 document page page1 page1 Hmono Hmarks eq_refl))
    as (lines & Hagain).
  exists page1, lines. split; assumption.
Qed.

(** X19: the universal mount script cannot bring its widgets back.
    After [initializeWidgets], an [unmountAllWidgets] in which no
    [unmount] throws empties the table but leaves the marks
    [data-react-initialized] in place, so a further [initializeWidgets]
    mounts nothing: the table stays empty and no root is created. *)
Theorem universal_teardown_is_final
    (parse_json : string -> option JSON) (unmount_throws : nat -> bool)
    (componentRegistry : gmap string Component)
    (getAttribute : Node -> string -> option string)
    (getElementById : string -> option string)
    (document : Node) (page : Universal.Page) :
  JSMap.wf (activeRoots (Universal.runtime page)) ->
  (forall r, unmount_throws r = false) ->
  exists page1 page2 lines,
    Universal.initializeWidgets parse_json componentRegistry getAttribute
      getElementById document page = (Returned tt, page1) /\
    Universal.unmountAllWidgets unmount_throws page1 = (Returned tt, page2) /\
    activeRoots (Universal.runtime page2) = [] /\
    Universal.initialized page2 = Universal.initialized page1 /\
    Universal.initializeWidgets parse_json componentRegistry getAttribute
      getElementById document page2 = (Returned tt, page_logged page2 lines).
Proof.
  intros Hwf Hquiet. unfold Universal.initializeWidgets.
  destruct (universal_loop parse_json componentRegistry getAttribute
              getElementById
              (List.filter (Universal.selected getAttribute page)
                 (descendants document)) page)
    as (page1 & Hrun & Hmono & Hmarks & Hwf1).
  specialize (Hwf1 Hwf).
  pose proof (doc_unmount_all_until_throw unmount_throws
                (Universal.runtime page1)
                (activeRoots (Universal.runtime page1)) []
                Hwf1 (eq_sym (app_nil_r _))) as Hdown.
  specialize (Hdown ltac:(apply Forall_forall; intros r _; apply Hquiet) I).
  cbn in Hdown.
  assert (Hall : Universal.unmountAllWidgets unmount_throws page1
                 = (Returned tt,
                    Universal.mkPage
                      (mkRuntime [] (console (Universal.runtime page1))
                         (effects (Universal.runtime page1)
                          ++ teardown_calls
                               (map snd (activeRoots (Universal.runtime page1)))
                               [])
                         (rootCounter (Universal.runtime page1)))
                      (Universal.initialized page1))).
  { unfold Universal.unmountAllWidgets, Universal.lift.
    change (Map_forEach (fun root _ => unmount unmount_throws root) >>
            update (fun _ => []))
      with (DesignDoc.unmountAllWidgets unmount_throws).
    rewrite Hdown. reflexivity. }
  match type of Hall with _ = (_, ?p) =>
    destruct (universal_loop_settled parse_json componentRegistry getAttribute
                getElementById
                (List.filter (Universal.selected getAttribute p)
                   (descendants document)) p
                (universal_selected_later componentRegistry getAttribute
                   document page page1 p Hmono Hmarks eq_refl))
      as (lines & Hagain) end.
  eexists page1, _, lines. split; [exact Hrun|]. split; [exact Hall|].
  split; [reflexivity|]. split; [reflexivity | exact Hagain].
Qed.

(** A fresh page with the chart widget: scan, teardown, scan. *)
Lemma universal_teardown_witness :
  JSMap.wf (activeRoots (Universal.runtime fresh_page)) /\
  exists page1 page2 lines,
    Universal.initializeWidgets sample_parse demo_registry chart_attributes
      no_script demo_page fresh_page = (Returned tt, page1) /\
    Universal.unmountAllWidgets never page1 = (Returned tt, page2) /\
    Universal.initializeWidgets sample_parse demo_registry chart_attributes
      no_script demo_page page2 = (Returned tt, page_logged page2 lines) /\
    activeRoots (Universal.runtime page2) = [].
Proof.
  assert (Hwf : JSMap.wf (activeRoots (Universal.runtime fresh_page)))
    by apply NoDup_nil_2.
  split; [exact Hwf|].
  destruct (universal_teardown_is_final sample_parse never demo_registry
              chart_attributes no_script demo_page fresh_page Hwf
              (fun _ => eq_refl))
    as (page1 & page2 & lines & H1 & H2 & Hempty & _ & H3).
  exists page1, page2, lines. split; [exact H1|]. split; [exact H2|].
  split; [exact H3 | exact Hempty].
Defined.

(** X20: in the universal mount script a failure to parse the props
    does not keep the widget from mounting.  When the text the props
    are read from (the script element named by [data-source]) does not
    parse, [mountWidget] logs the error, then creates the root,
    records it, renders the component with empty props and marks the
    container. *)
Theorem universal_mounts_despite_malformed_props
    (parse_json : string -> option JSON)
    (componentRegistry : gmap string Component)
    (getAttribute : Node -> string -> option string)
    (getElementById : string -> option string)
    (container : Node) (name source text : string) (C : Component)
    (page : Universal.Page) :
  truthy (getAttribute container "data-react-component") = Some name ->
  componentRegistry !! name = Some C ->
  truthy (getAttribute container "data-source") = Some source ->
  getElementById source = Some text ->
  parse_json text = None ->
  Universal.mountWidget parse_json componentRegistry getAttribute
    getElementById container page
  = (Returned tt,
     Universal.mkPage
       (tracked (Universal.runtime page) container
          (mkRoot (rootCounter (Universal.runtime page)) container)
          (universal_element C (JObject []))
          [mkLog Error (Universal.parse_error name)
             (ErrorArg (SyntaxError text))])
       (nodeId container :: Universal.initialized page)).
Proof.
  intros Hname HC Hsource Htext Hparse. apply Get_own in HC.
  unfold Universal.mountWidget, universal_element, tracked.
  rewrite Hname, Hsource, Htext. run_page. rewrite HC. run_page.
  rewrite Hparse. cbn. rewrite <- app_assoc. reflexivity.
Qed.

(** The chart widget whose script element holds malformed JSON. *)
Lemma universal_malformed_props_witness :
  exists page',
    Universal.mountWidget sample_parse demo_registry chart_attributes
      broken_script product_card fresh_page = (Returned tt, page') /\
    JSMap.has (activeRoots (Universal.runtime page')) product_card = true.
Proof.
  eexists. split.
  - apply (universal_mounts_despite_malformed_props sample_parse demo_registry
             chart_attributes broken_script product_card
             "ProductCard" "chart-data-1" "{not valid json"
             (Lazy "./components/ProductCard") fresh_page);
      vm_compute; reflexivity.
  - vm_compute. reflexivity.
Defined.

(** X21: [data-source] takes precedence over [data-props] in the
    universal mount script.  When a container carries a [data-source]
    that names no element of the document, its [data-props] is not
    read: the component is rendered with empty props and nothing is
    logged, whatever [data-props] holds. *)
Theorem universal_data_source_hides_data_props
    (parse_json : string -> option JSON)
    (componentRegistry : gmap string Component)
    (getAttribute : Node -> string -> option string)
    (getElementById : string -> option string)
    (container : Node) (name source : string) (C : Component)
    (page : Universal.Page) :
  truthy (getAttribute container "data-react-component") = Some name ->
  componentRegistry !! name = Some C ->
  truthy (getAttribute container "data-source") = Some source ->
  getElementById source = None ->
  Universal.mountWidget parse_json componentRegistry getAttribute
    getElementById container page
  = (Returned tt,
     Universal.mkPage
       (tracked (Universal.runtime page) container
          (mkRoot (rootCounter (Universal.runtime page)) container)
          (universal_element C (JObject [])) [])
       (nodeId container :: Universal.initialized page)).
Proof.
  intros Hname HC Hsource Htext. apply Get_own in HC.
  unfold Universal.mountWidget, universal_element, tracked.
  rewrite Hname, Hsource, Htext. run_page. rewrite HC. run_page.
  cbn. rewrite app_nil_r, <- app_assoc. reflexivity.
Qed.

(** The chart widget has parseable [data-props], but its [data-source]
    names a missing element. *)
Lemma universal_data_source_witness :
  sample_parse "[1,2]" = Some (JArray [JNumber number_1; JNumber number_2]) /\
  effects
    (Universal.runtime
       (snd (Universal.mountWidget sample_parse demo_registry chart_attributes
               no_script product_card fresh_page)))
  = [CreateRoot product_card 0;
     Render 0 (universal_element (Lazy "./components/ProductCard")
                 (JObject []))].
Proof.
  split; [reflexivity|].
  rewrite (universal_data_source_hides_data_props sample_parse demo_registry
             chart_attributes no_script product_card
             "ProductCard" "chart-data-1"
             (Lazy "./components/ProductCard") fresh_page);
    reflexivity.
Defined.

(** ** Scanning again, in [main.tsx] and in the universal script *)

Section UniversalRescan.
Variable parse_json : string -> option JSON.
Variable componentRegistry : gmap string Component.
Variable getAttribute : Node -> string -> option string.
Variable getElementById : string -> option string.
Implicit Types (page : Universal.Page) (c : Node).

Lemma universal_mount_diagnostic c page :
  universal_mountable componentRegistry getAttribute c = false ->
  Universal.mountWidget parse_json componentRegistry getAttribute
    getElementById c page
  = (Returned tt, page_logged page [universal_skip_diagnostic getAttribute c]).
Proof.
  unfold universal_mountable, universal_skip_diagnostic,
    Universal.mountWidget, page_logged.
  destruct (truthy (getAttribute c "data-react-component")) as [name|].
  2:{ intros _. run_page. unfold logged. reflexivity. }
  intros H. run_page.
  destruct (Get componentRegistry name) as [C|] eqn:HC.
  { exfalso. apply bool_decide_eq_false in H. apply H. eexists. reflexivity. }
  run_page. unfold logged. reflexivity.
Qed.

Lemma universal_loop_diagnostics cs page :
  Forall (fun c => universal_mountable componentRegistry getAttribute c = false)
         cs ->
  Universal.forEachU cs
    (Universal.mountWidget parse_json componentRegistry getAttribute
       getElementById) page
  = (Returned tt,
     page_logged page (map (universal_skip_diagnostic getAttribute) cs)).
Proof.
  revert page. induction cs as [|c rest IH]; intros page Hall.
  - unfold page_logged. cbn [map]. rewrite logged_empty.
    destruct page. reflexivity.
  - apply Forall_cons in Hall as [Hc Hrest].
    rewrite (forEachU_returned _ _ _ _ _ (universal_mount_diagnostic c page Hc)).
    rewrite (IH _ Hrest), page_logged_logged. reflexivity.
Qed.
End UniversalRescan.

(** C4, amended: a second scan of the unchanged document returns
    normally, leaves the tracking table as the first scan left it and
    creates, renders and unmounts no root.  [initializeWidgets] of the
    universal mount script no longer selects the containers it has
    mounted, so its second scan logs nothing about them: it only
    repeats the diagnostic of each container it could not mount.
    [initializeWidgets] of [main.tsx] meets every container again and
    logs one warning for each, which for every container tracked after
    the first scan is the "Widget already mounted" warning. *)
Theorem rescan_keeps_table_and_roots
    (parse_json : string -> option JSON) (registry : gmap string Component)
    (document : Node) :
  (forall st : Runtime MainTsx.RootEntry,
     let containers :=
       querySelectorAll document (ByClass "react-widget-container") in
     exists st1 st2,
       MainTsx.initializeWidgets parse_json registry document st
         = (Returned tt, st1) /\
       MainTsx.initializeWidgets parse_json registry document st1
         = (Returned tt, st2) /\
       activeRoots st2 = activeRoots st1 /\
       effects st2 = effects st1 /\
       rootCounter st2 = rootCounter st1 /\
       console st2
         = console st1
           ++ scanning_log
              :: map (tsx_skip_diagnostic registry (activeRoots st1))
                   containers /\
       (forall c, In c containers ->
          JSMap.has (activeRoots st1) c = true ->
          In (mkLog Warn MainTsx.already_mounted (NodeArg c))
             (map (tsx_skip_diagnostic registry (activeRoots st1))
                containers))) /\
  (forall (getAttribute : Node -> string -> option string)
          (getElementById : string -> option string) (page : Universal.Page),
     exists page1 page2 again,
       Universal.initializeWidgets parse_json registry getAttribute
         getElementById document page = (Returned tt, page1) /\
       Universal.initializeWidgets parse_json registry getAttribute
         getElementById document page1 = (Returned tt, page2) /\
       again = List.filter (Universal.selected getAttribute page1)
                 (descendants document) /\
       activeRoots (Universal.runtime page2)
         = activeRoots (Universal.runtime page1) /\
       effects (Universal.runtime page2) = effects (Universal.runtime page1) /\
       rootCounter (Universal.runtime page2)
         = rootCounter (Universal.runtime page1) /\
       Universal.initialized page2 = Universal.initialized page1 /\
       console (Universal.runtime page2)
         = console (Universal.runtime page1)
           ++ map (universal_skip_diagnostic getAttribute) again /\
       Forall (fun c =>
                 universal_mountable registry getAttribute c = false /\
                 nodeId c ∉ Universal.initialized page1)
              again).
Proof.
  split.
  - intros st containers. unfold MainTsx.initializeWidgets. fold containers.
    destruct (tsx_forEach_settles parse_json registry containers
                (logged st [scanning_log])) as (st1 & Hrun & Hall & _).
    exists st1.
    exists (logged st1
              (scanning_log
               :: map (tsx_skip_diagnostic registry (activeRoots st1))
                    containers)).
    split; [rewrite tsx_scan_unfold; exact Hrun|]. split.
    + rewrite tsx_scan_unfold.
      rewrite (tsx_forEach_settled parse_json registry containers
                 (logged st1 [scanning_log]) Hall).
      rewrite logged_logged. reflexivity.
    + split; [reflexivity|]. split; [reflexivity|]. split; [reflexivity|].
      split; [reflexivity|].
      intros c Hin Hhas. apply in_map_iff. exists c. split; [|exact Hin].
      unfold tsx_skip_diagnostic. rewrite Hhas. reflexivity.
  - intros getAttribute getElementById page.
    unfold Universal.initializeWidgets.
    destruct (universal_loop parse_json registry getAttribute getElementById
                (List.filter (Universal.selected getAttribute page)
                   (descendants document)) page)
      as (page1 & Hrun & Hmono & Hmarks & _).
    pose proof (universal_selected_later registry getAttribute document
                  page page1 page1 Hmono Hmarks eq_refl) as Hall.
    eexists page1, _, _. split; [exact Hrun|].
    split; [apply universal_loop_diagnostics; exact Hall|].
    split; [reflexivity|]. cbn.
    split; [reflexivity|]. split; [reflexivity|]. split; [reflexivity|].
    split; [reflexivity|]. split; [reflexivity|].
    apply Forall_forall. intros c Hc. split.
    + rewrite Forall_forall in Hall. apply Hall. exact Hc.
    + apply list_elem_of_In in Hc. apply filter_In in Hc as [_ Hsel].
      unfold Universal.selected in Hsel.
      apply andb_true_iff in Hsel as [_ Hfresh].
      apply negb_true_iff, bool_decide_eq_false in Hfresh. exact Hfresh.
Qed.

(** Scanning the demo page twice with [main.tsx], and the page of the
    chart widget twice with the universal script. *)
Lemma rescan_witness :
  (exists st1 st2,
     MainTsx.initializeWidgets sample_parse demo_registry demo_page initial
       = (Returned tt, st1) /\
     MainTsx.initializeWidgets sample_parse demo_registry demo_page st1
       = (Returned tt, st2) /\
     activeRoots st2 = activeRoots st1 /\
     In (mkLog Warn MainTsx.already_mounted (NodeArg product_card))
        (console st2)) /\
  (exists page1 page2,
     Universal.initializeWidgets sample_parse demo_registry chart_attributes
       no_script demo_page fresh_page = (Returned tt, page1) /\
     Universal.initializeWidgets sample_parse demo_registry chart_attributes
       no_script demo_page page1 = (Returned tt, page2) /\
     JSMap.keys (activeRoots (Universal.runtime page1)) = [product_card] /\
     page2 = page1).
Proof.
  pose proof (rescan_keeps_table_and_roots sample_parse demo_registry
                demo_page) as [Htsx Huniversal].
  split.
  - destruct (Htsx initial)
      as (st1 & st2 & H1 & H2 & Htable & _ & _ & Hconsole & Hwarn).
    exists st1, st2. split; [exact H1|]. split; [exact H2|].
    split; [exact Htable|].
    rewrite Hconsole. apply in_or_app. right. right.
    apply Hwarn; [left; reflexivity|].
    vm_compute in H1. injection H1 as <-. reflexivity.
  - destruct (Huniversal chart_attributes no_script fresh_page)
      as (page1 & page2 & again & H1 & H2 & _).
    exists page1, page2. split; [exact H1|]. split; [exact H2|].
    vm_compute in H1. injection H1 as <-.
    vm_compute in H2. injection H2 as <-.
    split; reflexivity.
Defined.
